(** * Subscription manager: active/background channel lifecycle

    A shallow embedding of the [SubscriptionManager] class (subscription
    manager module of the messaging client) and the properties of its
    state controller, background poller and activity tracking.

    - JavaScript numbers are integers [Z] (timestamps in milliseconds,
      counters, indices); [%] is the truncating remainder [Z.rem]; an array
      read out of range is [None] ([undefined]).
    - The [Map] of activity records is a [gmap] keyed by stream identifier.
      Records are values: the class shares one object between the map and
      the callbacks, which matters only to a callback that writes to it.
    - The collaborators ([channelManager], [streamrController],
      [secureStorage], the clock, the timers and the registered callbacks)
      are not part of the class.  They are an environment of oracles that
      answer from the interaction history, so quantifying over the
      environment covers every sequence of answers.  A rejection carries an
      error object; callbacks may throw but do not call back into the
      manager.
    - Methods run to completion one after the other.  An [await] shows as a
      call event followed by its settlement event; every event records the
      fields of the manager at the moment it is issued, which is what work
      interleaved at that suspension point would read.  Interleavings
      themselves are not explored.
    - Logging has no effect on the manager and is left out. *)

From stdpp Require Import base strings gmap list.
From Stdlib Require Import ZArith Lia.

Local Open Scope Z_scope.

(** ** Data *)

(** streamId -> { lastMessageTime, unreadCount, lastChecked } *)
Record ChannelActivity := mkActivity {
  lastMessageTime : Z;
  unreadCount : Z;
  lastChecked : Z
}.

(** A message as far as the manager reads it: [msg.timestamp], [None] when
    the property is absent. *)
Record Message := mkMessage { timestamp : option Z }.

(** A channel object of the registry: [streamId], [password], [messages]. *)
Record Channel := mkChannel {
  streamId : string;
  password : option string;
  messages : option (list Message)
}.

Record Config := mkConfig {
  POLL_INTERVAL : Z;
  POLL_BATCH_SIZE : Z;
  POLL_STAGGER_DELAY : Z;
  MIN_POLL_INTERVAL : Z;
  MAX_CONCURRENT_SUBS : Z;
  ACTIVITY_CHECK_MESSAGES : Z
}.

(** A partial configuration object, as passed to [updateConfig]. *)
Record PartialConfig := mkPartialConfig {
  p_POLL_INTERVAL : option Z;
  p_POLL_BATCH_SIZE : option Z;
  p_POLL_STAGGER_DELAY : option Z;
  p_MIN_POLL_INTERVAL : option Z;
  p_MAX_CONCURRENT_SUBS : option Z;
  p_ACTIVITY_CHECK_MESSAGES : option Z
}.

(** Callbacks are known by identity only. *)
Definition Handler := nat.

(** The fields of the class instance. *)
Record SubscriptionManager := mkManager {
  activeChannelId : option string;
  activeSubscriptionHandlers : option nat;
  backgroundPoller : option Z;
  channelActivity : gmap string ChannelActivity;
  activityHandlers : list Handler;
  config : Config;
  pollIndex : Z;
  isPolling : bool
}.

(** The constructor. *)
Definition defaultConfig : Config :=
  {| POLL_INTERVAL := 30000;
     POLL_BATCH_SIZE := 3;
     POLL_STAGGER_DELAY := 2000;
     MIN_POLL_INTERVAL := 10000;
     MAX_CONCURRENT_SUBS := 1;
     ACTIVITY_CHECK_MESSAGES := 3 |}.

Definition constructor : SubscriptionManager :=
  {| activeChannelId := None;
     activeSubscriptionHandlers := None;
     backgroundPoller := None;
     channelActivity := ∅;
     activityHandlers := [];
     config := defaultConfig;
     pollIndex := 0;
     isPolling := false |}.

(** Field assignments. *)
Definition set_activeChannelId (v : option string) (m : SubscriptionManager) :=
  mkManager v (activeSubscriptionHandlers m) (backgroundPoller m)
    (channelActivity m) (activityHandlers m) (config m) (pollIndex m) (isPolling m).
Definition set_activeSubscriptionHandlers (v : option nat) (m : SubscriptionManager) :=
  mkManager (activeChannelId m) v (backgroundPoller m)
    (channelActivity m) (activityHandlers m) (config m) (pollIndex m) (isPolling m).
Definition set_backgroundPoller (v : option Z) (m : SubscriptionManager) :=
  mkManager (activeChannelId m) (activeSubscriptionHandlers m) v
    (channelActivity m) (activityHandlers m) (config m) (pollIndex m) (isPolling m).
Definition set_channelActivity (v : gmap string ChannelActivity)
    (m : SubscriptionManager) :=
  mkManager (activeChannelId m) (activeSubscriptionHandlers m) (backgroundPoller m)
    v (activityHandlers m) (config m) (pollIndex m) (isPolling m).
Definition set_activityHandlers (v : list Handler) (m : SubscriptionManager) :=
  mkManager (activeChannelId m) (activeSubscriptionHandlers m) (backgroundPoller m)
    (channelActivity m) v (config m) (pollIndex m) (isPolling m).
Definition set_config (v : Config) (m : SubscriptionManager) :=
  mkManager (activeChannelId m) (activeSubscriptionHandlers m) (backgroundPoller m)
    (channelActivity m) (activityHandlers m) v (pollIndex m) (isPolling m).
Definition set_pollIndex (v : Z) (m : SubscriptionManager) :=
  mkManager (activeChannelId m) (activeSubscriptionHandlers m) (backgroundPoller m)
    (channelActivity m) (activityHandlers m) (config m) v (isPolling m).
Definition set_isPolling (v : bool) (m : SubscriptionManager) :=
  mkManager (activeChannelId m) (activeSubscriptionHandlers m) (backgroundPoller m)
    (channelActivity m) (activityHandlers m) (config m) (pollIndex m) v.

(** [this.channelActivity.set(streamId, activity)] *)
Definition activity_set (id : string) (a : ChannelActivity) (m : SubscriptionManager) :=
  set_channelActivity (<[id := a]> (channelActivity m)) m.

(** ** Interaction with the collaborators *)

(** What leaves the manager: requests to the transport and their
    settlement, timer waits, callback invocations, persistence writes. *)
Inductive Event :=
  | EvSubscribe (id : string) (pw : option string)
  | EvSubscribeSettled (id : string) (ok : bool)
  | EvUnsubscribe (id : string)
  | EvUnsubscribeSettled (id : string) (ok : bool)
  | EvFetch (id : string) (partition before limit : Z) (pw : option string)
  | EvFetchSettled (id : string) (ok : bool)
  | EvDelay (ms : Z)
  | EvNotify (h : Handler) (id : string) (a : ChannelActivity)
  | EvSetInterval (ms : Z)
  | EvSetTimeout (ms : Z)
  | EvClearInterval (handle : Z)
  | EvSetLastOpenedChannel (id : option string).

(** An event together with the manager's fields at the moment it is
    issued: what a collaborator, or work scheduled at that suspension
    point, can read through the queries. *)
Record Obs := mkObs { seen : SubscriptionManager; ev : Event }.

(** The answer of [fetchOlderHistory]: a rejection, or an object whose
    [messages] property may be absent. *)
Inductive FetchResult :=
  | Rejected
  | Resolved (msgs : option (list Message)).

(** The collaborators, whose modules are outside the class.  Answers that
    may differ from call to call take the history (which ends with the call
    itself).  The awaited calls can be rejected: the transport requests
    and the write of the last opened channel to the persistent store; the
    callbacks can throw.  The synchronous reads of the channel registry and
    of the store are plain lookups. *)
Record Env := mkEnv {
  now : list Obs → Z;
  subscribeToChannel_ok : list Obs → bool;
  unsubscribe_ok : list Obs → bool;
  fetchOlderHistory_result : list Obs → FetchResult;
  handler_ok : list Obs → bool;
  setInterval_handle : list Obs → Z;
  setLastOpenedChannel_ok : list Obs → bool;
  getChannel : string → option Channel;
  getAllChannels : list Channel;
  getAllChannelLastAccess : string → option Z;
  getLastOpenedChannel : option string
}.

(** ** A state and exception monad *)

Inductive Error :=
  | SubscribeError
  | UnsubscribeError
  | FetchError
  | HandlerError
  | StoreError
  | TypeError.

Inductive Res (A : Type) :=
  | Ok (a : A)
  | Throw (e : Error).
Arguments Ok {A} a.
Arguments Throw {A} e.

Record Sys := mkSys { mgr : SubscriptionManager; hist : list Obs }.

Definition M (A : Type) : Type := Sys → Res A * Sys.

Definition ret {A} (a : A) : M A := λ s, (Ok a, s).
Definition throw {A} (e : Error) : M A := λ s, (Throw e, s).
Definition bind {A B} (m : M A) (k : A → M B) : M B :=
  λ s, match m s with
       | (Ok a, s') => k a s'
       | (Throw e, s') => (Throw e, s')
       end.

Declare Scope js_scope.
Delimit Scope js_scope with js.
Notation "x <- m ;; k" := (bind m (λ x, k))
  (at level 100, m at next level, k at level 200, right associativity) : js_scope.
Notation "m ;; k" := (bind m (λ _, k))
  (at level 100, k at level 200, right associativity) : js_scope.
Local Open Scope js_scope.

(** [try { m } catch (error) { h error }] *)
Definition try_catch {A} (m : M A) (h : Error → M A) : M A :=
  λ s, match m s with
       | (Ok a, s') => (Ok a, s')
       | (Throw e, s') => h e s'
       end.

(** [try { m } finally { f }] *)
Definition try_finally {A} (m : M A) (f : M unit) : M A :=
  λ s, match m s with
       | (r, s') => match f s' with
                    | (Ok _, s'') => (r, s'')
                    | (Throw e, s'') => (Throw e, s'')
                    end
       end.

Definition this : M SubscriptionManager := λ s, (Ok (mgr s), s).
Definition assign (f : SubscriptionManager → SubscriptionManager) : M unit :=
  λ s, (Ok tt, mkSys (f (mgr s)) (hist s)).
Definition emit (e : Event) : M unit :=
  λ s, (Ok tt, mkSys (mgr s) (hist s ++ [mkObs (mgr s) e])).
Definition ask {A} (f : list Obs → A) : M A := λ s, (Ok (f (hist s)), s).

(** The result and the final state of a run. *)
Definition result {A} (r : Res A * Sys) : Res A := fst r.
Definition final {A} (r : Res A * Sys) : Sys := snd r.
(** The events issued by a run started in [s]. *)
Definition issued {A} (s : Sys) (r : Res A * Sys) : list Obs :=
  drop (length (hist s)) (hist (final r)).

(** ** JavaScript idioms *)

(** [!streamId] on a string or null. *)
Definition falsy (o : option string) : bool :=
  match o with
  | None => true
  | Some id => bool_decide (id = "")
  end.

(** [channel.password || null] *)
Definition or_null (o : option string) : option string :=
  match o with
  | Some pw => if bool_decide (pw = "") then None else Some pw
  | None => None
  end.

(** [x || y] on numbers: zero and a missing value are falsy. *)
Definition num_or (o : option Z) (d : Z) : Z :=
  match o with
  | Some 0 => d
  | Some x => x
  | None => d
  end.

(** [arr[i]] *)
Definition js_index {A} (arr : list A) (i : Z) : option A :=
  if (0 <=? i) then arr !! Z.to_nat i else None.

(** [arr.length] *)
Definition len {A} (arr : list A) : Z := Z.of_nat (length arr).

(** The values of [i] in [for (let i = 0; i < n; i++)]. *)
Definition upto (n : Z) : list Z := Z.of_nat <$> seq 0 (Z.to_nat n).

(** ** The methods of the class *)

Section Manager.

Variable env : Env.

(** [Date.now()] *)
Definition dateNow : M Z := ask (now env).

(** [await streamrController.unsubscribe(streamId)] *)
Definition await_unsubscribe (id : string) : M unit :=
  emit (EvUnsubscribe id);;
  ok <- ask (unsubscribe_ok env);;
  emit (EvUnsubscribeSettled id ok);;
  if ok then ret tt else throw UnsubscribeError.

(** [await channelManager.subscribeToChannel(streamId, password)] *)
Definition await_subscribeToChannel (id : string) (pw : option string) : M unit :=
  emit (EvSubscribe id pw);;
  ok <- ask (subscribeToChannel_ok env);;
  emit (EvSubscribeSettled id ok);;
  if ok then ret tt else throw SubscribeError.

(** [await streamrController.fetchOlderHistory(streamId, partition,
    before, limit, password)]; reading [result.messages] of a missing
    result throws inside the same [try] block and is the rejection case. *)
Definition await_fetchOlderHistory (id : string) (partition before limit : Z)
    (pw : option string) : M (option (list Message)) :=
  emit (EvFetch id partition before limit pw);;
  r <- ask (fetchOlderHistory_result env);;
  match r with
  | Resolved msgs => emit (EvFetchSettled id true);; ret msgs
  | Rejected => emit (EvFetchSettled id false);; throw FetchError
  end.

(** [await new Promise(r => setTimeout(r, ms))] *)
Definition delay (ms : Z) : M unit := emit (EvDelay ms).

(** [handler(streamId, activity)] *)
Definition call_handler (h : Handler) (id : string) (a : ChannelActivity) : M unit :=
  emit (EvNotify h id a);;
  ok <- ask (handler_ok env);;
  if ok then ret tt else throw HandlerError.

(** [notifyActivityHandlers(streamId, activity)]: the loop over
    [this.activityHandlers], each call in its own [try]/[catch]. *)
Fixpoint notify_each (hs : list Handler) (id : string) (a : ChannelActivity) : M unit :=
  match hs with
  | [] => ret tt
  | h :: rest =>
      try_catch (call_handler h id a) (λ _, ret tt);;
      notify_each rest id a
  end.

Definition notifyActivityHandlers (id : string) (a : ChannelActivity) : M unit :=
  m <- this;;
  notify_each (activityHandlers m) id a.

(** The body of [for (const msg of messages)] in [checkChannelActivity],
    on the pair [(newCount, latestTime)]; [t0] is
    [currentActivity.lastMessageTime], and a comparison with an absent
    timestamp is false. *)
Definition count_step (t0 : Z) (acc : Z * Z) (msg : Message) : Z * Z :=
  let '(newCount, latestTime) := acc in
  match timestamp msg with
  | Some ts =>
      if t0 <? ts then (newCount + 1, if latestTime <? ts then ts else latestTime)
      else (newCount, latestTime)
  | None => (newCount, latestTime)
  end.

Definition count_new (t0 : Z) (msgs : list Message) : Z * Z :=
  foldl (count_step t0) (0, t0) msgs.

(** The record used when the map has none. *)
Definition emptyActivity : ChannelActivity := mkActivity 0 0 0.

(** [checkChannelActivity(channel)] *)
Definition checkChannelActivity (channel : Channel) : M unit :=
  let id := streamId channel in
  let pw := or_null (password channel) in
  m0 <- this;;
  let currentActivity := default emptyActivity (channelActivity m0 !! id) in
  try_catch
    (t <- dateNow;;
     m <- this;;
     res <- await_fetchOlderHistory id 0 t (ACTIVITY_CHECK_MESSAGES (config m)) pw;;
     let msgs := default [] res in
     let '(newCount, latestTime) := count_new (lastMessageTime currentActivity) msgs in
     n <- dateNow;;
     let newActivity :=
       mkActivity latestTime (unreadCount currentActivity + newCount) n in
     assign (activity_set id newActivity);;
     if 0 <? newCount then notifyActivityHandlers id newActivity else ret tt)
    (λ error,
       n <- dateNow;;
       assign (activity_set id
                 (mkActivity (lastMessageTime currentActivity)
                    (unreadCount currentActivity) n));;
       throw error).

(** [downgradeToBackground(streamId)] *)
Definition downgradeToBackground (streamId : option string) : M unit :=
  match streamId with
  | None => ret tt
  | Some id =>
      if falsy (Some id) then ret tt else
      try_catch
        ((match getChannel env id with
          | Some channel =>
              match messages channel with
              | Some msgs =>
                  match last msgs with
                  | Some latestMsg =>
                      n <- dateNow;;
                      assign (activity_set id
                                (mkActivity (num_or (timestamp latestMsg) n) 0 n))
                  | None => ret tt
                  end
              | None => ret tt
              end
          | None => ret tt
          end);;
         await_unsubscribe id)
        (λ _, ret tt)
  end.

(** [setActiveChannel(streamId, password, handlers)] *)
Definition setActiveChannel (streamId : option string) (pw : option string)
    (handlers : option nat) : M unit :=
  match streamId with
  | None => ret tt
  | Some id =>
      if falsy (Some id) then ret tt else
      m <- this;;
      if bool_decide (activeChannelId m = Some id) then ret tt else
      (if falsy (activeChannelId m) then ret tt
       else downgradeToBackground (activeChannelId m));;
      assign (set_activeChannelId (Some id));;
      assign (set_activeSubscriptionHandlers handlers);;
      try_catch (await_subscribeToChannel id pw) (λ error, throw error)
  end.

(** [clearActiveChannel()] *)
Definition clearActiveChannel : M unit :=
  m <- this;;
  if falsy (activeChannelId m) then ret tt else
  downgradeToBackground (activeChannelId m);;
  assign (set_activeChannelId None);;
  assign (set_activeSubscriptionHandlers None).

(** [const backgroundChannels = channels.filter(c => c.streamId !==
    this.activeChannelId)] *)
Definition backgroundChannels (m : SubscriptionManager) : list Channel :=
  filter (λ c, Some (streamId c) ≠ activeChannelId m) (getAllChannels env).

(** [Math.min(this.config.POLL_BATCH_SIZE, backgroundChannels.length)] *)
Definition batchSize (m : SubscriptionManager) (bg : list Channel) : Z :=
  Z.min (POLL_BATCH_SIZE (config m)) (len bg).

(** The first loop of a cycle: [channelsToPoll], an array that holds
    [undefined] where the index falls outside the array. *)
Definition channelsToPoll (m : SubscriptionManager) (bg : list Channel)
    : list (option Channel) :=
  (λ i, js_index bg (Z.rem (pollIndex m + i) (len bg))) <$> upto (batchSize m bg).

(** [(this.pollIndex + batchSize) % backgroundChannels.length] *)
Definition nextPollIndex (m : SubscriptionManager) (bg : list Channel) : Z :=
  Z.rem (pollIndex m + batchSize m bg) (len bg).

(** [activity?.lastChecked || 0] *)
Definition lastChecked_or_0 (a : option ChannelActivity) : Z :=
  match a with
  | Some r => lastChecked r
  | None => 0
  end.

(** The second loop of a cycle, over [channelsToPoll]; the test
    [i < channelsToPoll.length - 1] is that channels remain. *)
Fixpoint poll_each (batch : list (option Channel)) : M unit :=
  match batch with
  | [] => ret tt
  | None :: _ => throw TypeError
  | Some channel :: rest =>
      m <- this;;
      n <- dateNow;;
      let timeSinceLastCheck :=
        n - lastChecked_or_0 (channelActivity m !! streamId channel) in
      if timeSinceLastCheck <? MIN_POLL_INTERVAL (config m) then poll_each rest
      else
        try_catch (checkChannelActivity channel) (λ _, ret tt);;
        m' <- this;;
        (match rest with
         | [] => ret tt
         | _ :: _ => delay (POLL_STAGGER_DELAY (config m'))
         end);;
        poll_each rest
  end.

(** [pollBackgroundChannels()] *)
Definition pollBackgroundChannels : M unit :=
  m0 <- this;;
  if isPolling m0 then ret tt else
  assign (set_isPolling true);;
  try_finally
    (m <- this;;
     let bg := backgroundChannels m in
     if len bg =? 0 then ret tt else
     let batch := channelsToPoll m bg in
     assign (set_pollIndex (nextPollIndex m bg));;
     poll_each batch)
    (assign (set_isPolling false)).

(** [forcePollChannel(streamId)] *)
Definition forcePollChannel (id : string) : M unit :=
  m <- this;;
  match getChannel env id with
  | None => ret tt
  | Some channel =>
      if bool_decide (Some id = activeChannelId m) then ret tt else
      try_catch (checkChannelActivity channel) (λ _, ret tt)
  end.

(** [initializeActivityState()] *)
Definition initializeActivityState : M unit :=
  assign (λ m,
    foldl (λ m' channel,
             match channelActivity m' !! streamId channel with
             | Some _ => m'
             | None =>
                 let lastAccess :=
                   num_or (getAllChannelLastAccess env (streamId channel)) 0 in
                 activity_set (streamId channel) (mkActivity lastAccess 0 0) m'
             end)
          m (getAllChannels env)).

(** A timer handle is truthy when it is present and not zero. *)
Definition handle_truthy (h : option Z) : bool :=
  match h with
  | Some x => negb (x =? 0)
  | None => false
  end.

(** [startBackgroundPoller()]; the callbacks of the two timers run
    [pollBackgroundChannels] when the timers fire. *)
Definition startBackgroundPoller : M unit :=
  m <- this;;
  if handle_truthy (backgroundPoller m) then ret tt else
  initializeActivityState;;
  m' <- this;;
  emit (EvSetInterval (POLL_INTERVAL (config m')));;
  h <- ask (setInterval_handle env);;
  assign (set_backgroundPoller (Some h));;
  emit (EvSetTimeout 5000).

(** [stopBackgroundPoller()] *)
Definition stopBackgroundPoller : M unit :=
  m <- this;;
  match backgroundPoller m with
  | Some h =>
      if handle_truthy (Some h) then
        emit (EvClearInterval h);;
        assign (set_backgroundPoller None)
      else ret tt
  | None => ret tt
  end.

(** [onActivity(handler)]; [None] is an argument that is not a function. *)
Definition onActivity (handler : option Handler) : M unit :=
  match handler with
  | Some h => assign (λ m, set_activityHandlers (activityHandlers m ++ [h]) m)
  | None => ret tt
  end.

(** [offActivity(handler)] *)
Definition offActivity (handler : option Handler) : M unit :=
  assign (λ m, set_activityHandlers
                 (filter (λ h, Some h ≠ handler) (activityHandlers m)) m).

(** [getChannelActivity(streamId)] *)
Definition getChannelActivity (id : string) : M (option ChannelActivity) :=
  m <- this;;
  ret (channelActivity m !! id).

(** [getUnreadCount(streamId)] *)
Definition getUnreadCount (id : string) : M Z :=
  m <- this;;
  ret (match channelActivity m !! id with
       | Some a => unreadCount a
       | None => 0
       end).

(** [clearUnreadCount(streamId)] *)
Definition clearUnreadCount (id : string) : M unit :=
  m <- this;;
  match channelActivity m !! id with
  | Some a =>
      assign (activity_set id (mkActivity (lastMessageTime a) 0 (lastChecked a)))
  | None => ret tt
  end.

(** [await secureStorage.setLastOpenedChannel(id)] *)
Definition await_setLastOpenedChannel (id : option string) : M unit :=
  emit (EvSetLastOpenedChannel id);;
  ok <- ask (setLastOpenedChannel_ok env);;
  if ok then ret tt else throw StoreError.

(** [removeChannel(streamId)] *)
Definition removeChannel (id : string) : M unit :=
  assign (λ m, set_channelActivity (delete id (channelActivity m)) m);;
  m <- this;;
  (if bool_decide (activeChannelId m = Some id) then
     assign (set_activeChannelId None);;
     assign (set_activeSubscriptionHandlers None)
   else ret tt);;
  if bool_decide (getLastOpenedChannel env = Some id) then
    await_setLastOpenedChannel None
  else ret tt.

(** [cleanup()] *)
Definition cleanup : M unit :=
  stopBackgroundPoller;;
  assign (set_activeChannelId None);;
  assign (set_activeSubscriptionHandlers None);;
  assign (set_channelActivity ∅);;
  assign (set_pollIndex 0);;
  assign (set_isPolling false);;
  assign (set_activityHandlers []).

(** [isActiveChannel(streamId)] *)
Definition isActiveChannel (id : option string) : M bool :=
  m <- this;;
  ret (bool_decide (activeChannelId m = id)).

(** [getActiveChannelId()] *)
Definition getActiveChannelId : M (option string) :=
  m <- this;;
  ret (activeChannelId m).

(** [{ ...this.config, ...newConfig }] *)
Definition merge_config (c : Config) (p : PartialConfig) : Config :=
  {| POLL_INTERVAL := default (POLL_INTERVAL c) (p_POLL_INTERVAL p);
     POLL_BATCH_SIZE := default (POLL_BATCH_SIZE c) (p_POLL_BATCH_SIZE p);
     POLL_STAGGER_DELAY := default (POLL_STAGGER_DELAY c) (p_POLL_STAGGER_DELAY p);
     MIN_POLL_INTERVAL := default (MIN_POLL_INTERVAL c) (p_MIN_POLL_INTERVAL p);
     MAX_CONCURRENT_SUBS := default (MAX_CONCURRENT_SUBS c) (p_MAX_CONCURRENT_SUBS p);
     ACTIVITY_CHECK_MESSAGES :=
       default (ACTIVITY_CHECK_MESSAGES c) (p_ACTIVITY_CHECK_MESSAGES p) |}.

(** [updateConfig(newConfig)] *)
Definition updateConfig (newConfig : PartialConfig) : M unit :=
  assign (λ m, set_config (merge_config (config m) newConfig) m).

(** ** The interface offered to the host application *)

Inductive HostCall :=
  | CallSetActive (id : option string) (pw : option string) (handlers : option nat)
  | CallClearActive
  | CallIsActive (id : option string)
  | CallGetActiveId
  | CallOnActivity (h : option Handler)
  | CallOffActivity (h : option Handler)
  | CallGetActivity (id : string)
  | CallGetUnreadCount (id : string)
  | CallClearUnread (id : string)
  | CallRemoveChannel (id : string)
  | CallForcePoll (id : string)
  | CallStart
  | CallStop
  | CallCleanup
  | CallUpdateConfig (p : PartialConfig).

Inductive Value :=
  | VUndefined
  | VBool (b : bool)
  | VNum (n : Z)
  | VId (id : option string)
  | VActivity (a : option ChannelActivity).

Definition host_call (c : HostCall) : M Value :=
  match c with
  | CallSetActive id pw handlers => setActiveChannel id pw handlers;; ret VUndefined
  | CallClearActive => clearActiveChannel;; ret VUndefined
  | CallIsActive id => b <- isActiveChannel id;; ret (VBool b)
  | CallGetActiveId => id <- getActiveChannelId;; ret (VId id)
  | CallOnActivity h => onActivity h;; ret VUndefined
  | CallOffActivity h => offActivity h;; ret VUndefined
  | CallGetActivity id => a <- getChannelActivity id;; ret (VActivity a)
  | CallGetUnreadCount id => n <- getUnreadCount id;; ret (VNum n)
  | CallClearUnread id => clearUnreadCount id;; ret VUndefined
  | CallRemoveChannel id => removeChannel id;; ret VUndefined
  | CallForcePoll id => forcePollChannel id;; ret VUndefined
  | CallStart => startBackgroundPoller;; ret VUndefined
  | CallStop => stopBackgroundPoller;; ret VUndefined
  | CallCleanup => cleanup;; ret VUndefined
  | CallUpdateConfig p => updateConfig p;; ret VUndefined
  end.

(** Operations run one after the other, each from the state the previous
    one left, whatever the previous one returned or threw. *)
Definition then_run {A B} (r : Res A * Sys) (m : M B) : Res B * Sys := m (final r).

(** ** Notions used in the statements *)

(** The calls a notification makes: every handler, in order, with the same
    arguments. *)
Definition notifications (m : SubscriptionManager) (id : string) (a : ChannelActivity)
    : list Obs :=
  (λ h, mkObs m (EvNotify h id a)) <$> activityHandlers m.

(** The record a check starts from. *)
Definition currentActivity (m : SubscriptionManager) (id : string) : ChannelActivity :=
  default emptyActivity (channelActivity m !! id).

(** The two events of a history fetch for [channel] issued in state [s]. *)
Definition fetch_call (channel : Channel) (s : Sys) : Obs :=
  mkObs (mgr s)
    (EvFetch (streamId channel) 0 (now env (hist s))
       (ACTIVITY_CHECK_MESSAGES (config (mgr s))) (or_null (password channel))).
Definition fetch_settled (channel : Channel) (s : Sys) (ok : bool) : Obs :=
  mkObs (mgr s) (EvFetchSettled (streamId channel) ok).
Definition fetch_events (channel : Channel) (s : Sys) (ok : bool) : list Obs :=
  [fetch_call channel s; fetch_settled channel s ok].

(** The answer the transport gives to that fetch. *)
Definition fetch_answer (channel : Channel) (s : Sys) : FetchResult :=
  fetchOlderHistory_result env (hist s ++ [fetch_call channel s]).

(** The record written by a check whose fetch was rejected. *)
Definition failedActivity (channel : Channel) (s : Sys) : ChannelActivity :=
  let cur := currentActivity (mgr s) (streamId channel) in
  mkActivity (lastMessageTime cur) (unreadCount cur)
    (now env (hist s ++ fetch_events channel s false)).

(** The record written by a check whose fetch returned [res]. *)
Definition checkedActivity (channel : Channel) (s : Sys)
    (res : option (list Message)) : ChannelActivity :=
  let cur := currentActivity (mgr s) (streamId channel) in
  let counted := count_new (lastMessageTime cur) (default [] res) in
  mkActivity (snd counted) (unreadCount cur + fst counted)
    (now env (hist s ++ fetch_events channel s true)).

(** Following the specification's words: the timestamps of the fetched
    entries that are newer than [t0], how many they are, and the maximum of
    [t0] and of them. *)
Definition newer_timestamps (t0 : Z) (msgs : list Message) : list Z :=
  filter (λ ts, t0 < ts) (omap timestamp msgs).
Definition spec_new_count (t0 : Z) (msgs : list Message) : Z :=
  len (newer_timestamps t0 msgs).
Definition spec_latest (t0 : Z) (msgs : list Message) : Z :=
  foldr Z.max t0 (newer_timestamps t0 msgs).

(** The events that are calls of an observer. *)
Definition is_notify (o : Obs) : bool :=
  match ev o with
  | EvNotify _ _ _ => true
  | _ => false
  end.

(** The manager after the first step of a downgrade of [id] started in
    [s]: the record of [id] is rewritten when the registry knows the channel
    and its [messages] array is not empty. *)
Definition snapshot (id : string) (s : Sys) : SubscriptionManager :=
  match getChannel env id with
  | Some channel =>
      match messages channel with
      | Some msgs =>
          match last msgs with
          | Some latestMsg =>
              activity_set id
                (mkActivity (num_or (timestamp latestMsg) (now env (hist s))) 0
                   (now env (hist s)))
                (mgr s)
          | None => mgr s
          end
      | None => mgr s
      end
  | None => mgr s
  end.

(** The two events of an unsubscribe request issued with the fields [m],
    and the answer of the transport to the request of a downgrade. *)
Definition unsubscribe_events (id : string) (m : SubscriptionManager) (ok : bool)
    : list Obs :=
  [mkObs m (EvUnsubscribe id); mkObs m (EvUnsubscribeSettled id ok)].
Definition unsubscribe_answer (id : string) (s : Sys) : bool :=
  unsubscribe_ok env (hist s ++ [mkObs (snapshot id s) (EvUnsubscribe id)]).

(** The state in which [setActiveChannel] moves the pointer: the start
    state, or the one left by the downgrade of the previous channel. *)
Definition after_previous (s : Sys) : Sys :=
  if falsy (activeChannelId (mgr s)) then s
  else final (downgradeToBackground (activeChannelId (mgr s)) s).

(** The fields with which the subscribe request is issued, the two events
    of the request, and the answer of the transport. *)
Definition activated (id : string) (handlers : option nat) (s : Sys)
    : SubscriptionManager :=
  set_activeSubscriptionHandlers handlers
    (set_activeChannelId (Some id) (mgr (after_previous s))).
Definition subscribe_answer (id : string) (pw : option string)
    (handlers : option nat) (s : Sys) : bool :=
  subscribeToChannel_ok env
    (hist (after_previous s) ++ [mkObs (activated id handlers s) (EvSubscribe id pw)]).
Definition subscribe_events (id : string) (pw : option string)
    (m : SubscriptionManager) (ok : bool) : list Obs :=
  [mkObs m (EvSubscribe id pw); mkObs m (EvSubscribeSettled id ok)].

(** Requests seen by the transport. *)
Definition is_subscribe (e : Event) : bool :=
  match e with
  | EvSubscribe _ _ => true
  | _ => false
  end.
Definition is_subscribe_of (id : string) (e : Event) : bool :=
  match e with
  | EvSubscribe id' _ => bool_decide (id' = id)
  | _ => false
  end.
Definition is_unsubscribe_of (id : string) (e : Event) : bool :=
  match e with
  | EvUnsubscribe id' => bool_decide (id' = id)
  | _ => false
  end.
Definition is_fetch (e : Event) : bool :=
  match e with
  | EvFetch _ _ _ _ _ => true
  | _ => false
  end.

(** The downgrade as the specification words it for every channel: after
    it the record of [id] has [unreadCount] 0 and [lastChecked] is the
    current time. *)
Definition downgrade_resets_record (id : string) (s : Sys) : Prop :=
  ∃ a, channelActivity (mgr (final (downgradeToBackground (Some id) s))) !! id = Some a
       ∧ unreadCount a = 0
       ∧ lastChecked a = now env (hist s).

(** The state after the wait that follows a check when channels remain in
    the batch. *)
Definition staggered (rest : list (option Channel)) (s : Sys) : Sys :=
  match rest with
  | [] => s
  | _ :: _ =>
      mkSys (mgr s)
        (hist s ++ [mkObs (mgr s) (EvDelay (POLL_STAGGER_DELAY (config (mgr s))))])
  end.

(** The cool-down test of the batch loop for [channel] in state [s]. *)
Definition in_cooldown (channel : Channel) (s : Sys) : bool :=
  now env (hist s) - lastChecked_or_0 (channelActivity (mgr s) !! streamId channel)
  <? MIN_POLL_INTERVAL (config (mgr s)).

(** The state after [k] poll cycles in a row. *)
Fixpoint after_cycles (k : nat) (s : Sys) : Sys :=
  match k with
  | O => s
  | S k' => after_cycles k' (final (pollBackgroundChannels s))
  end.

(** [ceil(n / b)] for positive [b]. *)
Definition ceil_div (n b : Z) : Z := (n + b - 1) / b.

(** The states the manager goes through: it starts from the constructor,
    the host calls its interface, and the timers run poll cycles.  The
    host keeps the batch size it configures non-negative. *)
Definition keeps_batch_size (c : HostCall) : Prop :=
  match c with
  | CallUpdateConfig p =>
      match p_POLL_BATCH_SIZE p with
      | Some b => 0 ≤ b
      | None => True
      end
  | _ => True
  end.

Inductive reachable : Sys → Prop :=
  | reach_start : reachable (mkSys constructor [])
  | reach_call (c : HostCall) (s : Sys) :
      reachable s → keeps_batch_size c → reachable (final (host_call c s))
  | reach_poll (s : Sys) :
      reachable s → reachable (final (pollBackgroundChannels s)).

(** ** Notions used for the rest of the interface *)

(** The waits between two checks. *)
Definition is_delay (e : Event) : bool :=
  match e with
  | EvDelay _ => true
  | _ => false
  end.

(** Calls of the observer [h]. *)
Definition is_notify_of (h : Handler) (e : Event) : bool :=
  match e with
  | EvNotify h' _ _ => bool_decide (h' = h)
  | _ => false
  end.

(** No record counts a negative number of unread entries. *)
Definition unread_nonneg (m : SubscriptionManager) : Prop :=
  map_Forall (λ _ a, 0 ≤ unreadCount a) (channelActivity m).

(** The active pointer is unset or holds a non-empty identifier. *)
Definition pointer_wf (m : SubscriptionManager) : Prop :=
  ∀ id, activeChannelId m = Some id → id ≠ "".

(** The channel a fetch request is for. *)
Definition fetch_id (e : Event) : option string :=
  match e with
  | EvFetch id _ _ _ _ => Some id
  | _ => None
  end.

(** The channels of a batch, without the undefined entries. *)
Definition batch_ids (batch : list (option Channel)) : list string :=
  streamId <$> omap (λ c, c) batch.

(** ** Notions used for the store, the turns of a cycle and the runs *)

(** The fields after the synchronous part of [removeChannel]: the record
    is deleted and the pointer is unset when it was this channel. *)
Definition removed (id : string) (m : SubscriptionManager) : SubscriptionManager :=
  let m1 := set_channelActivity (delete id (channelActivity m)) m in
  if bool_decide (activeChannelId m = Some id)
  then set_activeSubscriptionHandlers None (set_activeChannelId None m1)
  else m1.

(** The write of [removeChannel] to the store, and the answer of the
    store to it. *)
Definition store_write (id : string) (s : Sys) : Obs :=
  mkObs (removed id (mgr s)) (EvSetLastOpenedChannel None).
Definition store_answer (id : string) (s : Sys) : bool :=
  setLastOpenedChannel_ok env (hist s ++ [store_write id s]).

(** The error contract as the specification words it: a call of the host
    interface throws only the failure of the subscribe request of
    [setActiveChannel]. *)
Definition only_subscribe_failure_propagates : Prop :=
  ∀ (c : HostCall) (s : Sys) (e : Error),
    result (host_call c s) = Throw e →
    e = SubscribeError ∧ ∃ X pw handlers, c = CallSetActive (Some X) pw handlers.

(** The state in which a cycle started in [s] enters its batch loop: the
    guard is taken and the cursor is advanced. *)
Definition cycle_start (s : Sys) : Sys :=
  mkSys (set_pollIndex (nextPollIndex (mgr s) (backgroundChannels (mgr s)))
           (set_isPolling true (mgr s)))
        (hist s).

(** The state a cycle ends in when its batch loop ends in [s]: the guard
    is released. *)
Definition released (s : Sys) : Sys := mkSys (set_isPolling false (mgr s)) (hist s).

(** The state in which the batch loop, started in [s] on the batch
    [pre ++ rest], has gone through the channels [pre] and turns to [rest]:
    every channel of [pre] was passed over in its cool-down, or checked and
    followed by the stagger wait when channels remained. *)
Fixpoint reached (pre rest : list (option Channel)) (s : Sys) : Sys :=
  match pre with
  | [] => s
  | None :: _ => s
  | Some channel :: pre' =>
      reached pre' rest
        (if in_cooldown channel s then s
         else staggered (pre' ++ rest) (final (checkChannelActivity channel s)))
  end.

(** The states of the runs: from the constructor, any call of the host
    interface and any poll cycle, whatever they return or throw. *)
Inductive run_state : Sys → Prop :=
  | run_start : run_state (mkSys constructor [])
  | run_call (c : HostCall) (s : Sys) :
      run_state s → run_state (final (host_call c s))
  | run_poll (s : Sys) :
      run_state s → run_state (final (pollBackgroundChannels s)).

End Manager.

(** * Modal manager

    The [ModalManager] class of the same module: pending data kept between
    the opening and the confirmation of a modal, and the visibility of the
    modal elements.  The document is a map from element identifiers to the
    properties the class reads and writes; of the class list only the
    membership of the class [hidden] is kept.  The [pendingData] object is
    used as a map from keys to values. *)

Module Modal.

(** The values the class stores as pending data: an address, a callback
    (known by identity) or [null]. *)
Inductive JsValue :=
  | JString (s : string)
  | JFunction (f : nat)
  | JNull.

(** An element: whether its class list contains [hidden], its [value],
    its [textContent] and its [checked] flag. *)
Record Element := mkElement {
  hidden : bool;
  value : string;
  textContent : string;
  checked : bool
}.

Definition set_hidden (b : bool) (el : Element) : Element :=
  mkElement b (value el) (textContent el) (checked el).
Definition set_value (v : string) (el : Element) : Element :=
  mkElement (hidden el) v (textContent el) (checked el).
Definition set_textContent (t : string) (el : Element) : Element :=
  mkElement (hidden el) (value el) t (checked el).

(** The pending data of the manager, the elements of the document by
    identifier, and the element whose [focus()] was called last. *)
Record State := mkState {
  pendingData : gmap string JsValue;
  document : gmap string Element;
  lastFocus : option string
}.

Definition set_pendingData (p : gmap string JsValue) (s : State) : State :=
  mkState p (document s) (lastFocus s).
Definition set_document (d : gmap string Element) (s : State) : State :=
  mkState (pendingData s) d (lastFocus s).
Definition set_lastFocus (a : option string) (s : State) : State :=
  mkState (pendingData s) (document s) a.

(** [document.getElementById(id)] *)
Definition getElementById (id : string) (s : State) : option Element :=
  document s !! id.

(** A write to a property of the element [id], which exists. *)
Definition update (id : string) (f : Element → Element) (s : State) : State :=
  set_document (alter f id (document s)) s.

(** [hide(modalId)] *)
Definition hide (modalId : string) (s : State) : State :=
  match getElementById modalId s with
  | Some _ => update modalId (set_hidden true) s
  | None => s
  end.

(** [toggle(modalId)] *)
Definition toggle (modalId : string) (s : State) : State :=
  match getElementById modalId s with
  | Some _ => update modalId (λ el, set_hidden (negb (hidden el)) el) s
  | None => s
  end.

(** [isVisible(modalId)]: [modal && !modal.classList.contains('hidden')],
    which is [null] ([None]) when there is no such element. *)
Definition isVisible (modalId : string) (s : State) : option bool :=
  match getElementById modalId s with
  | Some modal => Some (negb (hidden modal))
  | None => None
  end.

(** The property names a plain object inherits: for the other keys the
    [pendingData] object behaves as a map. *)
Definition inherited_keys : list string :=
  ["__proto__"; "constructor"; "hasOwnProperty"; "isPrototypeOf";
   "propertyIsEnumerable"; "toLocaleString"; "toString"; "valueOf";
   "__defineGetter__"; "__defineSetter__"; "__lookupGetter__";
   "__lookupSetter__"].
Definition plain_key (key : string) : Prop := key ∉ inherited_keys.

(** [setPendingData(key, value)] *)
Definition setPendingData (key : string) (v : JsValue) (s : State) : State :=
  set_pendingData (<[key := v]> (pendingData s)) s.

(** [getPendingData(key)]; [None] is [undefined]. *)
Definition getPendingData (key : string) (s : State) : option JsValue :=
  pendingData s !! key.

(** [clearPendingData(key)]: a missing or empty key clears everything. *)
Definition clearPendingData (key : option string) (s : State) : State :=
  match key with
  | Some k =>
      if bool_decide (k = "") then set_pendingData ∅ s
      else set_pendingData (delete k (pendingData s)) s
  | None => set_pendingData ∅ s
  end.

(** [showJoinClosedChannelModal(streamId = '')] *)
Definition showJoinClosedChannelModal (streamId : option string) (s : State) : State :=
  let id := default "" streamId in
  let s1 :=
    match getElementById "join-closed-stream-id-input" s with
    | Some _ => update "join-closed-stream-id-input" (set_value id) s
    | None => s
    end in
  let s2 :=
    match getElementById "join-closed-name-input" s1 with
    | Some _ => update "join-closed-name-input" (set_value "") s1
    | None => s1
    end in
  match getElementById "join-closed-channel-modal" s2 with
  | Some _ => update "join-closed-channel-modal" (set_hidden false) s2
  | None => s2
  end.

(** [showAddContactModal(address)] *)
Definition showAddContactModal (address : string) (s : State) : State :=
  match getElementById "add-contact-nickname-modal" s,
        getElementById "add-contact-modal-address" s,
        getElementById "add-contact-modal-nickname" s with
  | Some _, Some _, Some _ =>
      let s1 := setPendingData "contactAddress" (JString address) s in
      let s2 := update "add-contact-modal-address" (set_textContent address) s1 in
      let s3 := update "add-contact-modal-nickname" (set_value "") s2 in
      let s4 := update "add-contact-nickname-modal" (set_hidden false) s3 in
      set_lastFocus (Some "add-contact-modal-nickname") s4
  | _, _, _ => s
  end.

(** [hideAddContactModal()] *)
Definition hideAddContactModal (s : State) : State :=
  clearPendingData (Some "contactAddress") (hide "add-contact-nickname-modal" s).

(** [showRemoveContactModal(address, callback = null)] *)
Definition showRemoveContactModal (address : string) (callback : option nat)
    (s : State) : State :=
  match getElementById "remove-contact-modal" s,
        getElementById "remove-contact-modal-address" s with
  | Some _, Some _ =>
      let s1 := setPendingData "removeContactAddress" (JString address) s in
      let s2 :=
        setPendingData "removeContactCallback"
          (match callback with
           | Some f => JFunction f
           | None => JNull
           end) s1 in
      let s3 := update "remove-contact-modal-address" (set_textContent address) s2 in
      update "remove-contact-modal" (set_hidden false) s3
  | _, _ => s
  end.

(** [hideRemoveContactModal()] *)
Definition hideRemoveContactModal (s : State) : State :=
  clearPendingData (Some "removeContactCallback")
    (clearPendingData (Some "removeContactAddress")
       (hide "remove-contact-modal" s)).

(** [hideNewChannelModal()] *)
Definition hideNewChannelModal (s : State) : State := hide "new-channel-modal" s.

End Modal.


(** ** Sample collaborators and states *)

(** A channel whose in-memory messages have the timestamps [ts]. *)
Definition sample_channel (id : string) (ts : list Z) : Channel :=
  mkChannel id None (Some ((λ t, mkMessage (Some t)) <$> ts)).

(** A registry with the channels [chans], a clock that starts at 100000 and
    advances with every event, a transport that answers every subscribe and
    unsubscribe request with [transport_ok] and every fetch with [fetched],
    handlers that do not throw and a store that accepts every write. *)
Definition sample_env (chans : list Channel) (transport_ok : bool)
    (fetched : FetchResult) : Env :=
  {| now := λ h, 100000 + len h;
     subscribeToChannel_ok := λ _, transport_ok;
     unsubscribe_ok := λ _, transport_ok;
     fetchOlderHistory_result := λ _, fetched;
     handler_ok := λ _, true;
     setInterval_handle := λ _, 1;
     setLastOpenedChannel_ok := λ _, true;
     getChannel := λ id, list_find (λ c, streamId c = id) chans ≫= λ p, Some (snd p);
     getAllChannels := chans;
     getAllChannelLastAccess := λ _, None;
     getLastOpenedChannel := None |}.

(** A manager that tracks the given records, with the given active
    channel and observers, and an empty history. *)
Definition sample_state (active : option string)
    (records : list (string * ChannelActivity)) (observers : list Handler) : Sys :=
  mkSys (set_activityHandlers observers
           (set_channelActivity (list_to_map records)
              (set_activeChannelId active constructor)))
        [].


(** A manager in the middle of a cycle: the guard is taken. *)
Definition sample_polling (s : Sys) : Sys :=
  mkSys (set_isPolling true (mgr s)) (hist s).

(** A partial configuration that gives the batch size only. *)
Definition batch_size_only (b : Z) : PartialConfig :=
  mkPartialConfig None (Some b) None None None None.

(** A partial configuration that gives the poll interval only. *)
Definition poll_interval_only (ms : Z) : PartialConfig :=
  mkPartialConfig (Some ms) None None None None None.

(** A document with the elements of the two contact modals, all hidden,
    and pending data left by another modal. *)
Definition sample_modals : Modal.State :=
  Modal.mkState
    {[ "other" := Modal.JString "kept" ]}
    (list_to_map
       [("add-contact-nickname-modal", Modal.mkElement true "" "" false);
        ("add-contact-modal-address", Modal.mkElement false "" "old" false);
        ("add-contact-modal-nickname", Modal.mkElement false "typed" "" false);
        ("remove-contact-modal", Modal.mkElement true "" "" false);
        ("remove-contact-modal-address", Modal.mkElement false "" "old" false);
        ("join-closed-channel-modal", Modal.mkElement true "" "" false);
        ("join-closed-stream-id-input", Modal.mkElement false "typed" "" false)])
    None.


(** The collaborators [env] with a store whose last opened channel is
    [last] and which answers every write with [store_ok]. *)
Definition with_store (last : option string) (store_ok : bool) (env : Env) : Env :=
  {| now := now env;
     subscribeToChannel_ok := subscribeToChannel_ok env;
     unsubscribe_ok := unsubscribe_ok env;
     fetchOlderHistory_result := fetchOlderHistory_result env;
     handler_ok := handler_ok env;
     setInterval_handle := setInterval_handle env;
     setLastOpenedChannel_ok := λ _, store_ok;
     getChannel := getChannel env;
     getAllChannels := getAllChannels env;
     getAllChannelLastAccess := getAllChannelLastAccess env;
     getLastOpenedChannel := last |}.


(** * Properties *)

Ltac unfold_ops :=
  unfold bind, ret, throw, try_catch, try_finally, this, assign, emit, ask,
    dateNow, delay, result, final, issued, then_run in *.

Section Properties.

Variable env : Env.

(** ** Runs of the single methods, written out *)

Lemma notify_each_run hs id a s :
  notify_each env hs id a s =
  (Ok tt, mkSys (mgr s) (hist s ++ ((λ h, mkObs (mgr s) (EvNotify h id a)) <$> hs))).
Proof.
  revert s. induction hs as [|h hs IH]; intros [m hi]; simpl.
  - unfold ret. simpl. by rewrite app_nil_r.
  - unfold call_handler. unfold_ops. simpl.
    destruct (handler_ok env _); simpl; rewrite IH; simpl;
      by rewrite <- app_assoc.
Qed.

Lemma notifyActivityHandlers_run id a s :
  notifyActivityHandlers env id a s =
  (Ok tt, mkSys (mgr s) (hist s ++ notifications (mgr s) id a)).
Proof.
  unfold notifyActivityHandlers, notifications. unfold_ops.
  by rewrite notify_each_run.
Qed.

Lemma checkChannelActivity_rejected channel s :
  fetch_answer env channel s = Rejected →
  checkChannelActivity env channel s =
  (Throw FetchError,
   mkSys (activity_set (streamId channel) (failedActivity env channel s) (mgr s))
         (hist s ++ fetch_events env channel s false)).
Proof.
  unfold fetch_answer, fetch_call. intros Hr.
  unfold checkChannelActivity, await_fetchOlderHistory. unfold_ops. simpl.
  rewrite Hr. simpl.
  unfold failedActivity, fetch_events, fetch_call, fetch_settled, currentActivity.
  by rewrite <- app_assoc.
Qed.

Lemma checkChannelActivity_resolved channel s res :
  fetch_answer env channel s = Resolved res →
  let a := checkedActivity env channel s res in
  let m' := activity_set (streamId channel) a (mgr s) in
  checkChannelActivity env channel s =
  (Ok tt,
   mkSys m'
     (hist s ++ fetch_events env channel s true ++
      (if 0 <? unreadCount a - unreadCount (currentActivity (mgr s) (streamId channel))
       then notifications m' (streamId channel) a else []))).
Proof.
  unfold fetch_answer, fetch_call. intros Hr. simpl.
  unfold checkChannelActivity, await_fetchOlderHistory. unfold_ops. simpl.
  rewrite Hr. simpl.
  unfold checkedActivity, currentActivity, fetch_events, fetch_call, fetch_settled.
  simpl.
  destruct (count_new _ _) as [newCount latestTime] eqn:Hc. simpl.
  replace (unreadCount _ + newCount - unreadCount _) with newCount by lia.
  rewrite <- app_assoc. simpl.
  destruct (0 <? newCount); simpl.
  - rewrite notifyActivityHandlers_run. simpl. by rewrite <- app_assoc.
  - by rewrite ?app_nil_r.
Qed.

(** ** Counting the new entries *)

Lemma foldr_max_start (l x : Z) (xs : list Z) :
  foldr Z.max (Z.max l x) xs = Z.max x (foldr Z.max l xs).
Proof.
  induction xs as [|y ys IH]; simpl; [lia|]. rewrite IH. lia.
Qed.

Lemma count_step_foldl (t0 c l : Z) (msgs : list Message) :
  foldl (count_step t0) (c, l) msgs =
  (c + len (newer_timestamps t0 msgs), foldr Z.max l (newer_timestamps t0 msgs)).
Proof.
  revert c l. unfold newer_timestamps, len.
  induction msgs as [|[[ts|]] msgs IH]; intros c l; simpl.
  - f_equal. lia.
  - rewrite filter_cons. destruct (decide (t0 < ts)) as [Hlt|Hge].
    + apply Z.ltb_lt in Hlt as Hb. rewrite Hb, IH. cbn [foldr length].
      change (list_omap Message Z timestamp msgs) with (omap timestamp msgs).
      rewrite Nat2Z.inj_succ. f_equal; [lia|].
      rewrite <- foldr_max_start. f_equal.
      destruct (l <? ts) eqn:E; [apply Z.ltb_lt in E | apply Z.ltb_ge in E]; lia.
    + assert (Hb : (t0 <? ts) = false) by (apply Z.ltb_ge; lia).
      rewrite Hb. apply IH.
  - apply IH.
Qed.

(** The loop of the check computes what the specification describes. *)
Lemma count_new_spec (t0 : Z) (msgs : list Message) :
  count_new t0 msgs = (spec_new_count t0 msgs, spec_latest t0 msgs).
Proof.
  unfold count_new, spec_new_count, spec_latest. by rewrite count_step_foldl.
Qed.

Lemma spec_new_count_pos t0 msgs :
  (0 <? spec_new_count t0 msgs) = bool_decide (newer_timestamps t0 msgs ≠ []).
Proof.
  unfold spec_new_count, len.
  destruct (newer_timestamps t0 msgs) as [|x xs].
  - by rewrite bool_decide_eq_false_2 by auto.
  - rewrite bool_decide_eq_true_2 by done. apply Z.ltb_lt.
    rewrite length_cons. lia.
Qed.

Lemma filter_fmap_all {A B} (P : B → Prop) `{∀ x, Decision (P x)} (f : A → B)
    (l : list A) :
  (∀ x, P (f x)) → filter P (f <$> l) = f <$> l.
Proof.
  intros HP. induction l as [|x l IH]; [done|].
  rewrite fmap_cons, filter_cons_True by apply HP. by rewrite IH.
Qed.

Lemma issued_app {A} (s : Sys) (r : Res A * Sys) (evs : list Obs) :
  hist (final r) = hist s ++ evs → issued s r = evs.
Proof. unfold issued. intros ->. by rewrite drop_app_length. Qed.

(** ** Activity tracking *)

(** C2. A check whose fetch succeeds with the entries [msgs] adds to
    [unreadCount] the number of entries newer than the stored
    [lastMessageTime], sets [lastMessageTime] to the maximum of the old
    value and of the newer timestamps, sets [lastChecked] to the time read
    after the fetch, and calls every registered observer once, in order,
    with the channel and the updated record exactly when some entry is
    newer; with a stored time of 100 and timestamps 90, 110, 120 the count
    grows by 2 and the time becomes 120. *)
Theorem check_activity_success (channel : Channel) (s : Sys)
    (res : option (list Message)) :
  fetch_answer env channel s = Resolved res →
  let id := streamId channel in
  let cur := currentActivity (mgr s) id in
  let t0 := lastMessageTime cur in
  let msgs := default [] res in
  let r := checkChannelActivity env channel s in
  let updated :=
    mkActivity (spec_latest t0 msgs) (unreadCount cur + spec_new_count t0 msgs)
      (now env (hist s ++ fetch_events env channel s true)) in
  result r = Ok tt
  ∧ channelActivity (mgr (final r)) = <[id := updated]> (channelActivity (mgr s))
  ∧ issued s r =
      fetch_events env channel s true ++
      (if bool_decide (newer_timestamps t0 msgs ≠ [])
       then (λ h, mkObs (mgr (final r)) (EvNotify h id updated)) <$>
              activityHandlers (mgr s)
       else [])
  ∧ (∀ ts, ts ∈ newer_timestamps t0 msgs → ts ≤ lastMessageTime updated)
  ∧ t0 ≤ lastMessageTime updated
  ∧ (t0 = 100 → omap timestamp msgs = [90; 110; 120] →
     unreadCount updated = unreadCount cur + 2 ∧ lastMessageTime updated = 120
     ∧ filter is_notify (issued s r) =
         (λ h, mkObs (mgr (final r)) (EvNotify h id updated)) <$>
           activityHandlers (mgr s)).
Proof.
  intros Hr id cur t0 msgs r updated.
  pose proof (checkChannelActivity_resolved channel s res Hr) as Hrun.
  cbv zeta in Hrun. fold r in Hrun.
  assert (Hupd : checkedActivity env channel s res = updated).
  { unfold checkedActivity, updated. fold id cur t0 msgs.
    by rewrite count_new_spec. }
  rewrite Hupd in Hrun.
  assert (Hpos : (0 <? unreadCount updated - unreadCount (currentActivity (mgr s) id))
                 = bool_decide (newer_timestamps t0 msgs ≠ [])).
  { fold cur. unfold updated. simpl.
    replace (unreadCount cur + spec_new_count t0 msgs - unreadCount cur)
      with (spec_new_count t0 msgs) by lia.
    apply spec_new_count_pos. }
  fold id in Hrun. rewrite Hpos in Hrun.
  assert (Hiss : issued s r =
      fetch_events env channel s true ++
      (if bool_decide (newer_timestamps t0 msgs ≠ [])
       then (λ h, mkObs (mgr (final r)) (EvNotify h id updated)) <$>
              activityHandlers (mgr s)
       else [])).
  { apply issued_app. rewrite Hrun. simpl. done. }
  assert (Hmax : ∀ l xs ts, ts ∈ xs → ts ≤ foldr Z.max l xs).
  { intros l xs. induction xs as [|x xs IH]; intros ts Hin.
    - by apply elem_of_nil in Hin.
    - apply elem_of_cons in Hin as [->|Hin]; simpl; [lia|].
      specialize (IH ts Hin). lia. }
  assert (Hge : ∀ l xs, l ≤ foldr Z.max l xs).
  { intros l xs. induction xs as [|x xs IH]; simpl; lia. }
  split; [by rewrite Hrun|]. split; [by rewrite Hrun|]. split; [exact Hiss|].
  split; [intros ts Hin; apply Hmax, Hin|]. split; [apply Hge|].
  intros Ht0 Hts.
  assert (Hnew : newer_timestamps t0 msgs = [110; 120]).
  { unfold newer_timestamps. rewrite Hts, Ht0. reflexivity. }
  split; [unfold updated, spec_new_count; cbn [unreadCount]; by rewrite Hnew|].
  split.
  { unfold updated, spec_latest. cbn [lastMessageTime]. rewrite Hnew, Ht0.
    reflexivity. }
  rewrite Hiss, bool_decide_eq_true_2 by (rewrite Hnew; done).
  rewrite filter_app, filter_fmap_all by done. reflexivity.
Qed.

(** C10. A check whose fetch is rejected rethrows the error, leaves
    [unreadCount] and [lastMessageTime] of the channel as they were and
    changes only [lastChecked]; no observer is called; a channel without a
    record gets the record [(0, 0, lastChecked)]; no other record and no
    other field of the manager changes. *)
Theorem check_activity_failure (channel : Channel) (s : Sys) :
  fetch_answer env channel s = Rejected →
  let id := streamId channel in
  let r := checkChannelActivity env channel s in
  let tcheck := now env (hist s ++ fetch_events env channel s false) in
  result r = Throw FetchError
  ∧ (∀ a, channelActivity (mgr s) !! id = Some a →
       channelActivity (mgr (final r)) !! id =
       Some (mkActivity (lastMessageTime a) (unreadCount a) tcheck))
  ∧ (channelActivity (mgr s) !! id = None →
       channelActivity (mgr (final r)) !! id = Some (mkActivity 0 0 tcheck))
  ∧ (∀ id', id' ≠ id →
       channelActivity (mgr (final r)) !! id' = channelActivity (mgr s) !! id')
  ∧ filter is_notify (issued s r) = []
  ∧ issued s r = fetch_events env channel s false
  ∧ set_channelActivity (channelActivity (mgr s)) (mgr (final r)) = mgr s.
Proof.
  intros Hr id r tcheck.
  pose proof (checkChannelActivity_rejected channel s Hr) as Hrun. fold r in Hrun.
  assert (Hiss : issued s r = fetch_events env channel s false).
  { apply issued_app. by rewrite Hrun. }
  assert (Hfin : final r =
    mkSys (activity_set id (failedActivity env channel s) (mgr s))
          (hist s ++ fetch_events env channel s false)) by (by rewrite Hrun).
  rewrite Hiss, Hfin. unfold failedActivity, currentActivity. fold id tcheck.
  cbn [mgr activity_set set_channelActivity channelActivity].
  split; [by rewrite Hrun|]. split.
  { intros a Ha. rewrite lookup_insert_eq. by rewrite Ha. }
  split.
  { intros Ha. rewrite lookup_insert_eq. by rewrite Ha. }
  split.
  { intros id' Hne. by rewrite lookup_insert_ne. }
  split; [reflexivity|]. split; [reflexivity|].
  by destruct s as [[] ?].
Qed.

(** ** The state controller *)

Lemma falsy_Some (id : string) : falsy (Some id) = false ↔ id ≠ "".
Proof.
  unfold falsy. split.
  - intros H ->. by rewrite bool_decide_eq_true_2 in H.
  - intros H. by apply bool_decide_eq_false_2.
Qed.

Lemma downgradeToBackground_run (id : string) (s : Sys) :
  id ≠ "" →
  downgradeToBackground env (Some id) s =
  (Ok tt,
   mkSys (snapshot env id s)
     (hist s ++ unsubscribe_events id (snapshot env id s) (unsubscribe_answer env id s))).
Proof.
  intros Hid. unfold downgradeToBackground.
  apply falsy_Some in Hid as ->.
  unfold unsubscribe_answer, unsubscribe_events, snapshot, await_unsubscribe.
  unfold_ops.
  destruct (getChannel env id) as [channel|]; simpl;
    [destruct (messages channel) as [msgs|]; simpl;
       [destruct (last msgs) as [latestMsg|]; simpl|]|];
    destruct (unsubscribe_ok env _); simpl; by rewrite <- app_assoc.
Qed.

Lemma setActiveChannel_same (id : string) pw handlers (s : Sys) :
  activeChannelId (mgr s) = Some id →
  setActiveChannel env (Some id) pw handlers s = (Ok tt, s).
Proof.
  intros Ha. unfold setActiveChannel. destruct (falsy (Some id)); [done|].
  unfold_ops. by rewrite bool_decide_eq_true_2.
Qed.

Lemma setActiveChannel_run (id : string) pw handlers (s : Sys) :
  id ≠ "" → activeChannelId (mgr s) ≠ Some id →
  let m := activated env id handlers s in
  let ok := subscribe_answer env id pw handlers s in
  setActiveChannel env (Some id) pw handlers s =
  (if ok then Ok tt else Throw SubscribeError,
   mkSys m (hist (after_previous env s) ++ subscribe_events id pw m ok)).
Proof.
  intros Hid Hne. cbv zeta.
  unfold setActiveChannel. apply falsy_Some in Hid as Hf. rewrite Hf.
  unfold subscribe_answer, activated, after_previous, subscribe_events.
  unfold bind at 1. unfold this at 1. rewrite bool_decide_eq_false_2 by done.
  destruct (falsy (activeChannelId (mgr s))) eqn:Hfa.
  - unfold await_subscribeToChannel. unfold_ops. simpl.
    destruct (subscribeToChannel_ok env _); simpl; by rewrite <- app_assoc.
  - destruct (activeChannelId (mgr s)) as [prev|] eqn:Hprev; [|done].
    apply falsy_Some in Hfa.
    unfold bind at 1. rewrite (downgradeToBackground_run prev s Hfa).
    unfold await_subscribeToChannel. unfold_ops. simpl.
    destruct (subscribeToChannel_ok env _); simpl; by rewrite <- app_assoc.
Qed.

Lemma after_previous_cases (s : Sys) :
  (falsy (activeChannelId (mgr s)) = true ∧ after_previous env s = s)
  ∨ (∃ prev, activeChannelId (mgr s) = Some prev ∧ prev ≠ ""
       ∧ after_previous env s =
         mkSys (snapshot env prev s)
           (hist s ++ unsubscribe_events prev (snapshot env prev s)
                        (unsubscribe_answer env prev s))).
Proof.
  unfold after_previous.
  destruct (falsy (activeChannelId (mgr s))) eqn:Hf; [by left|]. right.
  destruct (activeChannelId (mgr s)) as [prev|]; [|done].
  apply falsy_Some in Hf. exists prev. split; [done|]. split; [done|].
  by rewrite downgradeToBackground_run.
Qed.

Lemma snapshot_frame (id : string) (s : Sys) :
  set_channelActivity (channelActivity (mgr s)) (snapshot env id s) = mgr s.
Proof.
  unfold snapshot. destruct s as [[] ?]; simpl.
  repeat case_match; done.
Qed.

Lemma snapshot_activeChannelId (id : string) (s : Sys) :
  activeChannelId (snapshot env id s) = activeChannelId (mgr s).
Proof. unfold snapshot. by repeat case_match. Qed.

(** C3. Activating the channel that is already active returns at once:
    no event is issued and no field changes; so two activations of [X] in
    a row, from a state where [X] was not active, issue one subscribe
    request in all, whether or not the first one failed. *)
Theorem setActive_twice (X : string) (pw pw' : option string)
    (handlers handlers' : option nat) (s : Sys) :
  (activeChannelId (mgr s) = Some X →
   setActiveChannel env (Some X) pw handlers s = (Ok tt, s))
  ∧ (X ≠ "" → activeChannelId (mgr s) ≠ Some X →
     let r1 := setActiveChannel env (Some X) pw handlers s in
     let r2 := then_run r1 (setActiveChannel env (Some X) pw' handlers') in
     r2 = (Ok tt, final r1)
     ∧ filter is_subscribe (ev <$> issued s r2) = [EvSubscribe X pw]).
Proof.
  split; [apply setActiveChannel_same|].
  intros HX Hne r1 r2.
  pose proof (setActiveChannel_run X pw handlers s HX Hne) as Hrun.
  cbv zeta in Hrun. fold r1 in Hrun.
  assert (Hact : activeChannelId (mgr (final r1)) = Some X) by (by rewrite Hrun).
  assert (Hr2 : r2 = (Ok tt, final r1)).
  { unfold r2, then_run. by apply setActiveChannel_same. }
  split; [done|]. rewrite Hr2.
  unfold issued, final. simpl. rewrite Hrun. simpl.
  destruct (after_previous_cases s) as [[_ ->]|(prev & _ & _ & ->)]; simpl.
  - by rewrite drop_app_length.
  - rewrite <- app_assoc, drop_app_length. done.
Qed.

(** C4. Activating [A] and then a different channel [B]: the transport
    sees one unsubscribe request for [A]; the request and its settlement
    come before the subscribe request for [B], which comes last. *)
Theorem setActive_switch (A B : string) (pwA pwB : option string)
    (hA hB : option nat) (s : Sys) :
  A ≠ "" → B ≠ "" → A ≠ B →
  let r1 := setActiveChannel env (Some A) pwA hA s in
  let r2 := then_run r1 (setActiveChannel env (Some B) pwB hB) in
  ∃ before okU okS,
    ev <$> issued s r2 =
      before ++ [EvUnsubscribe A; EvUnsubscribeSettled A okU;
                 EvSubscribe B pwB; EvSubscribeSettled B okS]
    ∧ filter (is_unsubscribe_of A) before = []
    ∧ filter (is_subscribe_of B) before = []
    ∧ filter (is_unsubscribe_of A) (ev <$> issued s r2) = [EvUnsubscribe A]
    ∧ filter (is_subscribe_of B) (ev <$> issued s r2) = [EvSubscribe B pwB].
Proof.
  intros HA HB HAB r1 r2.
  assert (H1 : ∃ before,
             activeChannelId (mgr (final r1)) = Some A
             ∧ hist (final r1) = hist s ++ before
             ∧ filter (is_unsubscribe_of A) (ev <$> before) = []
             ∧ filter (is_subscribe_of B) (ev <$> before) = []).
  { destruct (decide (activeChannelId (mgr s) = Some A)) as [Ha|Hna].
    - exists []. unfold r1. rewrite setActiveChannel_same by done.
      simpl. by rewrite app_nil_r.
    - pose proof (setActiveChannel_run A pwA hA s HA Hna) as Hrun.
      cbv zeta in Hrun. fold r1 in Hrun. rewrite Hrun. simpl.
      destruct (after_previous_cases s) as [[_ ->]|(prev & Hp & _ & ->)]; simpl.
      + eexists. split; [reflexivity|]. split; [reflexivity|].
        simpl. rewrite !filter_cons. simpl.
        rewrite (bool_decide_eq_false_2 (A = B)) by done. done.
      + eexists. split; [reflexivity|]. rewrite <- app_assoc.
        split; [reflexivity|]. simpl. rewrite !filter_cons. simpl.
        rewrite (bool_decide_eq_false_2 (A = B)) by done.
        rewrite (bool_decide_eq_false_2 (prev = A)) by congruence. done. }
  destruct H1 as (before & Hact & Hhist & HnoU & HnoS).
  assert (Hne : activeChannelId (mgr (final r1)) ≠ Some B) by congruence.
  pose proof (setActiveChannel_run B pwB hB (final r1) HB Hne) as Hrun.
  cbv zeta in Hrun. fold (then_run r1 (setActiveChannel env (Some B) pwB hB)) in Hrun.
  fold r2 in Hrun.
  destruct (after_previous_cases (final r1)) as [[Hf _]|(prev & Hp & _ & Hafter)].
  { rewrite Hact in Hf. apply falsy_Some in HA. congruence. }
  assert (prev = A) as -> by congruence.
  rewrite Hafter in Hrun. simpl in Hrun.
  exists (ev <$> before), (unsubscribe_answer env A (final r1)),
    (subscribe_answer env B pwB hB (final r1)).
  assert (Hev : ev <$> issued s r2 =
    (ev <$> before) ++
    [EvUnsubscribe A; EvUnsubscribeSettled A (unsubscribe_answer env A (final r1));
     EvSubscribe B pwB; EvSubscribeSettled B (subscribe_answer env B pwB hB (final r1))]).
  { unfold issued. rewrite Hrun. simpl. rewrite Hhist.
    rewrite <- !app_assoc, drop_app_length. by rewrite fmap_app. }
  split; [exact Hev|]. split; [exact HnoU|]. split; [exact HnoS|].
  rewrite Hev, !filter_app, HnoU, HnoS. simpl. rewrite !filter_cons. simpl.
  rewrite !bool_decide_eq_true_2 by done. done.
Qed.

(** ** Frame of an activity check *)

(** A check is one of the two runs written out above. *)
Lemma checkChannelActivity_cases (channel : Channel) (s : Sys) :
  ∃ (r : Res unit) (a : ChannelActivity) (evs : list Obs),
    checkChannelActivity env channel s =
      (r, mkSys (activity_set (streamId channel) a (mgr s)) (hist s ++ evs))
    ∧ Forall (λ o, set_channelActivity (channelActivity (mgr s)) (seen o) = mgr s
                   ∧ (is_fetch (ev o) = true →
                      ∃ p b l pw, ev o = EvFetch (streamId channel) p b l pw)) evs.
Proof.
  assert (Hm : set_channelActivity (channelActivity (mgr s)) (mgr s) = mgr s)
    by (by destruct s as [[] ?]).
  destruct (fetch_answer env channel s) as [|res] eqn:Hr.
  - rewrite (checkChannelActivity_rejected channel s Hr).
    eexists _, _, _. split; [reflexivity|].
    repeat constructor; simpl; try done. eauto.
  - pose proof (checkChannelActivity_resolved channel s res Hr) as Hrun.
    cbv zeta in Hrun. rewrite Hrun.
    eexists _, _, _. split; [reflexivity|].
    apply Forall_app. split.
    + repeat constructor; simpl; try done. eauto.
    + case_match; [|constructor]. unfold notifications.
      apply Forall_fmap, Forall_true. intros h. simpl. split; [|done].
      by destruct s as [[] ?].
Qed.

Lemma checkChannelActivity_frame (channel : Channel) (s : Sys) :
  set_channelActivity (channelActivity (mgr s))
    (mgr (final (checkChannelActivity env channel s))) = mgr s.
Proof.
  destruct (checkChannelActivity_cases channel s) as (r & a & evs & -> & _).
  by destruct s as [[] ?].
Qed.

Lemma forcePollChannel_run (X : string) (s : Sys) :
  (activeChannelId (mgr s) = Some X → forcePollChannel env X s = (Ok tt, s))
  ∧ pollIndex (mgr (final (forcePollChannel env X s))) = pollIndex (mgr s)
  ∧ isPolling (mgr (final (forcePollChannel env X s))) = isPolling (mgr s)
  ∧ result (forcePollChannel env X s) = Ok tt.
Proof.
  unfold forcePollChannel, bind, this. cbv beta iota.
  split.
  { intros Ha. destruct (getChannel env X); [|done].
    by rewrite bool_decide_eq_true_2. }
  destruct (getChannel env X) as [channel|]; [|done].
  destruct (bool_decide (Some X = activeChannelId (mgr s))); [done|].
  unfold try_catch.
  pose proof (checkChannelActivity_frame channel s) as Hf.
  destruct (checkChannelActivity env channel s) as [[[]|e] s'] eqn:Hc;
    unfold final, result, ret in *; simpl in *; rewrite <- Hf; done.
Qed.

(** C9. A forced poll of the active channel returns at once: no fetch is
    issued and no field changes.  A forced poll of any channel leaves the
    poll cursor and the in-progress guard as they are, whatever the guard
    is, and never throws. *)
Theorem forcePoll_frame (X : string) (s : Sys) :
  (activeChannelId (mgr s) = Some X → forcePollChannel env X s = (Ok tt, s))
  ∧ pollIndex (mgr (final (forcePollChannel env X s))) = pollIndex (mgr s)
  ∧ isPolling (mgr (final (forcePollChannel env X s))) = isPolling (mgr s)
  ∧ result (forcePollChannel env X s) = Ok tt.
Proof. exact (forcePollChannel_run X s). Qed.

(** ** What reaches the host *)

Lemma downgradeToBackground_ok (o : option string) (s : Sys) :
  result (downgradeToBackground env o s) = Ok tt.
Proof.
  destruct o as [id|]; [|done].
  destruct (decide (id = "")) as [->|Hid]; [done|].
  by rewrite downgradeToBackground_run.
Qed.

Lemma forcePollChannel_ok (id : string) (s : Sys) :
  result (forcePollChannel env id s) = Ok tt.
Proof. apply forcePollChannel_run. Qed.

Lemma removeChannel_run (id : string) (s : Sys) :
  removeChannel env id s =
  if bool_decide (getLastOpenedChannel env = Some id)
  then (if store_answer env id s then Ok tt else Throw StoreError,
        mkSys (removed id (mgr s)) (hist s ++ [store_write id s]))
  else (Ok tt, mkSys (removed id (mgr s)) (hist s)).
Proof.
  unfold removeChannel, await_setLastOpenedChannel, store_answer, store_write, removed.
  unfold_ops. cbn.
  destruct (bool_decide (activeChannelId (mgr s) = Some id));
    destruct (bool_decide (getLastOpenedChannel env = Some id)); cbn; try done;
    by destruct (setLastOpenedChannel_ok env _).
Qed.

Lemma host_call_throw (c : HostCall) (s : Sys) (e : Error) :
  result (host_call env c s) = Throw e →
  (∃ X pw handlers,
     c = CallSetActive (Some X) pw handlers ∧ X ≠ ""
     ∧ activeChannelId (mgr s) ≠ Some X ∧ e = SubscribeError
     ∧ subscribe_answer env X pw handlers s = false)
  ∨ (∃ id,
       c = CallRemoveChannel id ∧ getLastOpenedChannel env = Some id
       ∧ e = StoreError ∧ store_answer env id s = false).
Proof.
  destruct c; unfold host_call.
  - (* setActive *)
    destruct id as [X|]; [|done].
    destruct (decide (X = "")) as [->|HX]; [done|].
    destruct (decide (activeChannelId (mgr s) = Some X)) as [Ha|Hna].
    { unfold bind. by rewrite setActiveChannel_same. }
    pose proof (setActiveChannel_run X pw handlers s HX Hna) as Hrun.
    cbv zeta in Hrun. unfold bind. rewrite Hrun.
    destruct (subscribe_answer env X pw handlers s) eqn:Hok; [done|].
    unfold result. simpl. intros [= <-]. left. by exists X, pw, handlers.
  - (* clearActive *)
    unfold clearActiveChannel, bind, this. cbv beta iota.
    destruct (falsy _); [done|].
    pose proof (downgradeToBackground_ok (activeChannelId (mgr s)) s) as Hd.
    destruct (downgradeToBackground env _ s) as [[[]|e'] s']; [done|done].
  - done.
  - done.
  - by destruct h.
  - done.
  - done.
  - done.
  - unfold clearUnreadCount, bind, this. cbv beta iota.
    by destruct (channelActivity (mgr s) !! id).
  - (* removeChannel *)
    unfold bind. rewrite removeChannel_run.
    destruct (decide (getLastOpenedChannel env = Some id)) as [Hl|Hl].
    + rewrite bool_decide_eq_true_2 by done.
      destruct (store_answer env id s) eqn:Hok; [done|].
      unfold result. simpl. intros [= <-]. right. by exists id.
    + by rewrite bool_decide_eq_false_2.
  - unfold bind. pose proof (forcePollChannel_ok id s) as Hf.
    by destruct (forcePollChannel env id s) as [[[]|e'] s'].
  - unfold startBackgroundPoller, initializeActivityState. unfold_ops. simpl.
    by destruct (handle_truthy (backgroundPoller (mgr s))).
  - unfold stopBackgroundPoller. unfold_ops. simpl. by repeat case_match.
  - unfold cleanup, stopBackgroundPoller. unfold_ops. simpl. by repeat case_match.
  - done.
Qed.

(** C5 (amended). Activating a channel [X] that is not active moves the
    active pointer to [X] before the subscribe request is issued: the
    request is issued with the pointer already at [X].  The call throws
    exactly when the transport rejects that request, and the pointer is [X]
    afterwards in both cases.  A call of the host interface throws in two
    cases only: this rejected subscribe request, and a write of the last
    opened channel that the store rejects in [removeChannel]; so no failure
    of an unsubscribe request, of a history fetch or of an observer reaches
    the host, and with a store that accepts every write the rejected
    subscribe request is the only error that does. *)
Theorem setActive_subscribe_failure :
  (∀ (X : string) pw handlers (s : Sys),
     X ≠ "" → activeChannelId (mgr s) ≠ Some X →
     let r := setActiveChannel env (Some X) pw handlers s in
     ∃ before m ok,
       issued s r = before ++ subscribe_events X pw m ok
       ∧ filter is_subscribe (ev <$> before) = []
       ∧ activeChannelId m = Some X
       ∧ result r = (if ok then Ok tt else Throw SubscribeError)
       ∧ activeChannelId (mgr (final r)) = Some X)
  ∧ (∀ (c : HostCall) (s : Sys) (e : Error),
       result (host_call env c s) = Throw e →
       (e = SubscribeError
        ∧ ∃ X pw handlers,
            c = CallSetActive (Some X) pw handlers
            ∧ last (ev <$> hist (final (host_call env c s))) =
                Some (EvSubscribeSettled X false)
            ∧ activeChannelId (mgr (final (host_call env c s))) = Some X)
       ∨ (e = StoreError
          ∧ ∃ id,
              c = CallRemoveChannel id
              ∧ getLastOpenedChannel env = Some id
              ∧ last (ev <$> hist (final (host_call env c s))) =
                  Some (EvSetLastOpenedChannel None)))
  ∧ ((∀ h, setLastOpenedChannel_ok env h = true) →
     only_subscribe_failure_propagates env).
Proof.
  split; [|split].
  - intros X pw handlers s HX Hna r.
    pose proof (setActiveChannel_run X pw handlers s HX Hna) as Hrun.
    cbv zeta in Hrun. fold r in Hrun.
    destruct (after_previous_cases s) as [[_ Hs]|(prev & _ & _ & Hs)].
    + exists [], (activated env X handlers s), (subscribe_answer env X pw handlers s).
      split; [apply issued_app; rewrite Hrun, Hs; done|].
      rewrite Hrun. done.
    + eexists (unsubscribe_events prev _ _), (activated env X handlers s),
        (subscribe_answer env X pw handlers s).
      split; [apply issued_app; rewrite Hrun, Hs; simpl; by rewrite <- app_assoc|].
      rewrite Hrun. done.
  - intros c s e Hthrow.
    destruct (host_call_throw c s e Hthrow)
      as [(X & pw & handlers & -> & HX & Hna & -> & Hans)
         |(id & -> & Hl & -> & Hans)].
    + left. split; [done|]. exists X, pw, handlers. split; [done|].
      pose proof (setActiveChannel_run X pw handlers s HX Hna) as Hrun.
      cbv zeta in Hrun. rewrite Hans in Hrun.
      unfold host_call, bind. rewrite Hrun. simpl.
      split; [|done]. unfold subscribe_events.
      rewrite fmap_app. simpl.
      by rewrite (last_app_cons _ [_]).
    + right. split; [done|]. exists id. split; [done|]. split; [done|].
      unfold host_call, bind. rewrite removeChannel_run.
      rewrite bool_decide_eq_true_2, Hans by done. simpl.
      rewrite fmap_app. simpl. by rewrite last_snoc.
  - intros Hstore c s e Hthrow.
    destruct (host_call_throw c s e Hthrow)
      as [(X & pw & handlers & -> & _ & _ & -> & _)
         |(id & _ & _ & _ & Hans)].
    + split; [done|]. by exists X, pw, handlers.
    + unfold store_answer in Hans. by rewrite Hstore in Hans.
Qed.

(** ** Downgrade *)

(** C6 (amended). A downgrade of [X] rewrites the record of [X] only when
    the registry holds in-memory messages for [X]: the record becomes the
    timestamp of the last message (the current time when that message has
    no non-zero timestamp), [unreadCount] 0 and [lastChecked] the current
    time; with no channel object or no message the manager is left as it
    is.  In both cases the unsubscribe request is issued afterwards, with
    the fields already in their final state; a rejected request is not
    propagated; and the caller moves the active pointer away from [X]
    whatever the answer was. *)
Theorem downgrade_snapshot (X : string) (s : Sys) :
  X ≠ "" →
  let r := downgradeToBackground env (Some X) s in
  let n := now env (hist s) in
  (∀ channel msgs latestMsg,
     getChannel env X = Some channel → messages channel = Some msgs →
     last msgs = Some latestMsg →
     channelActivity (mgr (final r)) =
     <[X := mkActivity (num_or (timestamp latestMsg) n) 0 n]> (channelActivity (mgr s)))
  ∧ (getChannel env X = None
     ∨ (∃ channel, getChannel env X = Some channel
          ∧ (messages channel = None ∨ messages channel = Some [])) →
     mgr (final r) = mgr s)
  ∧ set_channelActivity (channelActivity (mgr s)) (mgr (final r)) = mgr s
  ∧ (∃ ok, issued s r = unsubscribe_events X (mgr (final r)) ok)
  ∧ result r = Ok tt
  ∧ (activeChannelId (mgr s) = Some X →
     (∀ Y pw handlers, Y ≠ "" → Y ≠ X →
        activeChannelId (mgr (final (setActiveChannel env (Some Y) pw handlers s)))
        = Some Y)
     ∧ activeChannelId (mgr (final (clearActiveChannel env s))) = None).
Proof.
  intros HX r n.
  pose proof (downgradeToBackground_run X s HX) as Hrun. fold r in Hrun.
  assert (Hiss : issued s r = unsubscribe_events X (snapshot env X s)
                                (unsubscribe_answer env X s))
    by (apply issued_app; by rewrite Hrun).
  rewrite Hiss, Hrun. unfold final, result. cbn [fst snd mgr].
  split.
  { intros channel msgs latestMsg Hc Hm Hl. unfold snapshot.
    by rewrite Hc, Hm, Hl. }
  split.
  { unfold snapshot.
    intros [Hc|(channel & Hc & [Hm|Hm])]; rewrite Hc; [done|by rewrite Hm..]. }
  split; [apply snapshot_frame|].
  split.
  { by eexists. }
  split; [done|].
  intros Ha. split.
  - intros Y pw handlers HY HYX.
    rewrite setActiveChannel_run by congruence. done.
  - unfold clearActiveChannel, bind, this. cbv beta iota.
    rewrite Ha. apply falsy_Some in HX as ->.
    fold r. rewrite Hrun. done.
Qed.

(** ** The background poller *)

(** One turn of the batch loop. *)
Lemma poll_each_cons (channel : Channel) (rest : list (option Channel)) (s : Sys) :
  poll_each env (Some channel :: rest) s =
  if in_cooldown env channel s then poll_each env rest s
  else poll_each env rest
         (staggered rest (final (checkChannelActivity env channel s))).
Proof.
  unfold in_cooldown. cbn [poll_each]. unfold bind at 1, this at 1.
  cbv beta iota. unfold bind at 1, dateNow at 1, ask at 1. cbv beta iota.
  destruct (_ <? _); [done|].
  unfold bind at 1, try_catch. cbv beta iota.
  destruct (checkChannelActivity env channel s) as [[[]|e] s1]; unfold final;
    cbn [snd]; unfold ret; cbv beta iota; unfold bind at 1, this at 1;
    cbv beta iota; unfold bind at 1; destruct rest as [|c rest]; done.
Qed.

Lemma set_channelActivity_twice a b (m : SubscriptionManager) :
  set_channelActivity a (set_channelActivity b m) = set_channelActivity a m.
Proof. done. Qed.

Lemma set_channelActivity_same (m : SubscriptionManager) :
  set_channelActivity (channelActivity m) m = m.
Proof. by destruct m. Qed.

(** The batch loop changes activity records only; every event is issued
    with the active pointer of the start, every fetch is for a channel of
    the batch, and the loop throws only on an undefined entry. *)
Lemma poll_each_frame (batch : list (option Channel)) (s : Sys) :
  ∃ (r : Res unit) acts (evs : list Obs),
    poll_each env batch s = (r, mkSys (set_channelActivity acts (mgr s)) (hist s ++ evs))
    ∧ Forall (λ o, activeChannelId (seen o) = activeChannelId (mgr s)
                   ∧ (is_fetch (ev o) = true →
                      ∃ c p b l pw, Some c ∈ batch
                                    ∧ ev o = EvFetch (streamId c) p b l pw)) evs
    ∧ (Forall is_Some batch → r = Ok tt).
Proof.
  revert s. induction batch as [|[channel|] rest IH]; intros s.
  - exists (Ok tt), (channelActivity (mgr s)), [].
    rewrite set_channelActivity_same, app_nil_r. by destruct s.
  - rewrite poll_each_cons.
    assert (Hweaken : ∀ (s' : Sys) evs,
      activeChannelId (mgr s') = activeChannelId (mgr s) →
      Forall (λ o, activeChannelId (seen o) = activeChannelId (mgr s')
                   ∧ (is_fetch (ev o) = true →
                      ∃ c p b l pw, Some c ∈ rest
                                    ∧ ev o = EvFetch (streamId c) p b l pw)) evs →
      Forall (λ o, activeChannelId (seen o) = activeChannelId (mgr s)
                   ∧ (is_fetch (ev o) = true →
                      ∃ c p b l pw, Some c ∈ Some channel :: rest
                                    ∧ ev o = EvFetch (streamId c) p b l pw)) evs).
    { intros s' evs Hs' HF. eapply Forall_impl; [exact HF|]. intros o [H1 H2].
      split; [congruence|]. intros Hf.
      destruct (H2 Hf) as (c & p & b & l & pw & Hin & Hev).
      exists c, p, b, l, pw. split; [by apply elem_of_cons; right|done]. }
    destruct (in_cooldown env channel s).
    + destruct (IH s) as (r & acts & evs & Hrun & Hevs & Hok).
      exists r, acts, evs. split; [done|]. split; [by apply (Hweaken s)|].
      intros Hall. apply Hok. by inversion Hall.
    + destruct (checkChannelActivity_cases channel s) as (r1 & a & evs1 & Hc & Hevs1).
      rewrite Hc. unfold final. cbn [snd].
      set (s1 := mkSys (activity_set (streamId channel) a (mgr s)) (hist s ++ evs1)).
      assert (Hd : ∃ evd, hist (staggered rest s1) = hist s ++ evs1 ++ evd
                          ∧ mgr (staggered rest s1) = mgr s1
                          ∧ Forall (λ o, seen o = mgr s1 ∧ is_fetch (ev o) = false) evd).
      { destruct rest as [|c rest'].
        - exists []. by rewrite app_nil_r.
        - eexists [_]. simpl. rewrite <- app_assoc. split; [done|]. split; [done|].
          by repeat constructor. }
      destruct Hd as (evd & Hhd & Hmd & Hevd).
      destruct (IH (staggered rest s1)) as (r & acts & evs & Hrun & Hevs & Hok).
      exists r, acts, (evs1 ++ evd ++ evs). rewrite Hrun, Hhd, Hmd.
      split; [by rewrite <- !app_assoc|].
      split.
      * apply Forall_app. split.
        { eapply Forall_impl; [exact Hevs1|]. intros o [H1 H2]. split.
          - by rewrite <- H1.
          - intros Hf. destruct (H2 Hf) as (p & b & l & pw & Hev).
            exists channel, p, b, l, pw. split; [apply elem_of_cons; by left|done]. }
        apply Forall_app. split.
        { eapply Forall_impl; [exact Hevd|]. intros o [-> H2]. split; [done|].
          congruence. }
        apply (Hweaken (staggered rest s1)); [by rewrite Hmd|done].
      * intros Hall. apply Hok. by inversion Hall.
  - exists (Throw TypeError), (channelActivity (mgr s)), [].
    rewrite set_channelActivity_same, app_nil_r. split; [by destruct s|].
    split; [constructor|]. intros Hall. inversion Hall as [|? ? [? ?]]. done.
Qed.

(** The background set is the registry without the active channel. *)
Lemma elem_of_backgroundChannels (m : SubscriptionManager) (c : Channel) :
  c ∈ backgroundChannels env m ↔
  c ∈ getAllChannels env ∧ Some (streamId c) ≠ activeChannelId m.
Proof. unfold backgroundChannels. rewrite list_elem_of_filter. tauto. Qed.

Lemma js_index_Some {A} (arr : list A) (i : Z) (x : A) :
  js_index arr i = Some x → x ∈ arr.
Proof.
  unfold js_index. destruct (0 <=? i); [|done].
  intros H. by apply list_elem_of_lookup_2 in H.
Qed.

Lemma js_index_in_range {A} (arr : list A) (i : Z) :
  0 ≤ i < len arr → is_Some (js_index arr i).
Proof.
  unfold js_index, len. intros [H0 H1].
  assert ((0 <=? i) = true) as -> by (by apply Z.leb_le).
  apply lookup_lt_is_Some. lia.
Qed.

Lemma elem_of_upto (n i : Z) : i ∈ upto n ↔ 0 ≤ i < n.
Proof.
  unfold upto. rewrite list_elem_of_fmap. split.
  - intros (k & -> & Hk). apply elem_of_seq in Hk. lia.
  - intros [H0 H1]. exists (Z.to_nat i). split; [lia|].
    apply elem_of_seq. lia.
Qed.

(** Every entry of a batch is a background channel. *)
Lemma channelsToPoll_background (m : SubscriptionManager) (c : Channel) :
  Some c ∈ channelsToPoll m (backgroundChannels env m) →
  c ∈ backgroundChannels env m.
Proof.
  unfold channelsToPoll. rewrite list_elem_of_fmap.
  intros (i & Hc & _). symmetry in Hc. by apply js_index_Some in Hc.
Qed.

(** With a cursor that is not negative no entry of a batch is undefined. *)
Lemma channelsToPoll_defined (m : SubscriptionManager) (bg : list Channel) :
  0 ≤ pollIndex m → bg ≠ [] → Forall is_Some (channelsToPoll m bg).
Proof.
  intros Hp Hbg. unfold channelsToPoll. apply Forall_fmap, Forall_forall.
  intros i Hi. apply elem_of_upto in Hi. simpl.
  assert (0 < len bg) by (unfold len; destruct bg; [done|simpl; lia]).
  apply js_index_in_range.
  rewrite Z.rem_mod_nonneg by lia. apply Z.mod_pos_bound. lia.
Qed.

Lemma len_pos {A} (l : list A) : l ≠ [] → 0 < len l.
Proof. unfold len. destruct l; [done|simpl; lia]. Qed.

(** The body of a cycle, by cases. *)
Lemma pollBackgroundChannels_unfold (s : Sys) :
  let bg := backgroundChannels env (mgr s) in
  pollBackgroundChannels env s =
  if isPolling (mgr s) then (Ok tt, s)
  else if decide (bg = []) then (Ok tt, mkSys (set_isPolling false (mgr s)) (hist s))
  else
    let s1 := mkSys (set_pollIndex (nextPollIndex (mgr s) bg)
                       (set_isPolling true (mgr s))) (hist s) in
    let rs := poll_each env (channelsToPoll (mgr s) bg) s1 in
    (fst rs, mkSys (set_isPolling false (mgr (snd rs))) (hist (snd rs))).
Proof.
  intros bg.
  unfold pollBackgroundChannels, bind at 1, this at 1. cbv beta iota.
  destruct (isPolling (mgr s)); [done|].
  unfold bind at 1, assign at 1. cbv beta iota.
  unfold try_finally, bind at 1, this at 1. cbv beta iota. cbn [mgr].
  change (backgroundChannels env (set_isPolling true (mgr s))) with bg.
  destruct (decide (bg = [])) as [Hbg|Hbg].
  - by rewrite Hbg.
  - rewrite (proj2 (Z.eqb_neq (len bg) 0)) by (pose proof (len_pos bg Hbg); lia).
    unfold bind at 1, assign at 1. cbv beta iota. cbn [mgr hist].
    change (channelsToPoll (set_isPolling true (mgr s)) bg)
      with (channelsToPoll (mgr s) bg).
    change (nextPollIndex (set_isPolling true (mgr s)) bg)
      with (nextPollIndex (mgr s) bg).
    cbv zeta. by destruct (poll_each env _ _) as [r s'].
Qed.

(** The batch loop on [pre ++ rest] comes to [rest] in the state
    [reached pre rest s], when no entry of [pre] is undefined. *)
Lemma poll_each_reached (pre rest : list (option Channel)) : ∀ s : Sys,
  Forall is_Some pre →
  poll_each env (pre ++ rest) s = poll_each env rest (reached env pre rest s).
Proof.
  induction pre as [|[channel|] pre IH]; intros s Hall; [done| |].
  - assert (Hpre : Forall is_Some pre) by (by inversion Hall).
    rewrite <- app_comm_cons, poll_each_cons. cbn [reached].
    destruct (in_cooldown env channel s); by apply IH.
  - inversion Hall as [|? ? [? ?]]. done.
Qed.

(** The batch loop leaves the records of the channels outside the batch
    as they are. *)
Lemma poll_each_other_records (batch : list (option Channel)) (id : string) :
  ∀ s : Sys,
    id ∉ batch_ids batch →
    channelActivity (mgr (final (poll_each env batch s))) !! id =
    channelActivity (mgr s) !! id.
Proof.
  induction batch as [|[channel|] rest IH]; intros s Hid; [done| |done].
  unfold batch_ids in Hid. cbn [omap list_omap fmap list_fmap] in Hid.
  apply not_elem_of_cons in Hid as [Hne Hid].
  rewrite poll_each_cons. destruct (in_cooldown env channel s); [by apply IH|].
  rewrite IH by done.
  destruct (checkChannelActivity_cases channel s) as (r1 & a & evs1 & -> & _).
  unfold final. cbn [snd].
  assert (Hm : ∀ s1, mgr (staggered rest s1) = mgr s1) by (by destruct rest).
  rewrite Hm. cbn. by rewrite lookup_insert_ne.
Qed.

(** A cycle, written out: it returns at once when one is in progress or
    when there is no background channel; otherwise it advances the cursor,
    runs the batch loop and releases the guard. *)
Lemma pollBackgroundChannels_cases (s : Sys) :
  let bg := backgroundChannels env (mgr s) in
  ((isPolling (mgr s) = true ∨ bg = []) ∧ pollBackgroundChannels env s = (Ok tt, s))
  ∨ (isPolling (mgr s) = false ∧ bg ≠ []
     ∧ ∃ (r : Res unit) acts (evs : list Obs),
         pollBackgroundChannels env s =
           (r, mkSys (set_isPolling false
                        (set_channelActivity acts
                           (set_pollIndex (nextPollIndex (mgr s) bg) (mgr s))))
                     (hist s ++ evs))
         ∧ Forall (λ o, activeChannelId (seen o) = activeChannelId (mgr s)
                        ∧ (is_fetch (ev o) = true →
                           ∃ c p b l pw, Some c ∈ channelsToPoll (mgr s) bg
                                         ∧ ev o = EvFetch (streamId c) p b l pw)) evs
         ∧ (Forall is_Some (channelsToPoll (mgr s) bg) → r = Ok tt)).
Proof.
  intros bg.
  assert (Hunfold : pollBackgroundChannels env s =
    if isPolling (mgr s) then (Ok tt, s)
    else if decide (bg = []) then (Ok tt, mkSys (set_isPolling false (mgr s)) (hist s))
    else
      let s1 := mkSys (set_pollIndex (nextPollIndex (mgr s) bg)
                         (set_isPolling true (mgr s))) (hist s) in
      let rs := poll_each env (channelsToPoll (mgr s) bg) s1 in
      (fst rs, mkSys (set_isPolling false (mgr (snd rs))) (hist (snd rs)))).
  { unfold pollBackgroundChannels, bind at 1, this at 1. cbv beta iota.
    destruct (isPolling (mgr s)); [done|].
    unfold bind at 1, assign at 1. cbv beta iota.
    unfold try_finally, bind at 1, this at 1. cbv beta iota. cbn [mgr].
    change (backgroundChannels env (set_isPolling true (mgr s))) with bg.
    destruct (decide (bg = [])) as [Hbg|Hbg].
    - by rewrite Hbg.
    - assert ((len bg =? 0) = false) as ->.
      { apply Z.eqb_neq. unfold len. destruct bg; [done|simpl; lia]. }
      unfold bind at 1, assign at 1. cbv beta iota. cbn [mgr hist].
      change (channelsToPoll (set_isPolling true (mgr s)) bg)
        with (channelsToPoll (mgr s) bg).
      change (nextPollIndex (set_isPolling true (mgr s)) bg)
        with (nextPollIndex (mgr s) bg).
      cbv zeta. by destruct (poll_each env _ _) as [r s']. }
  rewrite Hunfold.
  destruct (isPolling (mgr s)) eqn:Hp; [left; by split; [left|]|].
  destruct (decide (bg = [])) as [Hbg|Hbg].
  - left. split; [by right|]. destruct s as [[] ?]. simpl in *. by subst.
  - right. split; [done|]. split; [done|]. cbv zeta.
    destruct (poll_each_frame (channelsToPoll (mgr s) bg)
                (mkSys (set_pollIndex (nextPollIndex (mgr s) bg)
                          (set_isPolling true (mgr s))) (hist s)))
      as (r & acts & evs & Hrun & Hevs & Hok).
    rewrite Hrun. cbn [fst snd mgr hist].
    exists r, acts, evs. split; [done|]. split; [exact Hevs|exact Hok].
Qed.

(** C1. The background set of a cycle is the tracked channels without the
    active one; every channel of the batch is drawn from that set, so it is
    not the active channel; and every history fetch of the cycle is issued
    for a background channel, with the active pointer still where it was
    when the batch was selected. *)
Theorem poll_batch_excludes_active (s : Sys) :
  let m := mgr s in
  let bg := backgroundChannels env m in
  (∀ c, c ∈ bg ↔ c ∈ getAllChannels env ∧ Some (streamId c) ≠ activeChannelId m)
  ∧ (∀ c, Some c ∈ channelsToPoll m bg →
          c ∈ bg ∧ Some (streamId c) ≠ activeChannelId m)
  ∧ (∀ o, o ∈ issued s (pollBackgroundChannels env s) →
          activeChannelId (seen o) = activeChannelId m
          ∧ ∀ id p b l pw, ev o = EvFetch id p b l pw →
              Some id ≠ activeChannelId (seen o)
              ∧ ∃ c, c ∈ bg ∧ streamId c = id).
Proof.
  intros m bg.
  split; [apply elem_of_backgroundChannels|].
  assert (Hbatch : ∀ c, Some c ∈ channelsToPoll m bg →
                        c ∈ bg ∧ Some (streamId c) ≠ activeChannelId m).
  { intros c Hc. apply channelsToPoll_background in Hc. split; [done|].
    by apply elem_of_backgroundChannels in Hc as [_ ?]. }
  split; [exact Hbatch|].
  intros o Ho.
  destruct (pollBackgroundChannels_cases s)
    as [[_ Hrun]|(_ & _ & r & acts & evs & Hrun & Hevs & _)].
  - rewrite Hrun in Ho. unfold issued, final in Ho. simpl in Ho.
    rewrite drop_all in Ho. by apply elem_of_nil in Ho.
  - rewrite (issued_app s _ evs) in Ho by (by rewrite Hrun).
    rewrite Forall_forall in Hevs. destruct (Hevs o Ho) as [Hact Hfetch].
    split; [exact Hact|]. intros id p b l pw Hev.
    destruct Hfetch as (c & p' & b' & l' & pw' & Hin & Hev');
      [by rewrite Hev|].
    rewrite Hev in Hev'. injection Hev' as -> _ _ _ _.
    destruct (Hbatch c Hin) as [Hbg Hne]. split; [by rewrite Hact|by exists c].
Qed.

(** C8. In the batch loop a channel whose fetch is rejected gets its
    [lastChecked] set to the time read after the failed attempt, and the
    loop goes on with the rest of the batch, after the stagger wait when
    channels remain; a channel inside its cool-down is passed over.  A
    cycle started with the guard released ends with the guard released and,
    the cursor not being negative, returns normally whatever the fetches
    answer.  For a cycle whose batch is [pre ++ channel :: post] and in
    which the fetch for [channel] is rejected: the cycle is the rest of the
    loop, run on [post] from the state in which the failed check and the
    stagger wait left the manager, followed by the release of the guard;
    it returns normally; when [channel] is not checked again in [post] its
    record after the cycle keeps [lastMessageTime] and [unreadCount] and
    has [lastChecked] at the time of the attempt, and a later turn of the
    loop for this channel, less than the cool-down after that time, passes
    over it. *)
Theorem poll_cycle_survives_fetch_failure :
  (∀ (channel : Channel) (rest : list (option Channel)) (s : Sys),
     in_cooldown env channel s = false →
     fetch_answer env channel s = Rejected →
     let tcheck := now env (hist s ++ fetch_events env channel s false) in
     let s1 := final (checkChannelActivity env channel s) in
     poll_each env (Some channel :: rest) s = poll_each env rest (staggered rest s1)
     ∧ lastChecked_or_0 (channelActivity (mgr (staggered rest s1)) !! streamId channel)
       = tcheck
     ∧ hist s1 = hist s ++ fetch_events env channel s false)
  ∧ (∀ (channel : Channel) (rest : list (option Channel)) (s : Sys),
       in_cooldown env channel s = true →
       poll_each env (Some channel :: rest) s = poll_each env rest s)
  ∧ (∀ s : Sys,
       isPolling (mgr s) = false →
       isPolling (mgr (final (pollBackgroundChannels env s))) = false
       ∧ (0 ≤ pollIndex (mgr s) → result (pollBackgroundChannels env s) = Ok tt))
  ∧ (∀ (s : Sys) (pre post : list (option Channel)) (channel : Channel),
       isPolling (mgr s) = false →
       0 ≤ pollIndex (mgr s) →
       channelsToPoll (mgr s) (backgroundChannels env (mgr s)) =
         pre ++ Some channel :: post →
       let sc := reached env pre (Some channel :: post) (cycle_start env s) in
       in_cooldown env channel sc = false →
       fetch_answer env channel sc = Rejected →
       let cur := currentActivity (mgr sc) (streamId channel) in
       let tcheck := now env (hist sc ++ fetch_events env channel sc false) in
       let failed := mkActivity (lastMessageTime cur) (unreadCount cur) tcheck in
       let sf := mkSys (activity_set (streamId channel) failed (mgr sc))
                       (hist sc ++ fetch_events env channel sc false) in
       let s' := final (pollBackgroundChannels env s) in
       pollBackgroundChannels env s =
         (Ok tt, released (final (poll_each env post (staggered post sf))))
       ∧ (∃ evs, hist s' = hist sc ++ fetch_events env channel sc false ++ evs)
       ∧ (streamId channel ∉ batch_ids post →
          channelActivity (mgr s') !! streamId channel = Some failed
          ∧ ∀ (s'' : Sys) (rest : list (option Channel)),
              channelActivity (mgr s'') !! streamId channel =
                channelActivity (mgr s') !! streamId channel →
              now env (hist s'') - tcheck < MIN_POLL_INTERVAL (config (mgr s'')) →
              poll_each env (Some channel :: rest) s'' = poll_each env rest s'')).
Proof.
  split; [|split; [|split]].
  - intros channel rest s Hcool Hrej tcheck s1.
    split; [by rewrite poll_each_cons, Hcool|].
    unfold s1. rewrite (checkChannelActivity_rejected channel s Hrej).
    unfold final. cbn [snd]. split; [|done].
    destruct rest; cbn [staggered mgr activity_set set_channelActivity channelActivity];
      by rewrite lookup_insert_eq.
  - intros channel rest s Hcool. by rewrite poll_each_cons, Hcool.
  - intros s Hp.
    destruct (pollBackgroundChannels_cases s)
      as [[_ ->]|(_ & Hbg & r & acts & evs & -> & _ & Hok)].
    + done.
    + split; [done|]. intros Hidx. apply Hok.
      by apply channelsToPoll_defined.
  - intros s pre post channel Hp Hidx Hbatch sc Hcool Hrej cur tcheck failed sf s'.
    set (bg := backgroundChannels env (mgr s)) in *.
    assert (Hbg : bg ≠ []).
    { intros E. rewrite E in Hbatch. unfold channelsToPoll, batchSize, upto in Hbatch.
      replace (Z.to_nat (Z.min (POLL_BATCH_SIZE (config (mgr s))) (len (@nil Channel))))
        with 0%nat in Hbatch by (unfold len; simpl; lia).
      by destruct pre. }
    pose proof (channelsToPoll_defined (mgr s) bg Hidx Hbg) as Hall.
    rewrite Hbatch in Hall. apply Forall_app in Hall as [Hpre Hrest].
    assert (Hpost : Forall is_Some post) by (by inversion Hrest).
    assert (Hrun : pollBackgroundChannels env s =
                   (Ok tt, released (final (poll_each env post (staggered post sf))))).
    { rewrite pollBackgroundChannels_unfold. cbv zeta. fold bg.
      rewrite Hp, decide_False by done. rewrite Hbatch.
      change (mkSys (set_pollIndex (nextPollIndex (mgr s) bg)
                       (set_isPolling true (mgr s))) (hist s))
        with (cycle_start env s).
      rewrite poll_each_reached by done. fold sc.
      rewrite poll_each_cons, Hcool.
      rewrite (checkChannelActivity_rejected channel sc Hrej).
      change (failedActivity env channel sc) with failed. fold sf.
      change (final (Throw FetchError, sf)) with sf.
      destruct (poll_each_frame post (staggered post sf)) as (r & acts & evs & Hpe & _ & Hok).
      rewrite Hpe, (Hok Hpost). done. }
    split; [exact Hrun|].
    assert (Hs' : s' = released (final (poll_each env post (staggered post sf))))
      by (unfold s'; by rewrite Hrun).
    split.
    { destruct (poll_each_frame post (staggered post sf)) as (r & acts & evs & Hpe & _).
      rewrite Hs', Hpe. unfold released, final. cbn [snd hist].
      destruct post as [|c post'].
      - exists evs. cbn. by rewrite <- !app_assoc.
      - eexists (_ :: evs). cbn. by rewrite <- !app_assoc. }
    intros Hnot.
    assert (Hrec : channelActivity (mgr s') !! streamId channel = Some failed).
    { rewrite Hs'. unfold released. cbn [mgr set_isPolling channelActivity].
      rewrite poll_each_other_records by done.
      assert (Hm : mgr (staggered post sf) = mgr sf) by (by destruct post).
      rewrite Hm. cbn. by rewrite lookup_insert_eq. }
    split; [exact Hrec|].
    intros s'' rest Hsame Hsoon.
    rewrite poll_each_cons.
    assert (in_cooldown env channel s'' = true) as ->; [|done].
    unfold in_cooldown. rewrite Hsame, Hrec. cbn [lastChecked_or_0 failed lastChecked].
    by apply Z.ltb_lt.
Qed.

(** ** The round-robin cursor *)

(** A cycle started with the guard released moves the cursor by the batch
    size and leaves the pointer, the configuration and the guard as they
    were. *)
Lemma pollBackgroundChannels_cursor (s : Sys) :
  let bg := backgroundChannels env (mgr s) in
  let s' := final (pollBackgroundChannels env s) in
  isPolling (mgr s) = false → bg ≠ [] →
  isPolling (mgr s') = false
  ∧ activeChannelId (mgr s') = activeChannelId (mgr s)
  ∧ config (mgr s') = config (mgr s)
  ∧ pollIndex (mgr s') = nextPollIndex (mgr s) bg.
Proof.
  intros bg s' Hp Hbg. unfold s'.
  destruct (pollBackgroundChannels_cases s)
    as [[[Hp'|Hbg'] _]|(_ & _ & r & acts & evs & -> & _)]; [congruence|done|done].
Qed.

Lemma backgroundChannels_ext (m m' : SubscriptionManager) :
  activeChannelId m' = activeChannelId m →
  backgroundChannels env m' = backgroundChannels env m.
Proof. unfold backgroundChannels. by intros ->. Qed.

Lemma after_cycles_cursor (j : nat) : ∀ s : Sys,
  let bg := backgroundChannels env (mgr s) in
  let bs := Z.min (POLL_BATCH_SIZE (config (mgr s))) (len bg) in
  let sj := after_cycles env j s in
  isPolling (mgr s) = false → bg ≠ [] → 0 ≤ pollIndex (mgr s) →
  0 ≤ POLL_BATCH_SIZE (config (mgr s)) →
  activeChannelId (mgr sj) = activeChannelId (mgr s)
  ∧ config (mgr sj) = config (mgr s)
  ∧ 0 ≤ pollIndex (mgr sj)
  ∧ pollIndex (mgr sj) mod len bg = (pollIndex (mgr s) + Z.of_nat j * bs) mod len bg.
Proof.
  induction j as [|j IH]; intros s bg bs sj Hp Hbg Hidx HB.
  - unfold sj. simpl. rewrite Z.add_0_r. done.
  - pose proof (len_pos bg Hbg) as HN.
    destruct (pollBackgroundChannels_cursor s Hp Hbg) as (Hp' & Ha' & Hc' & Hi').
    set (s' := final (pollBackgroundChannels env s)) in *.
    assert (Hbg' : backgroundChannels env (mgr s') = bg)
      by (by apply backgroundChannels_ext).
    assert (Hnext : pollIndex (mgr s') = (pollIndex (mgr s) + bs) mod len bg).
    { rewrite Hi'. unfold nextPollIndex, batchSize. fold bg bs.
      apply Z.rem_mod_nonneg; lia. }
    assert (Hidx' : 0 ≤ pollIndex (mgr s')).
    { rewrite Hnext. apply Z.mod_pos_bound. lia. }
    specialize (IH s'). cbv zeta in IH. rewrite Hbg', Hc' in IH.
    destruct IH as (Ha & Hc & Hi0 & Hi); [done..|].
    change (after_cycles env (S j) s) with (after_cycles env j s') in sj.
    fold sj in Ha, Hc, Hi0, Hi. fold bs in Hi.
    split; [congruence|]. split; [congruence|]. split; [done|].
    rewrite Hi, Hnext, Zplus_mod_idemp_l. f_equal. lia.
Qed.

Lemma ceil_div_bound (N B d : Z) :
  0 < N → 1 ≤ B → 0 ≤ d < N → d / Z.min B N < ceil_div N B.
Proof.
  intros HN HB Hd. unfold ceil_div.
  destruct (Z.le_gt_cases B N) as [Hle|Hgt].
  - rewrite Z.min_l by lia.
    replace (N + B - 1) with ((N - 1) + 1 * B) by lia.
    rewrite Z_div_plus by lia.
    assert (d / B ≤ (N - 1) / B) by (apply Z.div_le_mono; lia). lia.
  - rewrite Z.min_r by lia. rewrite Z.div_small by lia.
    assert (1 ≤ (N + B - 1) / B) by (apply Z.div_le_lower_bound; lia). lia.
Qed.

(** C7. With the background set and the batch size fixed, a cursor that is
    not negative and the guard released, every background channel is in the
    batch selected by one of the first [ceil(N / B)] cycles in a row; each
    of these batches has [min(B, N)] entries, taken from the cursor on with
    wrap-around, and each cycle advances the cursor by [min(B, N)] modulo
    [N]. *)
Theorem round_robin_covers (s : Sys) (c : Channel) :
  let bg := backgroundChannels env (mgr s) in
  let N := len bg in
  let B := POLL_BATCH_SIZE (config (mgr s)) in
  isPolling (mgr s) = false → 0 ≤ pollIndex (mgr s) → 1 ≤ B → c ∈ bg →
  (∃ j : nat,
     Z.of_nat j < ceil_div N B
     ∧ Some c ∈ channelsToPoll (mgr (after_cycles env j s))
                  (backgroundChannels env (mgr (after_cycles env j s))))
  ∧ (∀ j : nat,
       let sj := after_cycles env j s in
       backgroundChannels env (mgr sj) = bg
       ∧ channelsToPoll (mgr sj) bg =
           (λ i, js_index bg ((pollIndex (mgr sj) + i) mod N)) <$> upto (Z.min B N)
       ∧ pollIndex (mgr (after_cycles env (S j) s)) mod N =
           (pollIndex (mgr sj) + Z.min B N) mod N).
Proof.
  intros bg N B Hp Hidx HB Hc.
  assert (Hbg : bg ≠ []) by (intros E; rewrite E in Hc; by apply elem_of_nil in Hc).
  pose proof (len_pos bg Hbg) as HN. fold N in HN.
  assert (Hinv : ∀ j, let sj := after_cycles env j s in
            backgroundChannels env (mgr sj) = bg
            ∧ config (mgr sj) = config (mgr s)
            ∧ 0 ≤ pollIndex (mgr sj)
            ∧ pollIndex (mgr sj) mod N =
              (pollIndex (mgr s) + Z.of_nat j * Z.min B N) mod N).
  { intros j sj.
    destruct (after_cycles_cursor j s Hp Hbg Hidx) as (Ha & Hcf & Hi0 & Hi);
      [unfold B in HB; lia|].
    split; [by apply backgroundChannels_ext|]. done. }
  assert (Hbatch : ∀ j, let sj := after_cycles env j s in
            channelsToPoll (mgr sj) bg =
            (λ i, js_index bg ((pollIndex (mgr sj) + i) mod N)) <$> upto (Z.min B N)).
  { intros j sj. destruct (Hinv j) as (_ & Hcf & Hi0 & _). fold sj in Hcf, Hi0.
    unfold channelsToPoll, batchSize. rewrite Hcf. fold B N.
    apply list_fmap_ext. intros k i Hi.
    apply list_elem_of_lookup_2, elem_of_upto in Hi.
    by rewrite Z.rem_mod_nonneg by lia. }
  split.
  - apply list_elem_of_lookup_1 in Hc as [idx Hidxc].
    pose proof (lookup_lt_Some _ _ _ Hidxc) as Hlt.
    set (d := (Z.of_nat idx - pollIndex (mgr s)) mod N).
    assert (Hd : 0 ≤ d < N) by (apply Z.mod_pos_bound; lia).
    assert (Hbs : 0 < Z.min B N) by lia.
    exists (Z.to_nat (d / Z.min B N)).
    assert (Hq : 0 ≤ d / Z.min B N) by (apply Z.div_pos; lia).
    split.
    { rewrite Z2Nat.id by done. apply ceil_div_bound; lia. }
    destruct (Hinv (Z.to_nat (d / Z.min B N))) as (Hbgj & _ & Hi0 & Hi).
    rewrite Hbgj, Hbatch. apply list_elem_of_fmap.
    exists (d mod Z.min B N). split.
    + rewrite <- Zplus_mod_idemp_l, Hi, Zplus_mod_idemp_l, Z2Nat.id by done.
      replace (pollIndex (mgr s) + d / Z.min B N * Z.min B N + d mod Z.min B N)
        with (pollIndex (mgr s) + d)
        by (pose proof (Z.div_mod d (Z.min B N)); lia).
      unfold d. rewrite Zplus_mod_idemp_r.
      replace (pollIndex (mgr s) + (Z.of_nat idx - pollIndex (mgr s)))
        with (Z.of_nat idx) by lia.
      rewrite Z.mod_small by (unfold N, len; lia).
      unfold js_index. rewrite (proj2 (Z.leb_le 0 (Z.of_nat idx))) by lia.
      by rewrite Nat2Z.id.
    + apply elem_of_upto. apply Z.mod_pos_bound. lia.
  - intros j sj. destruct (Hinv j) as (Hbgj & _ & _ & Hi).
    destruct (Hinv (S j)) as (_ & _ & _ & Hi').
    split; [done|]. split; [apply Hbatch|].
    rewrite Hi'. fold sj in Hi.
    rewrite <- (Zplus_mod_idemp_l (pollIndex (mgr sj))), Hi, Zplus_mod_idemp_l.
    f_equal. lia.
Qed.

(** ** The cursor in the reachable states *)

Lemma snapshot_cursor (id : string) (s : Sys) :
  pollIndex (snapshot env id s) = pollIndex (mgr s)
  ∧ config (snapshot env id s) = config (mgr s).
Proof. unfold snapshot. by repeat case_match. Qed.

Lemma forcePollChannel_fields (id : string) (s : Sys) :
  set_channelActivity (channelActivity (mgr s))
    (mgr (final (forcePollChannel env id s))) = mgr s.
Proof.
  unfold forcePollChannel, bind, this. cbv beta iota.
  destruct (getChannel env id) as [channel|]; [|apply set_channelActivity_same].
  destruct (bool_decide _); [apply set_channelActivity_same|].
  unfold try_catch.
  pose proof (checkChannelActivity_frame channel s) as Hf.
  by destruct (checkChannelActivity env channel s) as [[[]|e] s'].
Qed.

Lemma setActiveChannel_cursor (o : option string) pw handlers (s : Sys) :
  let s' := final (setActiveChannel env o pw handlers s) in
  pollIndex (mgr s') = pollIndex (mgr s) ∧ config (mgr s') = config (mgr s).
Proof.
  destruct o as [X|]; [|done].
  destruct (decide (X = "")) as [->|HX]; [done|].
  destruct (decide (activeChannelId (mgr s) = Some X)) as [Ha|Hna].
  { by rewrite setActiveChannel_same. }
  rewrite setActiveChannel_run by done. unfold final, activated. cbn [snd mgr].
  destruct (after_previous_cases s) as [[_ ->]|(prev & _ & _ & ->)]; [done|].
  cbn [mgr set_activeSubscriptionHandlers set_activeChannelId pollIndex config].
  apply snapshot_cursor.
Qed.

Lemma clearActiveChannel_cursor (s : Sys) :
  let s' := final (clearActiveChannel env s) in
  pollIndex (mgr s') = pollIndex (mgr s) ∧ config (mgr s') = config (mgr s).
Proof.
  unfold clearActiveChannel, bind, this. cbv beta iota.
  destruct (falsy (activeChannelId (mgr s))) eqn:Hf; [done|].
  destruct (activeChannelId (mgr s)) as [prev|]; [|done].
  apply falsy_Some in Hf. rewrite downgradeToBackground_run by done.
  unfold assign, final. cbn. apply snapshot_cursor.
Qed.

(** A call of the host interface leaves the cursor where it is or resets
    it, and changes the batch size only through [updateConfig]. *)
Lemma host_call_cursor (c : HostCall) (s : Sys) :
  let s' := final (host_call env c s) in
  (pollIndex (mgr s') = pollIndex (mgr s) ∨ pollIndex (mgr s') = 0)
  ∧ (config (mgr s') = config (mgr s)
     ∨ ∃ p, c = CallUpdateConfig p
            ∧ config (mgr s') = merge_config (config (mgr s)) p).
Proof.
  destruct c; unfold host_call.
  - destruct (setActiveChannel_cursor id pw handlers s) as [Hi Hc].
    unfold bind, final in *.
    destruct (setActiveChannel env id pw handlers s) as [[[]|e] s']; simpl in *; auto.
  - destruct (clearActiveChannel_cursor s) as [Hi Hc].
    unfold bind, final in *.
    destruct (clearActiveChannel env s) as [[[]|e] s']; simpl in *; auto.
  - auto.
  - auto.
  - destruct h; auto.
  - auto.
  - auto.
  - auto.
  - unfold clearUnreadCount, bind, this. cbv beta iota.
    destruct (channelActivity (mgr s) !! id); auto.
  - unfold bind. rewrite removeChannel_run. unfold removed.
    repeat case_match; simplify_eq/=; auto.
  - pose proof (forcePollChannel_fields id s) as Hf.
    unfold bind, final in *.
    destruct (forcePollChannel env id s) as [[[]|e] s']; simpl in *;
      rewrite <- Hf; auto.
  - unfold startBackgroundPoller, initializeActivityState. unfold_ops. simpl.
    destruct (handle_truthy (backgroundPoller (mgr s))); simpl; [auto|].
    assert (Hfold : ∀ l m,
      let m' := foldl (λ m' channel,
                  match channelActivity m' !! streamId channel with
                  | Some _ => m'
                  | None =>
                      activity_set (streamId channel)
                        (mkActivity
                           (num_or (getAllChannelLastAccess env (streamId channel)) 0)
                           0 0) m'
                  end) m l in
      pollIndex m' = pollIndex m ∧ config m' = config m).
    { induction l as [|ch l IH]; intros m; [done|]. simpl.
      destruct (channelActivity m !! streamId ch); [apply IH|].
      destruct (IH (activity_set (streamId ch)
                      (mkActivity (num_or (getAllChannelLastAccess env (streamId ch)) 0)
                         0 0) m)) as [H1 H2].
      by rewrite H1, H2. }
    destruct (Hfold (getAllChannels env) (mgr s)) as [H1 H2]. auto.
  - unfold stopBackgroundPoller. unfold_ops. simpl.
    repeat case_match; simplify_eq/=; auto.
  - unfold cleanup, stopBackgroundPoller. unfold_ops. simpl.
    repeat case_match; simplify_eq/=; auto.
  - split; [by left|]. right. by exists p.
Qed.

(** X23. In every reachable state the cursor and the batch size are not
    negative: the hypotheses of the cursor properties hold in every run. *)
Lemma reachable_cursor_nonneg (s : Sys) :
  reachable env s →
  0 ≤ pollIndex (mgr s) ∧ 0 ≤ POLL_BATCH_SIZE (config (mgr s)).
Proof.
  induction 1 as [|c s Hr [Hi Hb] Hk|s Hr [Hi Hb]].
  - done.
  - destruct (host_call_cursor c s) as [Hidx Hcfg]. cbv zeta in Hidx, Hcfg.
    split; [destruct Hidx as [->| ->]; [done|lia]|].
    destruct Hcfg as [->|(p & -> & ->)]; [done|].
    unfold merge_config. simpl in *.
    by destruct (p_POLL_BATCH_SIZE p).
  - destruct (pollBackgroundChannels_cases s)
      as [[_ ->]|(_ & Hbg & r & acts & evs & -> & _)]; [done|].
    unfold final. cbn. split; [|done].
    unfold nextPollIndex, batchSize. pose proof (len_pos _ Hbg).
    rewrite Z.rem_mod_nonneg by lia. apply Z.mod_pos_bound. lia.
Qed.

End Properties.

(** * The rest of the interface *)

Section Interface.

Variable env : Env.

(** ** Clearing the active channel *)

(** X1. [clearActiveChannel] never throws.  Without an active channel it
    changes nothing and issues nothing.  With the active channel [X] it
    issues one unsubscribe request for [X] and, whatever the answer, leaves
    the pointer and the subscription handlers unset; a second call is then
    a no-op. *)
Theorem clearActive_idempotent (s : Sys) :
  let r := clearActiveChannel env s in
  result r = Ok tt
  ∧ (activeChannelId (mgr s) = None → r = (Ok tt, s))
  ∧ (∀ X, activeChannelId (mgr s) = Some X → X ≠ "" →
       activeChannelId (mgr (final r)) = None
       ∧ activeSubscriptionHandlers (mgr (final r)) = None
       ∧ (∃ ok, ev <$> issued s r = [EvUnsubscribe X; EvUnsubscribeSettled X ok])
       ∧ then_run r (clearActiveChannel env) = (Ok tt, final r)).
Proof.
  intros r.
  assert (Hnone : falsy (activeChannelId (mgr s)) = true → r = (Ok tt, s)).
  { intros Hf. unfold r, clearActiveChannel, bind, this. cbv beta iota.
    by rewrite Hf. }
  assert (Hsome : ∀ X, activeChannelId (mgr s) = Some X → X ≠ "" →
            r = (Ok tt,
                 mkSys (set_activeSubscriptionHandlers None
                          (set_activeChannelId None (snapshot env X s)))
                       (hist s ++ unsubscribe_events X (snapshot env X s)
                                    (unsubscribe_answer env X s)))).
  { intros X Ha HX. unfold r, clearActiveChannel, bind at 1, this. cbv beta iota.
    rewrite Ha. apply falsy_Some in HX as Hf. rewrite Hf.
    unfold bind at 1. rewrite (downgradeToBackground_run env X s HX).
    reflexivity. }
  split; [|split].
  - destruct (activeChannelId (mgr s)) as [X|] eqn:Ha.
    + destruct (decide (X = "")) as [->|HX].
      * by rewrite Hnone.
      * by rewrite (Hsome X).
    + by rewrite Hnone.
  - intros Ha. apply Hnone. by rewrite Ha.
  - intros X Ha HX. rewrite (Hsome X Ha HX). unfold final, then_run. cbn [snd mgr].
    split; [done|]. split; [done|]. split.
    + eexists. unfold issued, final. cbn [snd hist].
      by rewrite drop_app_length.
    + unfold clearActiveChannel, bind, this. cbv beta iota. done.
Qed.

(** ** Forgetting a channel *)

(** X2. [removeChannel] deletes the record of the channel and no other;
    when the channel is the active one the pointer and the handlers are
    unset, otherwise they stay; no unsubscribe request is issued; the only
    event is the reset of the last opened channel, when that was this
    channel, and the call returns unless the store rejects that write, in
    which case it throws the error of the store with the record already
    deleted.  Afterwards the queries report no activity and no unread
    entry for it. *)
Theorem removeChannel_forgets (id : string) (s : Sys) :
  let r := removeChannel env id s in
  let m' := mgr (final r) in
  result r =
    (if bool_decide (getLastOpenedChannel env = Some id)
     then if store_answer env id s then Ok tt else Throw StoreError
     else Ok tt)
  ∧ channelActivity m' = delete id (channelActivity (mgr s))
  ∧ (activeChannelId (mgr s) = Some id →
     activeChannelId m' = None ∧ activeSubscriptionHandlers m' = None)
  ∧ (activeChannelId (mgr s) ≠ Some id →
     activeChannelId m' = activeChannelId (mgr s)
     ∧ activeSubscriptionHandlers m' = activeSubscriptionHandlers (mgr s))
  ∧ ev <$> issued s r =
      (if bool_decide (getLastOpenedChannel env = Some id)
       then [EvSetLastOpenedChannel None] else [])
  ∧ result (getChannelActivity id (final r)) = Ok None
  ∧ result (getUnreadCount id (final r)) = Ok 0.
Proof.
  intros r m'. unfold m', r. rewrite removeChannel_run.
  unfold getChannelActivity, getUnreadCount, removed, issued.
  unfold_ops.
  destruct (decide (activeChannelId (mgr s) = Some id)) as [Ha|Ha];
    [rewrite (bool_decide_eq_true_2 _ Ha)|rewrite (bool_decide_eq_false_2 _ Ha)];
    destruct (bool_decide (getLastOpenedChannel env = Some id)) eqn:Hl; cbn;
    rewrite ?drop_app_length, ?drop_all, ?lookup_delete_eq;
    repeat split; done.
Qed.

(** ** Unread counters *)

(** X3. [clearUnreadCount] changes nothing for a channel without a record
    (it creates none); for a channel with a record it sets [unreadCount] to
    0, keeps [lastMessageTime] and [lastChecked], touches no other record
    and issues no event; [getUnreadCount] then answers 0, and a second call
    changes nothing more. *)
Theorem clearUnread_resets (id : string) (s : Sys) :
  let r := clearUnreadCount id s in
  (channelActivity (mgr s) !! id = None → r = (Ok tt, s))
  ∧ (∀ a, channelActivity (mgr s) !! id = Some a →
       r = (Ok tt, mkSys (activity_set id
                            (mkActivity (lastMessageTime a) 0 (lastChecked a)) (mgr s))
                         (hist s)))
  ∧ result (getUnreadCount id (final r)) = Ok 0
  ∧ then_run r (clearUnreadCount id) = (Ok tt, final r).
Proof.
  intros r. unfold r, then_run, clearUnreadCount, getUnreadCount, bind, this.
  cbv beta iota.
  destruct (channelActivity (mgr s) !! id) as [a|] eqn:Ha.
  - split; [done|]. split; [by intros ? [= <-]|].
    unfold assign, final, result, ret. cbn. rewrite !lookup_insert_eq. cbn.
    split; [done|]. unfold activity_set, set_channelActivity. cbn.
    by rewrite insert_insert_eq.
  - split; [done|]. split; [done|]. unfold ret, final, result. cbn.
    by rewrite Ha.
Qed.

Lemma newer_timestamps_none (t0 : Z) (msgs : list Message) :
  (∀ ts, ts ∈ omap timestamp msgs → ts ≤ t0) → newer_timestamps t0 msgs = [].
Proof.
  unfold newer_timestamps. induction (omap timestamp msgs) as [|x xs IH]; [done|].
  intros Hall. rewrite filter_cons_False.
  - apply IH. intros ts Hts. apply Hall. by apply elem_of_cons; right.
  - specialize (Hall x ltac:(apply elem_of_cons; by left)). lia.
Qed.

Lemma spec_latest_bound (t0 : Z) (msgs : list Message) (ts : Z) :
  ts ∈ omap timestamp msgs → ts ≤ spec_latest t0 msgs.
Proof.
  unfold spec_latest, newer_timestamps.
  induction (omap timestamp msgs) as [|x xs IH]; intros Hin.
  - by apply elem_of_nil in Hin.
  - assert (Hge : ∀ l, t0 ≤ foldr Z.max t0 l)
      by (induction l; simpl; lia).
    rewrite filter_cons. apply elem_of_cons in Hin as [->|Hin].
    + destruct (decide (t0 < x)); simpl; [lia|].
      specialize (Hge (filter (λ ts, t0 < ts) xs)). lia.
    + specialize (IH Hin). destruct (decide (t0 < x)); simpl; lia.
Qed.

(** A check that fetches nothing newer than the stored time. *)
Lemma check_no_news (channel : Channel) (s : Sys) (res : option (list Message)) :
  fetch_answer env channel s = Resolved res →
  (∀ ts, ts ∈ omap timestamp (default [] res) →
         ts ≤ lastMessageTime (currentActivity (mgr s) (streamId channel))) →
  let cur := currentActivity (mgr s) (streamId channel) in
  checkChannelActivity env channel s =
  (Ok tt,
   mkSys (activity_set (streamId channel)
            (mkActivity (lastMessageTime cur) (unreadCount cur)
               (now env (hist s ++ fetch_events env channel s true))) (mgr s))
         (hist s ++ fetch_events env channel s true)).
Proof.
  intros Hr Hold cur. subst cur.
  pose proof (checkChannelActivity_resolved env channel s res Hr) as Hrun.
  cbv zeta in Hrun. rewrite Hrun. unfold checkedActivity.
  rewrite count_new_spec. unfold spec_new_count, spec_latest.
  rewrite (newer_timestamps_none _ _ Hold). cbn.
  rewrite Z.add_0_r, Z.sub_diag. cbn. by rewrite ?app_nil_r.
Qed.

Lemma check_no_news_record (channel : Channel) (s : Sys)
    (res : option (list Message)) :
  fetch_answer env channel s = Resolved res →
  (∀ ts, ts ∈ omap timestamp (default [] res) →
         ts ≤ lastMessageTime (currentActivity (mgr s) (streamId channel))) →
  let r := checkChannelActivity env channel s in
  let cur := currentActivity (mgr s) (streamId channel) in
  let cur' := currentActivity (mgr (final r)) (streamId channel) in
  result r = Ok tt
  ∧ unreadCount cur' = unreadCount cur
  ∧ lastMessageTime cur' = lastMessageTime cur
  ∧ filter is_notify (issued s r) = [].
Proof.
  intros Hr Hold r cur cur'. unfold cur', r.
  pose proof (check_no_news channel s res Hr Hold) as Hrun. cbv zeta in Hrun.
  rewrite (issued_app s _ (fetch_events env channel s true))
    by (by rewrite Hrun).
  rewrite Hrun. unfold result, final, currentActivity. cbn [fst snd mgr].
  cbn [activity_set set_channelActivity channelActivity].
  rewrite lookup_insert_eq. done.
Qed.

(** X4. Messages that were already seen are not counted again: when a
    successful check is followed by a successful check whose fetched
    timestamps were all fetched the first time, the second check leaves
    [unreadCount] and [lastMessageTime] as they are and calls no observer.
    The same holds when the unread counter was cleared in between: it stays
    at 0. *)
Theorem check_activity_seen_messages (channel : Channel) (s : Sys)
    (res res' : option (list Message)) :
  fetch_answer env channel s = Resolved res →
  omap timestamp (default [] res') ⊆ omap timestamp (default [] res) →
  let id := streamId channel in
  let s1 := final (checkChannelActivity env channel s) in
  let s1' := final (clearUnreadCount id s1) in
  (fetch_answer env channel s1 = Resolved res' →
   let r2 := checkChannelActivity env channel s1 in
   result r2 = Ok tt
   ∧ unreadCount (currentActivity (mgr (final r2)) id)
     = unreadCount (currentActivity (mgr s1) id)
   ∧ lastMessageTime (currentActivity (mgr (final r2)) id)
     = lastMessageTime (currentActivity (mgr s1) id)
   ∧ filter is_notify (issued s1 r2) = [])
  ∧ (fetch_answer env channel s1' = Resolved res' →
     let r2 := checkChannelActivity env channel s1' in
     result r2 = Ok tt
     ∧ unreadCount (currentActivity (mgr (final r2)) id) = 0
     ∧ lastMessageTime (currentActivity (mgr (final r2)) id)
       = lastMessageTime (currentActivity (mgr s1) id)
     ∧ filter is_notify (issued s1' r2) = []).
Proof.
  intros Hr Hsub id s1 s1'.
  pose proof (checkChannelActivity_resolved env channel s res Hr) as Hrun1.
  cbv zeta in Hrun1.
  assert (Hcur1 : currentActivity (mgr s1) id = checkedActivity env channel s res).
  { unfold s1. rewrite Hrun1. unfold currentActivity, final. cbn.
    by rewrite lookup_insert_eq. }
  assert (Hseen : ∀ ts, ts ∈ omap timestamp (default [] res') →
                        ts ≤ lastMessageTime (currentActivity (mgr s1) id)).
  { intros ts Hts. rewrite Hcur1. unfold checkedActivity. rewrite count_new_spec.
    cbn. apply spec_latest_bound. by apply Hsub. }
  assert (Hcur1' : currentActivity (mgr s1') id =
                   mkActivity (lastMessageTime (currentActivity (mgr s1) id)) 0
                     (lastChecked (currentActivity (mgr s1) id))).
  { unfold s1', clearUnreadCount, bind, this. cbv beta iota.
    unfold currentActivity at 1. unfold s1 at 1 2. rewrite Hrun1.
    unfold final. cbn. rewrite lookup_insert_eq. cbn.
    rewrite lookup_insert_eq. cbn. by rewrite Hcur1. }
  split.
  - intros Hr2 r2.
    destruct (check_no_news_record channel s1 res' Hr2 Hseen)
      as (Hok & Hu & Ht & Hq).
    done.
  - intros Hr2 r2.
    destruct (check_no_news_record channel s1' res' Hr2) as (Hok & Hu & Ht & Hq).
    + fold id. rewrite Hcur1'. exact Hseen.
    + fold id in Hu, Ht. rewrite Hcur1' in Hu, Ht. done.
Qed.

(** ** Observers *)

(** X5. [onActivity] appends a function to the observers and ignores
    anything else.  [offActivity] removes every registration of the
    handler, keeps the others in order, and changes nothing when the
    handler is not registered; after two registrations of one handler a
    single [offActivity] removes both.  A handler that was removed is not
    called by a later check. *)
Theorem observers_registry (h : Handler) (s : Sys) :
  onActivity None s = (Ok tt, s)
  ∧ activityHandlers (mgr (final (onActivity (Some h) s))) =
      activityHandlers (mgr s) ++ [h]
  ∧ activityHandlers (mgr (final (offActivity (Some h) s))) =
      filter (λ h', h' ≠ h) (activityHandlers (mgr s))
  ∧ (h ∉ activityHandlers (mgr s) → offActivity (Some h) s = (Ok tt, s))
  ∧ activityHandlers
      (mgr (final (offActivity (Some h)
                     (final (onActivity (Some h) (final (onActivity (Some h) s)))))))
    = filter (λ h', h' ≠ h) (activityHandlers (mgr s))
  ∧ (∀ channel, let s' := final (offActivity (Some h) s) in
       filter (is_notify_of h)
         (ev <$> issued s' (checkChannelActivity env channel s')) = []).
Proof.
  assert (Hfilter : ∀ l : list Handler,
            filter (λ h', Some h' ≠ Some h) l = filter (λ h', h' ≠ h) l).
  { intros l. apply list_filter_iff. intros x. split; congruence. }
  split; [done|]. split; [done|].
  split; [unfold offActivity, assign, final; cbn; apply Hfilter|].
  split.
  { intros Hnot. unfold offActivity, assign. f_equal.
    destruct s as [m hi]. cbn. f_equal.
    assert (filter (λ h', Some h' ≠ Some h) (activityHandlers m) = activityHandlers m)
      as ->; [|by destruct m].
    cbn in Hnot. induction (activityHandlers m) as [|x xs IH]; [done|].
    apply not_elem_of_cons in Hnot as [Hx Hxs].
    rewrite filter_cons_True by congruence. by rewrite IH. }
  split.
  { unfold offActivity, onActivity, assign, final. cbn.
    rewrite Hfilter, !filter_app.
    rewrite !(filter_cons_False _ h) by (intros Hne; by apply Hne).
    by rewrite filter_nil, !app_nil_r. }
  intros channel s'.
  assert (Hgone : h ∉ activityHandlers (mgr s')).
  { unfold s', offActivity, assign, final. cbn. rewrite Hfilter.
    intros Hin. apply list_elem_of_filter in Hin as [Hne _]. done. }
  clearbody s'.
  assert (Hquiet : ∀ m id a,
            activityHandlers m = activityHandlers (mgr s') →
            filter (is_notify_of h) (ev <$> notifications m id a) = []).
  { intros m id a Hm. unfold notifications. rewrite Hm.
    revert Hgone. generalize (activityHandlers (mgr s')).
    induction l as [|x xs IH]; intros Hgone; [done|].
    apply not_elem_of_cons in Hgone as [Hx Hxs]. rewrite !fmap_cons.
    rewrite filter_cons_False; [by apply IH|].
    cbn. rewrite bool_decide_eq_false_2 by congruence. by intros []. }
  destruct (fetch_answer env channel s') as [|res] eqn:Hr.
  - rewrite (issued_app s' _ (fetch_events env channel s' false))
      by (by rewrite (checkChannelActivity_rejected env channel s' Hr)).
    done.
  - pose proof (checkChannelActivity_resolved env channel s' res Hr) as Hrun.
    cbv zeta in Hrun.
    rewrite Hrun. unfold issued, final. cbn [snd hist]. rewrite drop_app_length.
    rewrite fmap_app, filter_app.
    assert (filter (is_notify_of h) (ev <$> fetch_events env channel s' true) = [])
      as -> by done.
    destruct (0 <? _); [|done].
    apply Hquiet. by destruct s' as [[] ?].
Qed.


(** ** Starting and stopping the poller *)

(** The loop of [initializeActivityState] keeps the records it finds, adds
    one for every other channel of the registry and changes no other
    field. *)
Lemma initialize_fold (chans : list Channel) : ∀ (m : SubscriptionManager),
  let m' :=
    foldl (λ m' channel,
             match channelActivity m' !! streamId channel with
             | Some _ => m'
             | None =>
                 let lastAccess :=
                   num_or (getAllChannelLastAccess env (streamId channel)) 0 in
                 activity_set (streamId channel) (mkActivity lastAccess 0 0) m'
             end) m chans in
  set_channelActivity (channelActivity m) m' = m
  ∧ ∀ id, channelActivity m' !! id =
      match channelActivity m !! id with
      | Some a => Some a
      | None =>
          if bool_decide (id ∈ streamId <$> chans)
          then Some (mkActivity (num_or (getAllChannelLastAccess env id) 0) 0 0)
          else None
      end.
Proof.
  induction chans as [|c chans IH]; intros m; cbn zeta.
  - cbn. split; [by destruct m|]. intros id. by destruct (channelActivity m !! id).
  - cbn [foldl]. destruct (channelActivity m !! streamId c) as [a|] eqn:Hc.
    + destruct (IH m) as [Hf Hl]. split; [exact Hf|]. intros id. rewrite Hl.
      destruct (channelActivity m !! id) as [b|] eqn:Hid; [done|].
      assert (id ≠ streamId c) by congruence.
      rewrite fmap_cons.
      destruct (decide (id ∈ streamId <$> chans)) as [Hin|Hin].
      * rewrite !bool_decide_eq_true_2; [done| |done]. by apply elem_of_cons; right.
      * rewrite !bool_decide_eq_false_2; [done| |done].
        intros [?|?]%elem_of_cons; done.
    + destruct (IH (activity_set (streamId c)
                      (mkActivity (num_or (getAllChannelLastAccess env (streamId c)) 0)
                         0 0) m)) as [Hf Hl].
      split.
      { apply (f_equal (set_channelActivity (channelActivity m))) in Hf.
        etrans; [exact Hf|]. by destruct m. }
      intros id. rewrite Hl. cbn [activity_set set_channelActivity channelActivity].
      rewrite fmap_cons.
      destruct (decide (id = streamId c)) as [->|Hne].
      * rewrite lookup_insert_eq, Hc.
        rewrite bool_decide_eq_true_2; [done|]. by apply elem_of_cons; left.
      * rewrite lookup_insert_ne by done.
        destruct (channelActivity m !! id); [done|].
        destruct (decide (id ∈ streamId <$> chans)) as [Hin|Hin].
        -- rewrite !bool_decide_eq_true_2; [done| |done]. by apply elem_of_cons; right.
        -- rewrite !bool_decide_eq_false_2; [done| |done].
           intros [?|?]%elem_of_cons; done.
Qed.

Lemma initializeActivityState_config (s : Sys) :
  config (mgr (final (initializeActivityState env s))) = config (mgr s).
Proof.
  destruct (initialize_fold (getAllChannels env) (mgr s)) as [Hframe _].
  exact (f_equal config Hframe).
Qed.

Lemma startBackgroundPoller_run (s : Sys) :
  handle_truthy (backgroundPoller (mgr s)) = false →
  let m1 := mgr (final (initializeActivityState env s)) in
  let h := setInterval_handle env
             (hist s ++ [mkObs m1 (EvSetInterval (POLL_INTERVAL (config m1)))]) in
  startBackgroundPoller env s =
  (Ok tt,
   mkSys (set_backgroundPoller (Some h) m1)
     (hist s ++ [mkObs m1 (EvSetInterval (POLL_INTERVAL (config m1)));
                 mkObs (set_backgroundPoller (Some h) m1) (EvSetTimeout 5000)])).
Proof.
  intros Hf. unfold startBackgroundPoller, bind at 1, this at 1. cbv beta iota.
  rewrite Hf. unfold initializeActivityState. unfold_ops. cbn.
  by rewrite <- app_assoc.
Qed.

(** X6. [startBackgroundPoller] never throws.  While a timer handle is
    held it changes nothing and arms nothing.  Otherwise it arms one
    interval timer with the configured [POLL_INTERVAL] and one 5000 ms
    timeout, stores the handle, keeps every existing record, and gives each
    registry channel without a record the record (last access time or 0,
    0, 0); no record is made for a channel that is not in the registry.  A
    second start is then a no-op. *)
Theorem start_poller (s : Sys) :
  let r := startBackgroundPoller env s in
  let m' := mgr (final r) in
  result r = Ok tt
  ∧ (handle_truthy (backgroundPoller (mgr s)) = true → r = (Ok tt, s))
  ∧ (handle_truthy (backgroundPoller (mgr s)) = false →
     ev <$> issued s r =
       [EvSetInterval (POLL_INTERVAL (config (mgr s))); EvSetTimeout 5000]
     ∧ is_Some (backgroundPoller m')
     ∧ (∀ id a, channelActivity (mgr s) !! id = Some a →
                channelActivity m' !! id = Some a)
     ∧ (∀ c, c ∈ getAllChannels env → channelActivity (mgr s) !! streamId c = None →
             channelActivity m' !! streamId c =
             Some (mkActivity (num_or (getAllChannelLastAccess env (streamId c)) 0) 0 0))
     ∧ (∀ id, channelActivity (mgr s) !! id = None →
              id ∉ streamId <$> getAllChannels env →
              channelActivity m' !! id = None)
     ∧ (handle_truthy (backgroundPoller m') = true →
        then_run r (startBackgroundPoller env) = (Ok tt, final r))).
Proof.
  intros r m'.
  assert (Hrunning : ∀ s0, handle_truthy (backgroundPoller (mgr s0)) = true →
                           startBackgroundPoller env s0 = (Ok tt, s0)).
  { intros s0 Ht. unfold startBackgroundPoller, bind, this. cbv beta iota.
    by rewrite Ht. }
  destruct (handle_truthy (backgroundPoller (mgr s))) eqn:Ht.
  { unfold r. rewrite (Hrunning s Ht). by repeat split. }
  pose proof (startBackgroundPoller_run s Ht) as Hrun. cbv zeta in Hrun.
  fold r in Hrun.
  destruct (initialize_fold (getAllChannels env) (mgr s)) as [Hframe Hlook].
  cbv zeta in Hframe, Hlook.
  change (foldl _ (mgr s) (getAllChannels env))
    with (mgr (final (initializeActivityState env s))) in Hframe, Hlook.
  set (m1 := mgr (final (initializeActivityState env s))) in *.
  assert (Hcfg : config m1 = config (mgr s)) by exact (f_equal config Hframe).
  split; [by rewrite Hrun|]. split; [done|]. intros _.
  split.
  { rewrite (issued_app s r _ ltac:(rewrite Hrun; reflexivity)).
    by rewrite Hcfg. }
  unfold m'. rewrite Hrun. unfold final. cbn [snd mgr].
  split; [by eexists|].
  cbn [set_backgroundPoller channelActivity].
  split.
  { intros id a Ha. by rewrite Hlook, Ha. }
  split.
  { intros c Hc Hnone. rewrite Hlook, Hnone.
    rewrite bool_decide_eq_true_2; [done|]. by apply list_elem_of_fmap_2. }
  split.
  { intros id Hnone Hnot. rewrite Hlook, Hnone.
    by rewrite bool_decide_eq_false_2. }
  intros Ht'. unfold then_run, final. cbn [snd]. by apply Hrunning.
Qed.

(** X7. [stopBackgroundPoller] changes nothing when no timer handle is
    held.  Otherwise it clears the interval of the held handle and forgets
    the handle, leaving every other field, the in-progress guard included,
    as it is; a second stop is a no-op and a later start arms the timers
    again. *)
Theorem stop_poller (s : Sys) :
  let r := stopBackgroundPoller s in
  (handle_truthy (backgroundPoller (mgr s)) = false → r = (Ok tt, s))
  ∧ (∀ h, backgroundPoller (mgr s) = Some h → h ≠ 0 →
       r = (Ok tt, mkSys (set_backgroundPoller None (mgr s))
                     (hist s ++ [mkObs (mgr s) (EvClearInterval h)]))
       ∧ then_run r stopBackgroundPoller = (Ok tt, final r)
       ∧ ev <$> issued (final r) (startBackgroundPoller env (final r)) =
           [EvSetInterval (POLL_INTERVAL (config (mgr s))); EvSetTimeout 5000]).
Proof.
  intros r.
  assert (Hunfold : ∀ s0, stopBackgroundPoller s0 =
    match backgroundPoller (mgr s0) with
    | Some h =>
        if handle_truthy (Some h)
        then (Ok tt, mkSys (set_backgroundPoller None (mgr s0))
                       (hist s0 ++ [mkObs (mgr s0) (EvClearInterval h)]))
        else (Ok tt, s0)
    | None => (Ok tt, s0)
    end).
  { intros s0. unfold stopBackgroundPoller. unfold_ops.
    destruct (backgroundPoller (mgr s0)) as [h|]; [|done].
    by destruct (handle_truthy (Some h)). }
  unfold r. rewrite Hunfold.
  split.
  - intros Hf. destruct (backgroundPoller (mgr s)) as [h|]; [|done].
    by rewrite Hf.
  - intros h Hh Hne. rewrite Hh.
    assert (handle_truthy (Some h) = true) as ->.
    { cbn. by rewrite (proj2 (Z.eqb_neq h 0) Hne). }
    split; [done|]. unfold then_run, final. cbn [snd].
    split; [by rewrite Hunfold|].
    set (s1 := mkSys (set_backgroundPoller None (mgr s))
                 (hist s ++ [mkObs (mgr s) (EvClearInterval h)])).
    rewrite (startBackgroundPoller_run s1 eq_refl).
    erewrite issued_app by reflexivity.
    cbn [fmap list_fmap ev]. by rewrite initializeActivityState_config.
Qed.


(** ** Teardown and configuration *)

Lemma stopBackgroundPoller_run (s : Sys) :
  stopBackgroundPoller s =
  match backgroundPoller (mgr s) with
  | Some h =>
      if handle_truthy (Some h)
      then (Ok tt, mkSys (set_backgroundPoller None (mgr s))
                     (hist s ++ [mkObs (mgr s) (EvClearInterval h)]))
      else (Ok tt, s)
  | None => (Ok tt, s)
  end.
Proof.
  unfold stopBackgroundPoller. unfold_ops.
  destruct (backgroundPoller (mgr s)) as [h|]; [|done].
  by destruct (handle_truthy (Some h)).
Qed.

(** X8. [cleanup] never throws and returns every field except the
    configuration to its constructed value: no active channel, no
    handlers, no records, no observers, cursor 0, guard released, and no
    timer handle when the held one was cleared.  The only event it can
    issue is the clearing of the interval: the active channel is not
    unsubscribed. *)
Theorem cleanup_resets (s : Sys) :
  let r := cleanup s in
  result r = Ok tt
  ∧ set_backgroundPoller None (mgr (final r)) =
      set_config (config (mgr s)) constructor
  ∧ backgroundPoller (mgr (final r)) =
      (if handle_truthy (backgroundPoller (mgr s)) then None
       else backgroundPoller (mgr s))
  ∧ ev <$> issued s r =
      match backgroundPoller (mgr s) with
      | Some h => if handle_truthy (Some h) then [EvClearInterval h] else []
      | None => []
      end.
Proof.
  intros r.
  assert (Hrun : r =
    let s0 := final (stopBackgroundPoller s) in
    (Ok tt,
     mkSys (set_activityHandlers []
              (set_isPolling false
                 (set_pollIndex 0
                    (set_channelActivity ∅
                       (set_activeSubscriptionHandlers None
                          (set_activeChannelId None (mgr s0)))))))
           (hist s0))).
  { unfold r, cleanup, bind at 1. rewrite stopBackgroundPoller_run.
    destruct (backgroundPoller (mgr s)) as [h|]; [|done].
    by destruct (handle_truthy (Some h)). }
  rewrite Hrun. cbv zeta. rewrite stopBackgroundPoller_run.
  unfold issued, final, result. cbn [fst snd mgr hist].
  destruct (backgroundPoller (mgr s)) as [h|] eqn:Hh.
  - destruct (handle_truthy (Some h)) eqn:Ht; cbn [snd mgr hist];
      rewrite ?drop_app_length, ?drop_all; cbn -[handle_truthy];
      rewrite ?Hh; done.
  - cbn. by rewrite drop_all, Hh.
Qed.

(** X9. [updateConfig] arms no timer: while the poller runs, a changed
    [POLL_INTERVAL] issues no event and a new start is still a no-op, so
    the interval armed earlier stays in force; only a stop followed by a
    start arms the interval with the merged value, which is the new one
    when the update gives one and the old one otherwise. *)
Theorem updateConfig_interval (p : PartialConfig) (s : Sys) :
  handle_truthy (backgroundPoller (mgr s)) = true →
  let s1 := final (updateConfig p s) in
  let s2 := final (stopBackgroundPoller s1) in
  hist s1 = hist s
  ∧ backgroundPoller (mgr s1) = backgroundPoller (mgr s)
  ∧ startBackgroundPoller env s1 = (Ok tt, s1)
  ∧ ev <$> issued s2 (startBackgroundPoller env s2) =
      [EvSetInterval (default (POLL_INTERVAL (config (mgr s))) (p_POLL_INTERVAL p));
       EvSetTimeout 5000].
Proof.
  intros Ht s1 s2. split; [done|]. split; [done|].
  split.
  { unfold startBackgroundPoller, bind, this. cbv beta iota.
    change (backgroundPoller (mgr s1)) with (backgroundPoller (mgr s)).
    by rewrite Ht. }
  unfold s2. rewrite stopBackgroundPoller_run.
  change (backgroundPoller (mgr s1)) with (backgroundPoller (mgr s)).
  destruct (backgroundPoller (mgr s)) as [h|]; [|done]. rewrite Ht.
  unfold final at 1 2. cbn [snd].
  set (s3 := mkSys _ _).
  rewrite (startBackgroundPoller_run s3 eq_refl).
  erewrite issued_app by reflexivity.
  cbn [fmap list_fmap ev]. by rewrite initializeActivityState_config.
Qed.

(** ** The pointer queries *)

(** X10. After [setActiveChannel] for a non-empty [X], also when the
    subscribe request was rejected, [isActiveChannel] answers true for [X]
    and false for anything else and [getActiveChannelId] answers [X]; after
    [clearActiveChannel] the identifier is null, and [isActiveChannel]
    answers true for a null argument and false for [X].  The queries change
    nothing. *)
Theorem pointer_queries (X : string) (pw : option string) (handlers : option nat)
    (s : Sys) :
  X ≠ "" →
  let s1 := final (setActiveChannel env (Some X) pw handlers s) in
  let s2 := final (clearActiveChannel env s1) in
  isActiveChannel (Some X) s1 = (Ok true, s1)
  ∧ getActiveChannelId s1 = (Ok (Some X), s1)
  ∧ (∀ o, o ≠ Some X → isActiveChannel o s1 = (Ok false, s1))
  ∧ getActiveChannelId s2 = (Ok None, s2)
  ∧ isActiveChannel None s2 = (Ok true, s2)
  ∧ isActiveChannel (Some X) s2 = (Ok false, s2).
Proof.
  intros HX s1 s2.
  assert (H1 : activeChannelId (mgr s1) = Some X).
  { unfold s1.
    destruct (decide (activeChannelId (mgr s) = Some X)) as [Ha|Hna].
    - by rewrite setActiveChannel_same.
    - by rewrite setActiveChannel_run. }
  assert (H2 : activeChannelId (mgr s2) = None).
  { unfold s2, clearActiveChannel, bind at 1, this. cbv beta iota.
    rewrite H1, (proj2 (falsy_Some X) HX).
    unfold bind at 1. rewrite downgradeToBackground_run by done.
    by unfold bind, assign, final. }
  unfold isActiveChannel, getActiveChannelId, bind, this, ret. cbv beta iota.
  rewrite H1, H2.
  split; [by rewrite bool_decide_eq_true_2|]. split; [done|].
  split; [intros o Ho; by rewrite bool_decide_eq_false_2|].
  split; [done|]. split; [by rewrite bool_decide_eq_true_2|].
  by rewrite bool_decide_eq_false_2.
Qed.


(** ** More on the poll cycle *)

(** X11. A cycle that finds the guard taken returns at once and leaves the
    guard taken; a cycle that finds no background channel returns without
    moving the cursor.  In both cases nothing is issued and no field
    changes. *)
Theorem poll_cycle_skips (s : Sys) :
  isPolling (mgr s) = true ∨ backgroundChannels env (mgr s) = [] →
  pollBackgroundChannels env s = (Ok tt, s).
Proof.
  intros Hskip. rewrite pollBackgroundChannels_unfold. cbv zeta.
  destruct (isPolling (mgr s)) eqn:Hp; [done|].
  destruct Hskip as [?|Hbg]; [done|].
  rewrite decide_True by done. destruct s as [[] ?]. cbn in *. by subst.
Qed.

Lemma poll_each_all_cooling (batch : list (option Channel)) (s : Sys) :
  Forall is_Some batch →
  (∀ c, Some c ∈ batch → in_cooldown env c s = true) →
  poll_each env batch s = (Ok tt, s).
Proof.
  induction batch as [|[c|] rest IH]; intros Hdef Hcool.
  - done.
  - rewrite poll_each_cons, Hcool by (apply elem_of_cons; by left).
    apply IH; [by inversion Hdef|].
    intros c' Hc'. apply Hcool. by apply elem_of_cons; right.
  - inversion Hdef as [|? ? [? ?]]. done.
Qed.

(** X12. When every channel of the selected batch is inside its cool-down,
    the cycle checks none of them: it issues nothing and changes no record,
    but the cursor still advances by the batch size, so the skipped
    channels wait for their next turn. *)
Theorem poll_cycle_all_cooling (s : Sys) :
  let bg := backgroundChannels env (mgr s) in
  isPolling (mgr s) = false → 0 ≤ pollIndex (mgr s) → bg ≠ [] →
  (∀ c, Some c ∈ channelsToPoll (mgr s) bg → in_cooldown env c s = true) →
  pollBackgroundChannels env s =
  (Ok tt, mkSys (set_pollIndex (nextPollIndex (mgr s) bg) (mgr s)) (hist s)).
Proof.
  intros bg Hp Hidx Hbg Hcool.
  rewrite pollBackgroundChannels_unfold. fold bg. cbv zeta.
  rewrite Hp, decide_False by done.
  rewrite poll_each_all_cooling.
  - cbn. destruct s as [[] ?]. cbn in *. by subst.
  - by apply channelsToPoll_defined.
  - intros c Hc. by rewrite <- (Hcool c Hc).
Qed.

(** X13. When the cursor is negative but above minus the number of
    background channels, and the batch size is positive, the first entry
    of the batch is undefined: the cycle throws a [TypeError] before any
    check, having advanced the cursor, and the guard is released all the
    same. *)
Theorem poll_cycle_negative_cursor (s : Sys) :
  let bg := backgroundChannels env (mgr s) in
  isPolling (mgr s) = false →
  1 ≤ POLL_BATCH_SIZE (config (mgr s)) →
  - len bg < pollIndex (mgr s) < 0 →
  pollBackgroundChannels env s =
  (Throw TypeError,
   mkSys (set_pollIndex (nextPollIndex (mgr s) bg) (mgr s)) (hist s)).
Proof.
  intros bg Hp HB Hidx.
  assert (Hbg : bg ≠ []).
  { intros E. rewrite E in Hidx. unfold len in Hidx. cbn in Hidx. lia. }
  pose proof (len_pos bg Hbg) as HN.
  rewrite pollBackgroundChannels_unfold. fold bg. cbv zeta.
  rewrite Hp, decide_False by done.
  assert (Hbatch : ∃ rest, channelsToPoll (mgr s) bg = None :: rest).
  { unfold channelsToPoll, batchSize, upto.
    destruct (Z.to_nat (Z.min (POLL_BATCH_SIZE (config (mgr s))) (len bg)))
      as [|n] eqn:Hn; [lia|].
    cbn [seq fmap list_fmap]. eexists.
    f_equal. unfold js_index. rewrite Z.add_0_r.
    rewrite (proj2 (Z.rem_small_iff (pollIndex (mgr s)) (len bg) ltac:(lia)))
      by lia.
    by rewrite (proj2 (Z.leb_gt 0 (pollIndex (mgr s)))) by lia. }
  destruct Hbatch as [rest ->]. cbn.
  destruct s as [[] ?]. cbn in *. by subst.
Qed.


Lemma filter_notifications_nil (P : Event → Prop) `{∀ e, Decision (P e)}
    (m : SubscriptionManager) (id : string) (a : ChannelActivity) :
  (∀ h, ¬ P (EvNotify h id a)) →
  filter P (ev <$> notifications m id a) = [].
Proof.
  intros HP. unfold notifications.
  induction (activityHandlers m) as [|h hs IH]; [done|].
  rewrite !fmap_cons, filter_cons_False by apply HP. exact IH.
Qed.

(** The events of one check: one fetch of the primary partition, up to the
    current time, of the configured page size, and no wait. *)
Lemma checkChannelActivity_events (channel : Channel) (s : Sys) :
  ∃ (r : Res unit) (a : ChannelActivity) (evs : list Obs),
    checkChannelActivity env channel s =
      (r, mkSys (activity_set (streamId channel) a (mgr s)) (hist s ++ evs))
    ∧ filter is_fetch (ev <$> evs) =
        [EvFetch (streamId channel) 0 (now env (hist s))
           (ACTIVITY_CHECK_MESSAGES (config (mgr s))) (or_null (password channel))]
    ∧ filter is_delay (ev <$> evs) = [].
Proof.
  destruct (fetch_answer env channel s) as [|res] eqn:Hr.
  - rewrite (checkChannelActivity_rejected env channel s Hr).
    by eexists _, _, _.
  - pose proof (checkChannelActivity_resolved env channel s res Hr) as Hrun.
    cbv zeta in Hrun. rewrite Hrun.
    eexists _, _, _. split; [reflexivity|].
    rewrite !fmap_app, !filter_app.
    destruct (0 <? _).
    + rewrite !filter_notifications_nil by (intros h []). done.
    + done.
Qed.

Lemma poll_each_counts (batch : list (option Channel)) : ∀ s : Sys,
  ∃ (r : Res unit) acts (evs : list Obs),
    poll_each env batch s =
      (r, mkSys (set_channelActivity acts (mgr s)) (hist s ++ evs))
    ∧ (length (filter is_fetch (ev <$> evs)) ≤ length batch)%nat
    ∧ (length (filter is_delay (ev <$> evs))
       ≤ length (filter is_fetch (ev <$> evs)))%nat
    ∧ (length (filter is_delay (ev <$> evs)) ≤ length batch - 1)%nat
    ∧ Forall (λ e, is_fetch e = true →
                   ∃ id before pw,
                     e = EvFetch id 0 before
                           (ACTIVITY_CHECK_MESSAGES (config (mgr s))) pw)
        (ev <$> evs)
    ∧ Forall (λ e, is_delay e = true →
                   e = EvDelay (POLL_STAGGER_DELAY (config (mgr s))))
        (ev <$> evs).
Proof.
  induction batch as [|[channel|] rest IH]; intros s.
  - exists (Ok tt), (channelActivity (mgr s)), [].
    rewrite set_channelActivity_same, app_nil_r.
    split; [by destruct s|]. cbn. repeat split; try lia; constructor.
  - rewrite poll_each_cons. destruct (in_cooldown env channel s).
    + destruct (IH s) as (r & acts & evs & Hrun & Hf & Hdf & Hd & Hfs & Hds).
      exists r, acts, evs. cbn [length]. repeat split; try done; lia.
    + destruct (checkChannelActivity_events channel s)
        as (r1 & a & evs1 & Hc & Hf1 & Hd1).
      rewrite Hc. unfold final. cbn [snd].
      set (s1 := mkSys (activity_set (streamId channel) a (mgr s)) (hist s ++ evs1)).
      assert (Hst : ∃ evd,
                staggered rest s1 = mkSys (mgr s1) (hist s ++ evs1 ++ evd)
                ∧ filter is_fetch (ev <$> evd) = []
                ∧ (length (filter is_delay (ev <$> evd)) ≤ 1)%nat
                ∧ (rest = [] → evd = [])
                ∧ Forall (λ e, is_delay e = true →
                               e = EvDelay (POLL_STAGGER_DELAY (config (mgr s))))
                    (ev <$> evd)).
      { destruct rest as [|c rest'].
        - exists []. rewrite app_nil_r. cbn.
          repeat split; try done; try lia.
        - eexists [_]. cbn. rewrite <- app_assoc.
          repeat split; try done; try lia. by repeat constructor. }
      destruct Hst as (evd & Hst & Hfd & Hdd & Hnil & Hshape).
      destruct (IH (staggered rest s1))
        as (r & acts & evs & Hrun & Hf & Hdf & Hd & Hfs & Hds).
      rewrite Hst in Hrun, Hfs, Hds. cbn [mgr hist] in Hrun, Hfs, Hds.
      exists r, acts, (evs1 ++ evd ++ evs).
      split; [rewrite Hst, Hrun; by rewrite <- !app_assoc|].
      rewrite !fmap_app, !filter_app, !length_app, Hf1, Hd1, Hfd.
      cbn [length].
      assert (rest = [] → length (filter is_delay (ev <$> evd)) = 0%nat)
        by (intros Hr; by rewrite (Hnil Hr)).
      assert (rest = [] ∨ (1 ≤ length rest)%nat)
        by (destruct rest; [by left|right; cbn; lia]).
      assert ((length (filter is_delay (ev <$> evd))
               + length (filter is_delay (ev <$> evs)) ≤ length rest)%nat).
      { destruct H0 as [Hr|Hr]; [|lia].
        rewrite (H Hr). subst rest. cbn in Hd |- *. lia. }
      split; [lia|]. split; [lia|]. split; [lia|]. split.
      * apply Forall_app. split.
        { apply Forall_forall. intros e He Hfe.
          assert (Hin : e ∈ filter is_fetch (ev <$> evs1))
            by (apply list_elem_of_filter; split; [by rewrite Hfe|done]).
          rewrite Hf1 in Hin. apply list_elem_of_singleton in Hin as ->. eauto. }
        apply Forall_app. split; [|exact Hfs].
        apply Forall_forall. intros e He Hfe.
        assert (Hin : e ∈ filter is_fetch (ev <$> evd))
          by (apply list_elem_of_filter; split; [by rewrite Hfe|done]).
        rewrite Hfd in Hin. by apply elem_of_nil in Hin.
      * apply Forall_app. split.
        { apply Forall_forall. intros e He Hde.
          assert (Hin : e ∈ filter is_delay (ev <$> evs1))
            by (apply list_elem_of_filter; split; [by rewrite Hde|done]).
          rewrite Hd1 in Hin. by apply elem_of_nil in Hin. }
        apply Forall_app. split; [exact Hshape|exact Hds].
  - exists (Throw TypeError), (channelActivity (mgr s)), [].
    rewrite set_channelActivity_same, app_nil_r.
    split; [by destruct s|]. cbn. repeat split; try lia; constructor.
Qed.

(** X14. A cycle issues at most [min(POLL_BATCH_SIZE, N)] history fetches
    for [N] background channels (none when that number is not positive),
    and no more waits than fetches; every fetch asks for partition 0 with
    the configured page size, and every wait is the configured stagger
    delay. *)
Theorem poll_cycle_bounded (s : Sys) :
  let bg := backgroundChannels env (mgr s) in
  let evs := ev <$> issued s (pollBackgroundChannels env s) in
  Z.of_nat (length (filter is_fetch evs))
    ≤ Z.max 0 (Z.min (POLL_BATCH_SIZE (config (mgr s))) (len bg))
  ∧ (length (filter is_delay evs) ≤ length (filter is_fetch evs))%nat
  ∧ Forall (λ e, is_fetch e = true →
                 ∃ id before pw,
                   e = EvFetch id 0 before
                         (ACTIVITY_CHECK_MESSAGES (config (mgr s))) pw) evs
  ∧ Forall (λ e, is_delay e = true →
                 e = EvDelay (POLL_STAGGER_DELAY (config (mgr s)))) evs.
Proof.
  intros bg evs. unfold evs. rewrite pollBackgroundChannels_unfold. fold bg.
  cbv zeta.
  destruct (isPolling (mgr s)).
  { unfold issued, final. cbn. rewrite drop_all. cbn.
    repeat split; try lia; constructor. }
  destruct (decide (bg = [])).
  { unfold issued, final. cbn. rewrite drop_all. cbn.
    repeat split; try lia; constructor. }
  destruct (poll_each_counts (channelsToPoll (mgr s) bg)
              (mkSys (set_pollIndex (nextPollIndex (mgr s) bg)
                        (set_isPolling true (mgr s))) (hist s)))
    as (r & acts & es & Hrun & Hf & Hdf & _ & Hfs & Hds).
  rewrite Hrun. unfold issued, final. cbn [fst snd mgr hist] in *.
  rewrite drop_app_length.
  split; [|done].
  assert (Hlen : length (channelsToPoll (mgr s) bg) =
                 Z.to_nat (Z.min (POLL_BATCH_SIZE (config (mgr s))) (len bg))).
  { unfold channelsToPoll, upto, batchSize. by rewrite !length_fmap, length_seq. }
  lia.
Qed.


(** ** Invariants of the runs *)

Lemma clearActiveChannel_cases (s : Sys) :
  clearActiveChannel env s = (Ok tt, s)
  ∨ ∃ X, activeChannelId (mgr s) = Some X ∧ X ≠ ""
         ∧ clearActiveChannel env s =
           (Ok tt,
            mkSys (set_activeSubscriptionHandlers None
                     (set_activeChannelId None (snapshot env X s)))
                  (hist s ++ unsubscribe_events X (snapshot env X s)
                               (unsubscribe_answer env X s))).
Proof.
  destruct (falsy (activeChannelId (mgr s))) eqn:Hf.
  - left. unfold clearActiveChannel, bind, this. cbv beta iota. by rewrite Hf.
  - right. destruct (activeChannelId (mgr s)) as [X|] eqn:Ha; [|done].
    apply falsy_Some in Hf as HX. exists X. split; [done|]. split; [done|].
    unfold clearActiveChannel, bind at 1, this. cbv beta iota.
    rewrite Ha, Hf. unfold bind at 1.
    by rewrite (downgradeToBackground_run env X s HX).
Qed.

Lemma forcePollChannel_cases (id : string) (s : Sys) :
  forcePollChannel env id s = (Ok tt, s)
  ∨ ∃ channel, getChannel env id = Some channel
               ∧ activeChannelId (mgr s) ≠ Some id
               ∧ forcePollChannel env id s =
                 (Ok tt, final (checkChannelActivity env channel s)).
Proof.
  unfold forcePollChannel, bind, this. cbv beta iota.
  destruct (getChannel env id) as [channel|]; [|by left].
  destruct (decide (Some id = activeChannelId (mgr s))) as [Ha|Hna].
  - left. by rewrite bool_decide_eq_true_2.
  - right. exists channel. split; [done|]. split; [congruence|].
    rewrite bool_decide_eq_false_2 by done. unfold try_catch.
    by destruct (checkChannelActivity env channel s) as [[[]|e] s'].
Qed.

Lemma cleanup_run (s : Sys) :
  cleanup s =
  (Ok tt,
   mkSys (set_activityHandlers []
            (set_isPolling false
               (set_pollIndex 0
                  (set_channelActivity ∅
                     (set_activeSubscriptionHandlers None
                        (set_activeChannelId None
                           (mgr (final (stopBackgroundPoller s)))))))))
         (hist (final (stopBackgroundPoller s)))).
Proof.
  unfold cleanup, bind at 1. rewrite stopBackgroundPoller_run.
  destruct (backgroundPoller (mgr s)) as [h|]; [|done].
  by destruct (handle_truthy (Some h)).
Qed.

Lemma unread_nonneg_insert (id : string) (a : ChannelActivity)
    (m : SubscriptionManager) :
  0 ≤ unreadCount a → unread_nonneg m → unread_nonneg (activity_set id a m).
Proof. intros Ha Hm. unfold unread_nonneg. cbn. by apply map_Forall_insert_2. Qed.

Lemma unread_nonneg_current (m : SubscriptionManager) (id : string) :
  unread_nonneg m → 0 ≤ unreadCount (currentActivity m id).
Proof.
  intros Hm. unfold currentActivity.
  destruct (channelActivity m !! id) as [a|] eqn:Ha; [|done].
  exact (Hm id a Ha).
Qed.

Lemma checkChannelActivity_unread (channel : Channel) (s : Sys) :
  unread_nonneg (mgr s) →
  unread_nonneg (mgr (final (checkChannelActivity env channel s))).
Proof.
  intros Hm. pose proof (unread_nonneg_current _ (streamId channel) Hm) as Hcur.
  destruct (fetch_answer env channel s) as [|res] eqn:Hr.
  - rewrite (checkChannelActivity_rejected env channel s Hr).
    by apply unread_nonneg_insert.
  - pose proof (checkChannelActivity_resolved env channel s res Hr) as Hrun.
    cbv zeta in Hrun. rewrite Hrun. apply unread_nonneg_insert; [|done].
    unfold checkedActivity. rewrite count_new_spec. cbn.
    unfold spec_new_count, len. lia.
Qed.

Lemma poll_each_unread (batch : list (option Channel)) : ∀ s : Sys,
  unread_nonneg (mgr s) → unread_nonneg (mgr (final (poll_each env batch s))).
Proof.
  induction batch as [|[channel|] rest IH]; intros s Hm; [done| |done].
  rewrite poll_each_cons. destruct (in_cooldown env channel s); [by apply IH|].
  apply IH. pose proof (checkChannelActivity_unread channel s Hm) as Hc.
  by destruct rest.
Qed.

Lemma snapshot_unread (id : string) (s : Sys) :
  unread_nonneg (mgr s) → unread_nonneg (snapshot env id s).
Proof.
  intros Hm. unfold snapshot. repeat case_match; try done.
  by apply unread_nonneg_insert.
Qed.

(** X15. In every state of a run, whatever the host calls and configures,
    no activity record has a negative [unreadCount]. *)
Theorem run_state_unread_nonneg (s : Sys) :
  run_state env s → unread_nonneg (mgr s).
Proof.
  induction 1 as [|c s Hr IH|s Hr IH].
  - unfold unread_nonneg. cbn. apply map_Forall_empty.
  - destruct c; unfold host_call.
    + (* setActive *)
      unfold bind.
      destruct id as [X|]; [|done].
      destruct (decide (X = "")) as [->|HX]; [done|].
      destruct (decide (activeChannelId (mgr s) = Some X)) as [Ha|Hna].
      { by rewrite setActiveChannel_same. }
      pose proof (setActiveChannel_run env X pw handlers s HX Hna) as Hrun.
      cbv zeta in Hrun. rewrite Hrun.
      assert (unread_nonneg (activated env X handlers s)).
      { unfold activated.
        destruct (after_previous_cases env s) as [[_ ->]|(prev & _ & _ & ->)];
          [done|]. by apply snapshot_unread. }
      by destruct (subscribe_answer env X pw handlers s).
    + (* clearActive *)
      unfold bind.
      destruct (clearActiveChannel_cases s) as [->|(X & _ & _ & ->)]; [exact IH|].
      by apply snapshot_unread.
    + exact IH.
    + exact IH.
    + destruct h; exact IH.
    + exact IH.
    + exact IH.
    + exact IH.
    + unfold clearUnreadCount, bind, this. cbv beta iota.
      destruct (channelActivity (mgr s) !! id); [|exact IH].
      by apply unread_nonneg_insert.
    + unfold bind. rewrite removeChannel_run.
      assert (unread_nonneg (removed id (mgr s))).
      { assert (unread_nonneg (set_channelActivity
                                 (delete id (channelActivity (mgr s))) (mgr s)))
          by (unfold unread_nonneg; cbn; by apply map_Forall_delete).
        unfold removed. by destruct (bool_decide _). }
      destruct (bool_decide _); [|done]. by destruct (store_answer env id s).
    + unfold bind.
      destruct (forcePollChannel_cases id s) as [->|(channel & _ & _ & ->)];
        [exact IH|].
      exact (checkChannelActivity_unread channel s IH).
    + unfold bind.
      destruct (handle_truthy (backgroundPoller (mgr s))) eqn:Ht.
      { unfold startBackgroundPoller, bind, this. cbv beta iota. rewrite Ht.
        exact IH. }
      rewrite (startBackgroundPoller_run s Ht). unfold final. cbn [snd mgr].
      destruct (initialize_fold (getAllChannels env) (mgr s)) as [_ Hlook].
      cbv zeta in Hlook. unfold unread_nonneg. cbn [set_backgroundPoller channelActivity].
      unfold initializeActivityState, assign, final. cbn [snd mgr].
      intros id a Ha. rewrite Hlook in Ha.
      destruct (channelActivity (mgr s) !! id) as [b|] eqn:Hb.
      * injection Ha as <-. exact (IH id b Hb).
      * destruct (bool_decide _); [|done]. by injection Ha as <-.
    + unfold bind. rewrite stopBackgroundPoller_run.
      destruct (backgroundPoller (mgr s)) as [h|]; [|exact IH].
      destruct (handle_truthy (Some h)); exact IH.
    + unfold bind. rewrite cleanup_run.
      unfold unread_nonneg. cbn. apply map_Forall_empty.
    + exact IH.
  - rewrite pollBackgroundChannels_unfold. cbv zeta.
    destruct (isPolling (mgr s)); [exact IH|].
    destruct (decide _); [exact IH|].
    unfold final. cbn [snd mgr].
    apply (poll_each_unread _ (mkSys _ _)). exact IH.
Qed.

(** A call of the host interface keeps the active pointer well formed and
    leaves the guard as it is or releases it. *)
Lemma host_call_pointer_guard (c : HostCall) (s : Sys) :
  let s' := final (host_call env c s) in
  pointer_wf (mgr s) →
  pointer_wf (mgr s')
  ∧ (isPolling (mgr s') = isPolling (mgr s) ∨ isPolling (mgr s') = false).
Proof.
  intros s' Hwf. unfold s'.
  assert (Hnone : ∀ m, activeChannelId m = None → pointer_wf m)
    by (intros m Hm id; by rewrite Hm).
  assert (Hsame : ∀ m, activeChannelId m = activeChannelId (mgr s) → pointer_wf m)
    by (intros m Hm id; rewrite Hm; apply Hwf).
  destruct c; unfold host_call.
  - unfold bind.
    destruct id as [X|]; [|auto].
    destruct (decide (X = "")) as [->|HX]; [auto|].
    destruct (decide (activeChannelId (mgr s) = Some X)) as [Ha|Hna].
    { rewrite setActiveChannel_same by done. auto. }
    pose proof (setActiveChannel_run env X pw handlers s HX Hna) as Hrun.
    cbv zeta in Hrun. rewrite Hrun.
    assert (Hact : pointer_wf (activated env X handlers s)
                   ∧ isPolling (activated env X handlers s) = isPolling (mgr s)).
    { split; [intros id [= <-]; done|]. unfold activated.
      destruct (after_previous_cases env s) as [[_ ->]|(prev & _ & _ & ->)];
        [done|]. cbn. pose proof (snapshot_frame env prev s) as Hf.
      exact (f_equal isPolling Hf). }
    destruct Hact. by destruct (subscribe_answer env X pw handlers s); auto.
  - unfold bind.
    destruct (clearActiveChannel_cases s) as [->|(X & _ & _ & ->)]; [auto|].
    split; [by apply Hnone|]. left.
    exact (f_equal isPolling (snapshot_frame env X s)).
  - auto.
  - auto.
  - destruct h; auto.
  - auto.
  - auto.
  - auto.
  - unfold clearUnreadCount, bind, this. cbv beta iota.
    destruct (channelActivity (mgr s) !! id); auto.
  - unfold bind. rewrite removeChannel_run. unfold removed.
    repeat case_match; simplify_eq/=; auto.
  - pose proof (forcePollChannel_fields env id s) as Hf.
    unfold bind, final in *.
    destruct (forcePollChannel env id s) as [[[]|e] s0]; cbn in *;
      (split; [apply Hsame; exact (f_equal activeChannelId Hf)
              |left; exact (f_equal isPolling Hf)]).
  - unfold bind.
    destruct (handle_truthy (backgroundPoller (mgr s))) eqn:Ht.
    { unfold startBackgroundPoller, bind, this. cbv beta iota. rewrite Ht. auto. }
    rewrite (startBackgroundPoller_run s Ht). unfold final. cbn [snd mgr].
    destruct (initialize_fold (getAllChannels env) (mgr s)) as [Hframe _].
    cbv zeta in Hframe.
    split; [apply Hsame; exact (f_equal activeChannelId Hframe)
           |left; exact (f_equal isPolling Hframe)].
  - unfold bind. rewrite stopBackgroundPoller_run.
    destruct (backgroundPoller (mgr s)) as [h|]; [|auto].
    destruct (handle_truthy (Some h)); auto.
  - unfold bind. rewrite cleanup_run. split; [by apply Hnone|by right].
  - auto.
Qed.

(** X16. In every state of a run, whatever the host calls and configures,
    the active pointer is unset or holds a non-empty identifier, and the
    in-progress guard is released: no call of the host interface and no
    cycle, also one that throws, leaves it taken. *)
Theorem run_state_pointer_guard (s : Sys) :
  run_state env s → pointer_wf (mgr s) ∧ isPolling (mgr s) = false.
Proof.
  induction 1 as [|c s Hr [Hwf Hg]|s Hr [Hwf Hg]].
  - split; [by intros id|done].
  - destruct (host_call_pointer_guard c s Hwf) as [Hwf' Hg'].
    split; [exact Hwf'|]. destruct Hg' as [->| ->]; done.
  - destruct (pollBackgroundChannels_cases env s)
      as [[_ ->]|(_ & _ & r & acts & evs & -> & _)]; [done|].
    split; [|done]. intros id Hid. by apply Hwf.
Qed.


(** ** The order of the checks *)

Lemma omap_fetch_id_filter (l : list Event) :
  omap fetch_id l = omap fetch_id (filter is_fetch l).
Proof.
  induction l as [|e l IH]; [done|].
  rewrite filter_cons. destruct e; cbn; by rewrite ?IH.
Qed.

Lemma poll_each_order (batch : list (option Channel)) : ∀ s : Sys,
  omap fetch_id (ev <$> issued s (poll_each env batch s)) `sublist_of` batch_ids batch.
Proof.
  induction batch as [|[channel|] rest IH]; intros s.
  - unfold issued, final. cbn. by rewrite drop_all.
  - rewrite poll_each_cons. unfold batch_ids. cbn [omap list_omap fmap list_fmap].
    destruct (in_cooldown env channel s).
    + apply sublist_cons. apply IH.
    + destruct (checkChannelActivity_events channel s)
        as (r1 & a & evs1 & Hc & Hf1 & _).
      rewrite Hc. unfold final. cbn [snd].
      set (s1 := mkSys (activity_set (streamId channel) a (mgr s)) (hist s ++ evs1)).
      assert (Hst : ∃ evd, hist (staggered rest s1) = hist s ++ evs1 ++ evd
                           ∧ omap fetch_id (ev <$> evd) = []).
      { destruct rest as [|c rest'].
        - exists []. by rewrite app_nil_r.
        - eexists [_]. cbn. by rewrite <- app_assoc. }
      destruct Hst as (evd & Hst & Hnof).
      specialize (IH (staggered rest s1)).
      destruct (poll_each_frame env rest (staggered rest s1))
        as (r & acts & evs & Hrun & _).
      rewrite (issued_app _ _ evs) in IH by (by rewrite Hrun).
      rewrite (issued_app s _ (evs1 ++ evd ++ evs))
        by (rewrite Hrun, Hst; cbn; by rewrite <- !app_assoc).
      rewrite !fmap_app, !omap_app, Hnof.
      rewrite (omap_fetch_id_filter (ev <$> evs1)), Hf1. cbn.
      by apply sublist_skip.
  - unfold issued, final. cbn. rewrite drop_all. apply sublist_nil_l.
Qed.

(** X22. The history fetches of a cycle are issued in the order of the
    selected batch, at most one for each entry of the batch: the channels
    fetched form a subsequence of the channels of the batch. *)
Theorem poll_cycle_order (s : Sys) :
  omap fetch_id (ev <$> issued s (pollBackgroundChannels env s))
  `sublist_of`
  batch_ids (channelsToPoll (mgr s) (backgroundChannels env (mgr s))).
Proof.
  rewrite pollBackgroundChannels_unfold. cbv zeta.
  destruct (isPolling (mgr s)).
  { unfold issued, final. cbn. rewrite drop_all. apply sublist_nil_l. }
  destruct (decide _).
  { unfold issued, final. cbn. rewrite drop_all. apply sublist_nil_l. }
  set (s1 := mkSys _ (hist s)).
  pose proof (poll_each_order
                (channelsToPoll (mgr s) (backgroundChannels env (mgr s))) s1) as Ho.
  unfold issued, final in *. cbn [snd hist] in *. exact Ho.
Qed.


End Interface.


(** * Properties of the modal manager *)

Section ModalProperties.

Import Modal.

(** X17. [showAddContactModal] touches nothing, the pending data
    included, when one of its three elements is missing.  With the three
    elements it stores the address as pending [contactAddress], shows it
    as the text of the address element, empties the nickname input, makes
    the modal visible and focuses the nickname input, and leaves every
    other pending entry.  [hideAddContactModal] then hides the modal and
    removes the pending [contactAddress] only. *)
Theorem add_contact_flow (address : string) (s : State) :
  let s' := showAddContactModal address s in
  let s'' := hideAddContactModal s' in
  (getElementById "add-contact-nickname-modal" s = None
   ∨ getElementById "add-contact-modal-address" s = None
   ∨ getElementById "add-contact-modal-nickname" s = None → s' = s)
  ∧ (∀ modal display input,
       getElementById "add-contact-nickname-modal" s = Some modal →
       getElementById "add-contact-modal-address" s = Some display →
       getElementById "add-contact-modal-nickname" s = Some input →
       getPendingData "contactAddress" s' = Some (JString address)
       ∧ getElementById "add-contact-modal-address" s' =
           Some (set_textContent address display)
       ∧ getElementById "add-contact-modal-nickname" s' = Some (set_value "" input)
       ∧ isVisible "add-contact-nickname-modal" s' = Some true
       ∧ lastFocus s' = Some "add-contact-modal-nickname"
       ∧ (∀ k, k ≠ "contactAddress" → getPendingData k s' = getPendingData k s)
       ∧ getPendingData "contactAddress" s'' = None
       ∧ isVisible "add-contact-nickname-modal" s'' = Some false
       ∧ (∀ k, k ≠ "contactAddress" → getPendingData k s'' = getPendingData k s)).
Proof.
  intros s' s''. split.
  - unfold s', showAddContactModal.
    intros [H|[H|H]]; rewrite H; repeat case_match; done.
  - intros modal display input Hm Hd Hi.
    assert (Hs' : s' =
      set_lastFocus (Some "add-contact-modal-nickname")
        (update "add-contact-nickname-modal" (set_hidden false)
           (update "add-contact-modal-nickname" (set_value "")
              (update "add-contact-modal-address" (set_textContent address)
                 (setPendingData "contactAddress" (JString address) s))))).
    { unfold s', showAddContactModal. by rewrite Hm, Hd, Hi. }
    unfold getElementById in *.
    assert (Hp' : pendingData s' =
                  <["contactAddress" := JString address]> (pendingData s))
      by (by rewrite Hs').
    assert (Hdoc' : document s' =
              alter (set_hidden false) "add-contact-nickname-modal"
                (alter (set_value "") "add-contact-modal-nickname"
                   (alter (set_textContent address) "add-contact-modal-address"
                      (document s))))
      by (by rewrite Hs').
    assert (Hm' : document s' !! "add-contact-nickname-modal"
                  = Some (set_hidden false modal)).
    { rewrite Hdoc', lookup_alter_eq, !lookup_alter_ne by done. by rewrite Hm. }
    assert (Hp'' : pendingData s'' = delete "contactAddress" (pendingData s')).
    { unfold s'', hideAddContactModal, hide, getElementById. by rewrite Hm'. }
    assert (Hdoc'' : document s'' =
              alter (set_hidden true) "add-contact-nickname-modal" (document s')).
    { unfold s'', hideAddContactModal, hide, getElementById. by rewrite Hm'. }
    unfold getPendingData, isVisible, getElementById.
    rewrite Hp'', Hdoc'', lookup_alter_eq, Hm', Hp', lookup_delete_eq.
    rewrite lookup_insert_eq, Hdoc'.
    rewrite (lookup_alter_ne _ _ "add-contact-nickname-modal"
               "add-contact-modal-address") by done.
    rewrite (lookup_alter_ne _ _ "add-contact-modal-nickname"
               "add-contact-modal-address") by done.
    rewrite (lookup_alter_ne _ _ "add-contact-nickname-modal"
               "add-contact-modal-nickname") by done.
    rewrite !lookup_alter_eq, lookup_alter_ne by done.
    rewrite Hd, Hi. cbn.
    repeat split; try done.
    + by rewrite Hs'.
    + intros k Hk. by rewrite lookup_insert_ne.
    + intros k Hk. by rewrite lookup_delete_ne, lookup_insert_ne.
Qed.

(** X18. [showRemoveContactModal] touches nothing when the modal or its
    address element is missing.  Otherwise it stores the address and the
    callback as pending data, the callback being [null] when none is
    given, shows the address and makes the modal visible.
    [hideRemoveContactModal] then hides the modal and removes these two
    pending entries and no other. *)
Theorem remove_contact_flow (address : string) (callback : option nat) (s : State) :
  let s' := showRemoveContactModal address callback s in
  let s'' := hideRemoveContactModal s' in
  (getElementById "remove-contact-modal" s = None
   ∨ getElementById "remove-contact-modal-address" s = None → s' = s)
  ∧ (∀ modal display,
       getElementById "remove-contact-modal" s = Some modal →
       getElementById "remove-contact-modal-address" s = Some display →
       getPendingData "removeContactAddress" s' = Some (JString address)
       ∧ getPendingData "removeContactCallback" s' =
           Some (match callback with Some f => JFunction f | None => JNull end)
       ∧ getElementById "remove-contact-modal-address" s' =
           Some (set_textContent address display)
       ∧ isVisible "remove-contact-modal" s' = Some true
       ∧ getPendingData "removeContactAddress" s'' = None
       ∧ getPendingData "removeContactCallback" s'' = None
       ∧ isVisible "remove-contact-modal" s'' = Some false
       ∧ (∀ k, k ≠ "removeContactAddress" → k ≠ "removeContactCallback" →
               getPendingData k s' = getPendingData k s
               ∧ getPendingData k s'' = getPendingData k s)).
Proof.
  intros s' s''. split.
  - unfold s', showRemoveContactModal.
    intros [H|H]; rewrite H; repeat case_match; done.
  - intros modal display Hm Hd.
    assert (Hs' : s' =
      update "remove-contact-modal" (set_hidden false)
        (update "remove-contact-modal-address" (set_textContent address)
           (setPendingData "removeContactCallback"
              (match callback with Some f => JFunction f | None => JNull end)
              (setPendingData "removeContactAddress" (JString address) s)))).
    { unfold s', showRemoveContactModal. by rewrite Hm, Hd. }
    unfold getElementById in *.
    assert (Hp' : pendingData s' =
              <["removeContactCallback" :=
                  match callback with Some f => JFunction f | None => JNull end]>
                (<["removeContactAddress" := JString address]> (pendingData s)))
      by (by rewrite Hs').
    assert (Hdoc' : document s' =
              alter (set_hidden false) "remove-contact-modal"
                (alter (set_textContent address) "remove-contact-modal-address"
                   (document s)))
      by (by rewrite Hs').
    assert (Hm' : document s' !! "remove-contact-modal"
                  = Some (set_hidden false modal)).
    { rewrite Hdoc', lookup_alter_eq, lookup_alter_ne by done. by rewrite Hm. }
    assert (Hp'' : pendingData s'' =
              delete "removeContactCallback"
                (delete "removeContactAddress" (pendingData s'))).
    { unfold s'', hideRemoveContactModal, hide, getElementById. by rewrite Hm'. }
    assert (Hdoc'' : document s'' =
              alter (set_hidden true) "remove-contact-modal" (document s')).
    { unfold s'', hideRemoveContactModal, hide, getElementById. by rewrite Hm'. }
    unfold getPendingData, isVisible, getElementById.
    rewrite Hp'', Hdoc'', lookup_alter_eq, Hm', Hp'.
    rewrite lookup_delete_eq, lookup_insert_eq.
    rewrite (lookup_delete_ne _ "removeContactCallback" "removeContactAddress")
      by done.
    rewrite lookup_delete_eq.
    rewrite (lookup_insert_ne _ "removeContactCallback" "removeContactAddress")
      by done.
    rewrite lookup_insert_eq, Hdoc'.
    rewrite lookup_alter_ne, lookup_alter_eq by done. rewrite Hd. cbn.
    repeat split; try done.
    + by rewrite !lookup_insert_ne.
    + by rewrite !lookup_delete_ne, !lookup_insert_ne.
Qed.

(** X19. Pending data, for keys that are not inherited property names: a
    stored value is read back under its key and replaces an earlier one;
    [clearPendingData] with a non-empty key removes that entry only, while
    a call without key, or with the empty string as key, removes every
    entry. *)
Theorem pending_data_clear (k : string) (v w : JsValue) (s : State) :
  plain_key k →
  getPendingData k (setPendingData k v (setPendingData k w s)) = Some v
  ∧ (∀ k', plain_key k' → k' ≠ k →
           getPendingData k' (setPendingData k v s) = getPendingData k' s)
  ∧ (k ≠ "" →
     getPendingData k (clearPendingData (Some k) s) = None
     ∧ ∀ k', plain_key k' → k' ≠ k →
         getPendingData k' (clearPendingData (Some k) s) = getPendingData k' s)
  ∧ (∀ k', plain_key k' →
           getPendingData k' (clearPendingData None (setPendingData k v s)) = None)
  ∧ (∀ k', plain_key k' →
           getPendingData k' (clearPendingData (Some "") (setPendingData k v s))
           = None)
  ∧ document (clearPendingData (Some k) s) = document s.
Proof.
  intros _. unfold getPendingData, setPendingData, clearPendingData. cbn.
  split; [by rewrite lookup_insert_eq|].
  split; [intros k' _ Hk; by rewrite lookup_insert_ne|].
  split.
  { intros Hk. rewrite bool_decide_eq_false_2 by done. cbn.
    split; [by rewrite lookup_delete_eq|].
    intros k' _ Hk'. by rewrite lookup_delete_ne. }
  split; [done|]. split; [done|].
  by destruct (bool_decide (k = "")).
Qed.

(** X20. Visibility: for an element that exists, [hide] makes [isVisible]
    answer false and a second [hide] changes nothing more, [toggle] negates
    the answer and two toggles restore the state; for an identifier without
    element [hide] and [toggle] change nothing and [isVisible] answers
    [null].  None of them touches the pending data. *)
Theorem modal_visibility (id : string) (s : State) :
  (getElementById id s = None →
   hide id s = s ∧ toggle id s = s ∧ isVisible id s = None)
  ∧ (∀ el, getElementById id s = Some el →
       isVisible id (hide id s) = Some false
       ∧ hide id (hide id s) = hide id s
       ∧ isVisible id (toggle id s) = negb <$> isVisible id s
       ∧ toggle id (toggle id s) = s
       ∧ isVisible id (toggle id (hide id s)) = Some true
       ∧ (∀ id', id' ≠ id → getElementById id' (hide id s) = getElementById id' s))
  ∧ pendingData (hide id s) = pendingData s
  ∧ pendingData (toggle id s) = pendingData s.
Proof.
  unfold hide, toggle, isVisible, getElementById, update.
  split; [by intros ->|]. split.
  - intros el Hel. rewrite Hel. cbn.
    rewrite !lookup_alter_eq, Hel. cbn. rewrite !lookup_alter_eq, Hel. cbn.
    split; [done|]. split.
    { unfold set_document. cbn. f_equal. rewrite alter_alter_eq.
      by apply alter_ext. }
    split; [done|]. split.
    { destruct s as [p d a]. unfold set_document. cbn in *. f_equal.
      rewrite alter_alter_eq. apply alter_id. intros x Hx.
      cbn. destruct x as [[] ? ? ?]; done. }
    split; [done|]. intros id' Hne. by rewrite lookup_alter_ne.
  - by destruct (document s !! id).
Qed.

(** A guarded write is the write itself: altering a missing element
    changes nothing. *)
Lemma update_missing (id : string) (f : Element → Element) (s : State) :
  match getElementById id s with
  | Some _ => update id f s
  | None => s
  end = update id f s.
Proof.
  unfold getElementById, update.
  destruct (document s !! id) eqn:H; [done|].
  rewrite alter_id' by done. by destruct s.
Qed.

(** X21. [showJoinClosedChannelModal] writes the given stream identifier,
    or the empty string when none is given, into the identifier input,
    empties the name input and makes the modal visible; each of the three
    elements that exists is updated whether or not the others exist, and
    the pending data and the focus stay as they are. *)
Theorem join_closed_modal (streamId : option string) (s : State) :
  let s' := showJoinClosedChannelModal streamId s in
  getElementById "join-closed-stream-id-input" s' =
    set_value (default "" streamId) <$> getElementById "join-closed-stream-id-input" s
  ∧ getElementById "join-closed-name-input" s' =
      set_value "" <$> getElementById "join-closed-name-input" s
  ∧ isVisible "join-closed-channel-modal" s' =
      (λ _, true) <$> getElementById "join-closed-channel-modal" s
  ∧ pendingData s' = pendingData s
  ∧ lastFocus s' = lastFocus s
  ∧ (∀ id, id ≠ "join-closed-stream-id-input" → id ≠ "join-closed-name-input" →
           id ≠ "join-closed-channel-modal" →
           getElementById id s' = getElementById id s).
Proof.
  intros s'.
  assert (Hs' : s' =
    update "join-closed-channel-modal" (set_hidden false)
      (update "join-closed-name-input" (set_value "")
         (update "join-closed-stream-id-input" (set_value (default "" streamId)) s))).
  { unfold s', showJoinClosedChannelModal. cbv zeta. by rewrite !update_missing. }
  rewrite Hs'. unfold isVisible, getElementById, update. cbn.
  rewrite (lookup_alter_ne _ _ "join-closed-channel-modal"
             "join-closed-stream-id-input") by done.
  rewrite (lookup_alter_ne _ _ "join-closed-name-input"
             "join-closed-stream-id-input") by done.
  rewrite (lookup_alter_ne _ _ "join-closed-channel-modal"
             "join-closed-name-input") by done.
  rewrite !lookup_alter_eq.
  rewrite (lookup_alter_ne _ _ "join-closed-stream-id-input"
             "join-closed-name-input") by done.
  rewrite (lookup_alter_ne _ _ "join-closed-name-input"
             "join-closed-channel-modal") by done.
  rewrite (lookup_alter_ne _ _ "join-closed-stream-id-input"
             "join-closed-channel-modal") by done.
  split; [done|]. split; [done|].
  split; [by destruct (document s !! "join-closed-channel-modal")|].
  split; [done|]. split; [done|].
  intros id Ha Hb Hc. by rewrite !lookup_alter_ne.
Qed.


End ModalProperties.


(** * Instances *)

(** C6, as stated, fails for a channel without in-memory messages: the
    record of "x" keeps its [unreadCount] of 5 through the downgrade. *)
Lemma downgrade_keeps_unread_without_messages :
  ¬ downgrade_resets_record (sample_env [sample_channel "x" []] true Rejected) "x"
      (sample_state (Some "x") [("x", mkActivity 50 5 7)] []).
Proof.
  intros (a & Ha & Hu & _). vm_compute in Ha.
  injection Ha as <-. discriminate Hu.
Qed.

(** A downgrade with in-memory messages 40 and 42 and a transport that
    rejects the unsubscribe request. *)
Lemma downgrade_snapshot_witness :
  let env := sample_env [sample_channel "x" [40; 42]] false Rejected in
  let s := sample_state (Some "x") [("x", mkActivity 10 5 7)] [] in
  let r := downgradeToBackground env (Some "x") s in
  channelActivity (mgr (final r)) !! "x" = Some (mkActivity 42 0 100000)
  ∧ result r = Ok tt
  ∧ activeChannelId (mgr (final (clearActiveChannel env s))) = None.
Proof.
  intros env s r.
  destruct (downgrade_snapshot env "x" s ltac:(done))
    as (Hrec & _ & _ & _ & Hok & Hptr).
  split.
  - fold r in Hrec.
    rewrite (Hrec (sample_channel "x" [40; 42]) _ (mkMessage (Some 42))
               eq_refl eq_refl eq_refl).
    apply lookup_insert_eq.
  - split; [exact Hok|]. apply Hptr. reflexivity.
Defined.

(** Two tracked channels, "a" active: the batch is "b" alone. *)
Lemma poll_batch_excludes_active_witness :
  let env := sample_env [sample_channel "a" []; sample_channel "b" []] true Rejected in
  let s := sample_state (Some "a") [] [] in
  channelsToPoll (mgr s) (backgroundChannels env (mgr s)) = [Some (sample_channel "b" [])]
  ∧ sample_channel "b" [] ∈ backgroundChannels env (mgr s)
  ∧ Some "b" ≠ activeChannelId (mgr s).
Proof.
  intros env s. split; [reflexivity|].
  apply (proj1 (proj2 (poll_batch_excludes_active env s)) (sample_channel "b" [])).
  apply list_elem_of_here.
Defined.

(** The scenario of the specification: stored time 100, fetched
    timestamps 90, 110, 120, one observer. *)
Lemma check_activity_success_witness :
  let fetched := Resolved (Some [mkMessage (Some 90); mkMessage (Some 110);
                                 mkMessage (Some 120)]) in
  let env := sample_env [sample_channel "ch1" []] true fetched in
  let s := sample_state None [("ch1", mkActivity 100 4 0)] [7%nat] in
  let r := checkChannelActivity env (sample_channel "ch1" []) s in
  channelActivity (mgr (final r)) !! "ch1" = Some (mkActivity 120 6 100002)
  ∧ filter is_notify (issued s r) =
      [mkObs (mgr (final r)) (EvNotify 7%nat "ch1" (mkActivity 120 6 100002))].
Proof.
  intros fetched env s r.
  destruct (check_activity_success env (sample_channel "ch1" []) s _ eq_refl)
    as (_ & Hrec & _ & _ & _ & Hscenario).
  destruct (Hscenario eq_refl eq_refl) as (_ & _ & Hnotify).
  split.
  - fold r in Hrec. rewrite Hrec. apply lookup_insert_eq.
  - exact Hnotify.
Defined.

(** Two activations of "x" with a transport that rejects the subscribe
    request. *)
Lemma setActive_twice_witness :
  let env := sample_env [] false Rejected in
  let s := sample_state None [] [] in
  let r1 := setActiveChannel env (Some "x") None None s in
  let r2 := then_run r1 (setActiveChannel env (Some "x") None None) in
  result r1 = Throw SubscribeError
  ∧ r2 = (Ok tt, final r1)
  ∧ filter is_subscribe (ev <$> issued s r2) = [EvSubscribe "x" None].
Proof.
  intros env s r1 r2. split; [reflexivity|].
  exact (proj2 (setActive_twice env "x" None None None None s)
           ltac:(done) ltac:(done)).
Defined.

(** Activating "a" and then "b" from the initial state. *)
Lemma setActive_switch_witness :
  let env := sample_env [] true Rejected in
  let s := sample_state None [] [] in
  let r1 := setActiveChannel env (Some "a") None None s in
  let r2 := then_run r1 (setActiveChannel env (Some "b") None None) in
  ∃ before okU okS,
    ev <$> issued s r2 =
      before ++ [EvUnsubscribe "a"; EvUnsubscribeSettled "a" okU;
                 EvSubscribe "b" None; EvSubscribeSettled "b" okS]
    ∧ filter (is_unsubscribe_of "a") before = []
    ∧ filter (is_subscribe_of "b") before = []
    ∧ filter (is_unsubscribe_of "a") (ev <$> issued s r2) = [EvUnsubscribe "a"]
    ∧ filter (is_subscribe_of "b") (ev <$> issued s r2) = [EvSubscribe "b" None].
Proof.
  intros env s.
  exact (setActive_switch env "a" "b" None None None None s
           ltac:(done) ltac:(done) ltac:(done)).
Defined.

(** C5, as stated, fails with a store that rejects the write of the last
    opened channel: forgetting that channel throws the error of the store,
    which is not a rejected subscribe request. *)
Lemma removeChannel_propagates_store_failure :
  ¬ only_subscribe_failure_propagates
      (with_store (Some "x") false (sample_env [] true Rejected)).
Proof.
  intros Honly.
  destruct (Honly (CallRemoveChannel "x") (sample_state None [] []) StoreError eq_refl)
    as [Herr _].
  discriminate Herr.
Qed.

(** An activation of "x" whose subscribe request is rejected, and the
    removal of the last opened channel "x" with a store that rejects the
    write. *)
Lemma setActive_subscribe_failure_witness :
  let env := sample_env [] false Rejected in
  let s := sample_state None [] [] in
  let r := host_call env (CallSetActive (Some "x") None None) s in
  let env' := with_store (Some "x") false env in
  let r' := host_call env' (CallRemoveChannel "x") s in
  result r = Throw SubscribeError
  ∧ last (ev <$> hist (final r)) = Some (EvSubscribeSettled "x" false)
  ∧ activeChannelId (mgr (final r)) = Some "x"
  ∧ (∃ before m ok,
       issued s (setActiveChannel env (Some "x") None None s) =
         before ++ subscribe_events "x" None m ok
       ∧ activeChannelId m = Some "x")
  ∧ only_subscribe_failure_propagates env
  ∧ result r' = Throw StoreError
  ∧ last (ev <$> hist (final r')) = Some (EvSetLastOpenedChannel None).
Proof.
  intros env s r env' r'.
  destruct (setActive_subscribe_failure env) as (Hfirst & Hthrown & Honly).
  split; [reflexivity|].
  destruct (Hthrown (CallSetActive (Some "x") None None) s SubscribeError eq_refl)
    as [(_ & X & pw & handlers & Hc & Hlast & Hptr)|(Hstore & _)];
    [|discriminate Hstore].
  injection Hc as <- <- <-.
  split; [exact Hlast|]. split; [exact Hptr|].
  split.
  { destruct (Hfirst "x" None None s ltac:(done) ltac:(done))
      as (before & m & ok & Hiss & _ & Hm & _).
    by exists before, m, ok. }
  split; [apply Honly; reflexivity|].
  split; [reflexivity|].
  destruct (setActive_subscribe_failure env') as (_ & Hthrown' & _).
  destruct (Hthrown' (CallRemoveChannel "x") s StoreError eq_refl)
    as [(Hsub & _)|(_ & id & Hc & _ & Hlast')]; [discriminate Hsub|].
  exact Hlast'.
Defined.

(** Four background channels and the default batch size 3: two cycles
    reach the last channel. *)
Lemma round_robin_covers_witness :
  let chans := [sample_channel "a" []; sample_channel "b" []; sample_channel "c" [];
                sample_channel "d" []] in
  let env := sample_env chans true (Resolved None) in
  let s := sample_state None [] [] in
  ∃ j : nat,
    Z.of_nat j < 2
    ∧ Some (sample_channel "d" []) ∈
        channelsToPoll (mgr (after_cycles env j s))
          (backgroundChannels env (mgr (after_cycles env j s))).
Proof.
  intros chans env s.
  refine (proj1 (round_robin_covers env s (sample_channel "d" [])
                   eq_refl _ _ _)).
  - simpl. lia.
  - simpl. lia.
  - change (backgroundChannels env (mgr s)) with chans. unfold chans.
    do 3 apply list_elem_of_further. apply list_elem_of_here.
Defined.

(** A cycle over three channels with a transport that rejects every
    fetch: the three fetches are issued in order, the cycle returns, and
    the record of "b" holds the time of its failed attempt. *)
Lemma poll_cycle_survives_fetch_failure_witness :
  let a := sample_channel "a" [] in
  let b := sample_channel "b" [] in
  let c := sample_channel "c" [] in
  let env := sample_env [a; b; c] true Rejected in
  let s := sample_state None [] [] in
  let s1 := final (checkChannelActivity env a s) in
  let s' := final (pollBackgroundChannels env s) in
  poll_each env [Some a; Some b] s = poll_each env [Some b] (staggered [Some b] s1)
  ∧ lastChecked_or_0 (channelActivity (mgr (staggered [Some b] s1)) !! "a") = 100002
  ∧ isPolling (mgr s') = false
  ∧ result (pollBackgroundChannels env s) = Ok tt
  ∧ omap fetch_id (ev <$> hist s') = ["a"; "b"; "c"]
  ∧ channelActivity (mgr s') !! "b" = Some (mkActivity 0 0 100005)
  ∧ (∀ (s'' : Sys) (rest : list (option Channel)),
       channelActivity (mgr s'') !! "b" = channelActivity (mgr s') !! "b" →
       now env (hist s'') - 100005 < MIN_POLL_INTERVAL (config (mgr s'')) →
       poll_each env (Some b :: rest) s'' = poll_each env rest s'').
Proof.
  intros a b c env s s1 s'.
  destruct (poll_cycle_survives_fetch_failure env) as (Hstep & _ & Hcycle & Hfailed).
  destruct (Hstep a [Some b] s eq_refl eq_refl) as (Heq & Hchecked & _).
  destruct (Hcycle s eq_refl) as [Hguard Hok].
  destruct (Hfailed s [Some a] [Some c] b eq_refl ltac:(done) eq_refl eq_refl eq_refl)
    as (Hrun & _ & Hrec).
  assert (Hnot : streamId b ∉ batch_ids [Some c]).
  { intros Hin. apply list_elem_of_singleton in Hin. discriminate Hin. }
  destruct (Hrec Hnot) as [Hb Hnext].
  split; [exact Heq|]. split; [exact Hchecked|]. split; [exact Hguard|].
  split; [exact (f_equal fst Hrun)|].
  split; [reflexivity|].
  split; [exact Hb|exact Hnext].
Defined.

(** A forced poll of the active channel. *)
Lemma forcePoll_frame_witness :
  let env := sample_env [sample_channel "x" []] true (Resolved None) in
  let s := sample_state (Some "x") [] [] in
  forcePollChannel env "x" s = (Ok tt, s).
Proof.
  intros env s. exact (proj1 (forcePoll_frame env "x" s) eq_refl).
Defined.

(** A rejected fetch for a channel with 5 unread entries and one
    observer. *)
Lemma check_activity_failure_witness :
  let env := sample_env [sample_channel "x" []] true Rejected in
  let s := sample_state None [("x", mkActivity 50 5 7)] [3%nat] in
  let r := checkChannelActivity env (sample_channel "x" []) s in
  result r = Throw FetchError
  ∧ channelActivity (mgr (final r)) !! "x" = Some (mkActivity 50 5 100002)
  ∧ filter is_notify (issued s r) = [].
Proof.
  intros env s r.
  destruct (check_activity_failure env (sample_channel "x" []) s eq_refl)
    as (Hres & Hrec & _ & _ & Hquiet & _).
  split; [exact Hres|]. split; [|exact Hquiet].
  exact (Hrec (mkActivity 50 5 7) eq_refl).
Defined.

(** ** Instances for the rest of the interface *)

(** Clearing the active channel "x" when the transport rejects the
    unsubscribe request. *)
Lemma clearActive_idempotent_witness :
  let env := sample_env [] false Rejected in
  let s := sample_state (Some "x") [] [] in
  let r := clearActiveChannel env s in
  activeChannelId (mgr (final r)) = None
  ∧ then_run r (clearActiveChannel env) = (Ok tt, final r).
Proof.
  intros env s r.
  destruct (clearActive_idempotent env s) as (_ & _ & Hx).
  destruct (Hx "x" eq_refl ltac:(done)) as (Hp & _ & _ & Hagain).
  by split.
Defined.

(** Removing the active channel "x", which has a record: with a store
    that holds another last opened channel, and with a store that holds
    "x" and rejects the write. *)
Lemma removeChannel_forgets_witness :
  let env := sample_env [] true Rejected in
  let s := sample_state (Some "x") [("x", mkActivity 50 5 7)] [] in
  let r := removeChannel env "x" s in
  let r' := removeChannel (with_store (Some "x") false env) "x" s in
  result r = Ok tt
  ∧ activeChannelId (mgr (final r)) = None
  ∧ ev <$> issued s r = []
  ∧ result (getUnreadCount "x" (final r)) = Ok 0
  ∧ result r' = Throw StoreError
  ∧ channelActivity (mgr (final r')) !! "x" = None
  ∧ ev <$> issued s r' = [EvSetLastOpenedChannel None].
Proof.
  intros env s r r'.
  destruct (removeChannel_forgets env "x" s) as (Hres & _ & Ha & _ & Hev & _ & Hu).
  destruct (removeChannel_forgets (with_store (Some "x") false env) "x" s)
    as (Hres' & Hrec' & _ & _ & Hev' & _).
  split; [exact Hres|]. split; [exact (proj1 (Ha eq_refl))|].
  split; [exact Hev|]. split; [exact Hu|].
  split; [exact Hres'|]. split; [|exact Hev'].
  fold r' in Hrec'. rewrite Hrec'. reflexivity.
Defined.

(** Clearing the 5 unread entries of "x". *)
Lemma clearUnread_resets_witness :
  let s := sample_state None [("x", mkActivity 50 5 7)] [] in
  channelActivity (mgr (final (clearUnreadCount "x" s))) !! "x"
    = Some (mkActivity 50 0 7)
  ∧ clearUnreadCount "y" s = (Ok tt, s).
Proof.
  intros s.
  destruct (clearUnread_resets "x" s) as (_ & Hsome & _).
  destruct (clearUnread_resets "y" s) as (Hnone & _).
  split.
  - rewrite (Hsome (mkActivity 50 5 7) eq_refl). apply lookup_insert_eq.
  - exact (Hnone eq_refl).
Defined.

(** Two checks in a row that fetch 90, 110, 120 with a stored time of
    100: the second one counts nothing. *)
Lemma check_activity_seen_messages_witness :
  let fetched := Some [mkMessage (Some 90); mkMessage (Some 110);
                       mkMessage (Some 120)] in
  let env := sample_env [sample_channel "ch1" []] true (Resolved fetched) in
  let s := sample_state None [("ch1", mkActivity 100 4 0)] [7%nat] in
  let s1 := final (checkChannelActivity env (sample_channel "ch1" []) s) in
  let r2 := checkChannelActivity env (sample_channel "ch1" []) s1 in
  unreadCount (currentActivity (mgr s1) "ch1") = 6
  ∧ unreadCount (currentActivity (mgr (final r2)) "ch1") = 6
  ∧ filter is_notify (issued s1 r2) = [].
Proof.
  intros fetched env s s1 r2.
  destruct (check_activity_seen_messages env (sample_channel "ch1" []) s
              fetched fetched eq_refl ltac:(done)) as [Hsecond _].
  destruct (Hsecond eq_refl) as (_ & Hu & _ & Hq).
  split; [reflexivity|]. split; [|exact Hq].
  etrans; [exact Hu|reflexivity].
Defined.

(** The observer 7 registered twice and removed once. *)
Lemma observers_registry_witness :
  let env := sample_env [] true Rejected in
  let s := sample_state None [] [3%nat] in
  activityHandlers
    (mgr (final (offActivity (Some 7%nat)
                   (final (onActivity (Some 7%nat)
                             (final (onActivity (Some 7%nat) s)))))))
  = [3%nat]
  ∧ offActivity (Some 7%nat) s = (Ok tt, s).
Proof.
  intros env s.
  destruct (observers_registry env 7%nat s) as (_ & _ & _ & Hnot & Htwice & _).
  split; [exact Htwice|]. apply Hnot.
  intros Hin. apply list_elem_of_singleton in Hin. discriminate Hin.
Defined.

(** A start with two registry channels, one of which has a record. *)
Lemma start_poller_witness :
  let env := sample_env [sample_channel "a" []; sample_channel "b" []] true Rejected in
  let s := sample_state None [("a", mkActivity 50 5 7)] [] in
  let r := startBackgroundPoller env s in
  ev <$> issued s r = [EvSetInterval 30000; EvSetTimeout 5000]
  ∧ channelActivity (mgr (final r)) !! "a" = Some (mkActivity 50 5 7)
  ∧ channelActivity (mgr (final r)) !! "b" = Some (mkActivity 0 0 0)
  ∧ then_run r (startBackgroundPoller env) = (Ok tt, final r).
Proof.
  intros env s r.
  destruct (start_poller env s) as (_ & _ & Hstart).
  destruct (Hstart eq_refl) as (Hev & _ & Hkeep & Hnew & _ & Hagain).
  split; [exact Hev|]. split; [exact (Hkeep "a" _ eq_refl)|].
  split.
  - apply (Hnew (sample_channel "b" [])); [|reflexivity].
    apply list_elem_of_further, list_elem_of_here.
  - apply Hagain. reflexivity.
Defined.

(** A stop of a poller that holds the handle 1. *)
Lemma stop_poller_witness :
  let env := sample_env [] true Rejected in
  let s := final (startBackgroundPoller env (sample_state None [] [])) in
  let r := stopBackgroundPoller s in
  backgroundPoller (mgr (final r)) = None
  ∧ then_run r stopBackgroundPoller = (Ok tt, final r)
  ∧ ev <$> issued (final r) (startBackgroundPoller env (final r)) =
      [EvSetInterval 30000; EvSetTimeout 5000].
Proof.
  intros env s r.
  destruct (stop_poller env s) as (_ & Hstop).
  destruct (Hstop 1 eq_refl ltac:(done)) as (Hrun & Hagain & Hrestart).
  split; [unfold r; by rewrite Hrun|]. split; [exact Hagain|exact Hrestart].
Defined.

(** A poll interval of 60000 configured while the poller runs. *)
Lemma updateConfig_interval_witness :
  let env := sample_env [] true Rejected in
  let s := final (startBackgroundPoller env (sample_state None [] [])) in
  let s1 := final (updateConfig (poll_interval_only 60000) s) in
  let s2 := final (stopBackgroundPoller s1) in
  startBackgroundPoller env s1 = (Ok tt, s1)
  ∧ ev <$> issued s2 (startBackgroundPoller env s2) =
      [EvSetInterval 60000; EvSetTimeout 5000].
Proof.
  intros env s s1 s2.
  destruct (updateConfig_interval env (poll_interval_only 60000) s eq_refl)
    as (_ & _ & Hnoop & Harm).
  split; [exact Hnoop|exact Harm].
Defined.

(** The queries after an activation of "x" that the transport rejects. *)
Lemma pointer_queries_witness :
  let env := sample_env [] false Rejected in
  let s := sample_state None [] [] in
  let s1 := final (setActiveChannel env (Some "x") None None s) in
  let s2 := final (clearActiveChannel env s1) in
  isActiveChannel (Some "x") s1 = (Ok true, s1)
  ∧ isActiveChannel None s2 = (Ok true, s2).
Proof.
  intros env s s1 s2.
  destruct (pointer_queries env "x" None None s ltac:(done))
    as (H1 & _ & _ & _ & H2 & _).
  split; [exact H1|exact H2].
Defined.

(** A cycle triggered while another one is in progress. *)
Lemma poll_cycle_skips_witness :
  let env := sample_env [sample_channel "a" []] true Rejected in
  let s := sample_polling (sample_state None [] []) in
  pollBackgroundChannels env s = (Ok tt, s).
Proof.
  intros env s. apply (poll_cycle_skips env s). by left.
Defined.

(** One background channel, checked 1000 ms ago. *)
Lemma poll_cycle_all_cooling_witness :
  let env := sample_env [sample_channel "a" []] true Rejected in
  let s := sample_state None [("a", mkActivity 0 0 99000)] [] in
  hist (final (pollBackgroundChannels env s)) = []
  ∧ channelActivity (mgr (final (pollBackgroundChannels env s))) !! "a"
    = Some (mkActivity 0 0 99000).
Proof.
  intros env s.
  assert (Hrun := poll_cycle_all_cooling env s eq_refl ltac:(done) ltac:(done)).
  rewrite Hrun; [by split|].
  intros c Hc.
  change (channelsToPoll (mgr s) (backgroundChannels env (mgr s)))
    with [Some (sample_channel "a" [])] in Hc.
  apply list_elem_of_singleton in Hc. injection Hc as ->. reflexivity.
Defined.

(** A negative batch size moves the cursor below zero, and the first cycle
    after the batch size is positive again throws. *)
Lemma poll_cycle_negative_cursor_witness :
  let chans := [sample_channel "a" []; sample_channel "b" []; sample_channel "c" []] in
  let env := sample_env chans true (Resolved None) in
  let s1 := final (host_call env (CallUpdateConfig (batch_size_only (-2)))
                     (sample_state None [] [])) in
  let s2 := final (pollBackgroundChannels env s1) in
  let s3 := final (host_call env (CallUpdateConfig (batch_size_only 3)) s2) in
  pollIndex (mgr s3) = -2
  ∧ result (pollBackgroundChannels env s3) = Throw TypeError
  ∧ isPolling (mgr (final (pollBackgroundChannels env s3))) = false.
Proof.
  intros chans env s1 s2 s3.
  assert (Hrun := poll_cycle_negative_cursor env s3 eq_refl
                    ltac:(by vm_compute) ltac:(by vm_compute)).
  split; [reflexivity|]. by rewrite Hrun.
Defined.

(** Four background channels and the default batch size 3. *)
Lemma poll_cycle_bounded_witness :
  let chans := [sample_channel "a" []; sample_channel "b" []; sample_channel "c" [];
                sample_channel "d" []] in
  let env := sample_env chans true (Resolved None) in
  let s := sample_state None [] [] in
  Z.of_nat (length (filter is_fetch
                      (ev <$> issued s (pollBackgroundChannels env s)))) ≤ 3.
Proof.
  intros chans env s. exact (proj1 (poll_cycle_bounded env s)).
Defined.

(** A state reached by a start, a negative batch size, a forced poll that
    finds two new entries and a cycle. *)
Lemma run_state_unread_nonneg_witness :
  let fetched := Resolved (Some [mkMessage (Some 110); mkMessage (Some 120)]) in
  let env := sample_env [sample_channel "a" []; sample_channel "b" []] true fetched in
  let s1 := final (host_call env CallStart (mkSys constructor [])) in
  let s2 := final (host_call env (CallUpdateConfig (batch_size_only (-2))) s1) in
  let s3 := final (host_call env (CallForcePoll "a") s2) in
  let s4 := final (pollBackgroundChannels env s3) in
  unread_nonneg (mgr s4)
  ∧ channelActivity (mgr s3) !! "a" = Some (mkActivity 120 2 100004).
Proof.
  intros fetched env s1 s2 s3 s4. split; [|reflexivity].
  apply (run_state_unread_nonneg env).
  apply run_poll, run_call, run_call, run_call, run_start.
Defined.

(** A state reached by an activation whose subscribe request is rejected,
    a cycle with a negative batch size, and a cycle that throws. *)
Lemma run_state_pointer_guard_witness :
  let chans := [sample_channel "a" []; sample_channel "b" []; sample_channel "c" [];
                sample_channel "d" []] in
  let env := sample_env chans false (Resolved None) in
  let s1 := final (host_call env (CallSetActive (Some "a") None None)
                     (mkSys constructor [])) in
  let s2 := final (host_call env (CallUpdateConfig (batch_size_only (-2))) s1) in
  let s3 := final (pollBackgroundChannels env s2) in
  let s4 := final (host_call env (CallUpdateConfig (batch_size_only 3)) s3) in
  let s5 := final (pollBackgroundChannels env s4) in
  result (host_call env (CallSetActive (Some "a") None None) (mkSys constructor []))
    = Throw SubscribeError
  ∧ result (pollBackgroundChannels env s4) = Throw TypeError
  ∧ pointer_wf (mgr s5) ∧ isPolling (mgr s5) = false.
Proof.
  intros chans env s1 s2 s3 s4 s5.
  split; [reflexivity|]. split; [reflexivity|].
  apply (run_state_pointer_guard env).
  apply run_poll, run_call, run_poll, run_call, run_call, run_start.
Defined.

(** A state reached by configuring the batch size 2 and running a cycle. *)
Lemma reachable_cursor_nonneg_witness :
  let env := sample_env [sample_channel "a" []; sample_channel "b" [];
                         sample_channel "c" []] true (Resolved None) in
  let s1 := final (host_call env (CallUpdateConfig (batch_size_only 2))
                     (mkSys constructor [])) in
  let s2 := final (pollBackgroundChannels env s1) in
  0 ≤ pollIndex (mgr s2) ∧ 0 ≤ POLL_BATCH_SIZE (config (mgr s2)).
Proof.
  intros env s1 s2.
  apply (reachable_cursor_nonneg env).
  apply reach_poll, reach_call; [|by vm_compute]. apply reach_start.
Defined.

(** ** Instances for the modal manager *)

(** Opening and closing the add-contact modal. *)
Lemma add_contact_flow_witness :
  let s' := Modal.showAddContactModal "0xabc" sample_modals in
  let s'' := Modal.hideAddContactModal s' in
  Modal.getPendingData "contactAddress" s' = Some (Modal.JString "0xabc")
  ∧ Modal.isVisible "add-contact-nickname-modal" s' = Some true
  ∧ Modal.getPendingData "contactAddress" s'' = None
  ∧ Modal.getPendingData "other" s'' = Some (Modal.JString "kept").
Proof.
  intros s' s''.
  destruct (add_contact_flow "0xabc" sample_modals) as [_ Hflow].
  destruct (Hflow _ _ _ eq_refl eq_refl eq_refl)
    as (Hp & _ & _ & Hv & _ & _ & Hgone & _ & Hkept).
  split; [exact Hp|]. split; [exact Hv|]. split; [exact Hgone|].
  etrans; [apply Hkept; done|reflexivity].
Defined.

(** Opening the remove-contact modal without a callback, and closing it. *)
Lemma remove_contact_flow_witness :
  let s' := Modal.showRemoveContactModal "0xabc" None sample_modals in
  let s'' := Modal.hideRemoveContactModal s' in
  Modal.getPendingData "removeContactCallback" s' = Some Modal.JNull
  ∧ Modal.getPendingData "removeContactAddress" s'' = None
  ∧ Modal.isVisible "remove-contact-modal" s'' = Some false.
Proof.
  intros s' s''.
  destruct (remove_contact_flow "0xabc" None sample_modals) as [_ Hflow].
  destruct (Hflow _ _ eq_refl eq_refl) as (_ & Hcb & _ & _ & Hgone & _ & Hv & _).
  split; [exact Hcb|]. split; [exact Hgone|exact Hv].
Defined.

(** Clearing one pending entry. *)
Lemma pending_data_clear_witness :
  Modal.getPendingData "other" (Modal.clearPendingData (Some "other") sample_modals)
  = None.
Proof.
  assert (Hplain : Modal.plain_key "other").
  { unfold Modal.plain_key, Modal.inherited_keys. intros Hin.
    repeat (apply elem_of_cons in Hin as [Hin|Hin]; [discriminate Hin|]).
    by apply elem_of_nil in Hin. }
  destruct (pending_data_clear "other" Modal.JNull Modal.JNull sample_modals Hplain)
    as (_ & _ & Hclear & _).
  exact (proj1 (Hclear ltac:(done))).
Defined.

(** Toggling a hidden modal twice. *)
Lemma modal_visibility_witness :
  Modal.toggle "remove-contact-modal" (Modal.toggle "remove-contact-modal" sample_modals)
  = sample_modals
  ∧ Modal.isVisible "missing" sample_modals = None.
Proof.
  destruct (modal_visibility "remove-contact-modal" sample_modals) as (_ & Hel & _).
  destruct (Hel _ eq_refl) as (_ & _ & _ & Htwice & _).
  destruct (modal_visibility "missing" sample_modals) as (Hnone & _).
  split; [exact Htwice|]. exact (proj2 (proj2 (Hnone eq_refl))).
Defined.

(** Pre-filling the join modal of a closed channel; the name input is not
    in the document. *)
Lemma join_closed_modal_witness :
  let s' := Modal.showJoinClosedChannelModal None sample_modals in
  Modal.getElementById "join-closed-stream-id-input" s'
  = Some (Modal.mkElement false "" "" false)
  ∧ Modal.isVisible "join-closed-channel-modal" s' = Some true.
Proof.
  intros s'.
  destruct (join_closed_modal None sample_modals) as (Hid & _ & Hv & _).
  split; [exact Hid|exact Hv].
Defined.
